(** * Real-estate exploration: filter proxy, sort, export and map rendering

    A shallow embedding of [exploration.py] (PandasModel,
    RealEstateFilterProxy, ExplorationTab, CartographyTab) and of
    [cartographie.py] (CartographyDynamic), with the properties of the
    filtering / sorting engine and of the map renderer.

    Conventions of the embedding.
    - Python text is ASCII text ([string]); [str.lower], [str.strip],
      [in] and [str.replace] are written out on it.
    - A Python [int] (or numpy integer) is a [Z]; a Python [float] is NaN,
      an infinity, or a finite value carried as the exact rational it
      denotes ([Q]); comparisons are the exact ones.
    - Exceptions are explicit: a computation that may raise returns a
      [result]. *)

From Stdlib Require Import ZArith QArith Qround Qabs Bool List String Ascii Lia.
From Stdlib Require Import Sorted Permutation.
Import ListNotations.
Open Scope string_scope.
Open Scope Z_scope.

(** ** Exceptions *)

Inductive exn : Type :=
| IndexError
| KeyError (key : string)
| TypeError
| ValueError (msg : string)
| ReError.

Inductive result (A : Type) : Type :=
| Ok (a : A)
| Raise (e : exn).
Arguments Ok {A} a.
Arguments Raise {A} e.

Definition bind {A B : Type} (m : result A) (k : A -> result B) : result B :=
  match m with
  | Ok a => k a
  | Raise e => Raise e
  end.

Notation "x <- m ;; k" := (bind m (fun x => k))
  (at level 61, m at next level, right associativity).

Fixpoint mapM {A B : Type} (f : A -> result B) (l : list A) : result (list B) :=
  match l with
  | [] => Ok []
  | a :: l' => b <- f a ;; bs <- mapM f l' ;; Ok (b :: bs)
  end.

(** ** Python values *)

(** A float: NaN, an infinity, or a finite value. A finite value is
    carried as the rational it denotes, so the sign of a zero is not kept:
    [0.0] and [-0.0], which are equal for every comparison and differ only
    in the sign of their text, are one value here. *)
Inductive pyfloat : Type :=
| FNaN
| FInf (negative : bool)
| FFinite (q : Q).

(** A cell of a DataFrame as [df.iat] hands it out: [None], an integer, a
    float (NaN is how pandas stores a missing value) or a string. *)
Inductive cell : Type :=
| CNone
| CInt (z : Z)
| CFloat (f : pyfloat)
| CStr (s : string).

(** [isinstance(v, (int, float, np.integer, np.floating))] *)
Definition is_number (v : cell) : bool :=
  match v with
  | CInt _ | CFloat _ => true
  | _ => false
  end.

Definition Qltb (a b : Q) : bool := negb (Qle_bool b a).

(** [v < bound] and [v > bound] for a number [v] and a float bound; every
    comparison with NaN is false. *)
Definition float_lt (f : pyfloat) (b : Q) : bool :=
  match f with
  | FNaN => false
  | FInf negative => negative
  | FFinite q => Qltb q b
  end.

Definition float_gt (f : pyfloat) (b : Q) : bool :=
  match f with
  | FNaN => false
  | FInf negative => negb negative
  | FFinite q => Qltb b q
  end.

Definition to_float (v : cell) : pyfloat :=
  match v with
  | CInt z => FFinite (inject_Z z)
  | CFloat f => f
  | _ => FNaN
  end.

Definition num_lt (v : cell) (b : Q) : bool := float_lt (to_float v) b.
Definition num_gt (v : cell) (b : Q) : bool := float_gt (to_float v) b.
Definition num_ge (v : cell) (b : Q) : bool :=
  match to_float v with
  | FNaN => false
  | FInf negative => negb negative
  | FFinite q => Qle_bool b q
  end.
Definition num_le (v : cell) (b : Q) : bool :=
  match to_float v with
  | FNaN => false
  | FInf negative => negative
  | FFinite q => Qle_bool q b
  end.

(** Truth value of a cell, as [v or ""] tests it. *)
Definition truthy (v : cell) : bool :=
  match v with
  | CNone => false
  | CInt z => negb (z =? 0)
  | CFloat FNaN => true
  | CFloat (FInf _) => true
  | CFloat (FFinite q) => negb (Qeq_bool q 0)
  | CStr s => negb (s =? "")%string
  end.

(** ** Text *)

Definition lower_ascii (c : ascii) : ascii :=
  let n := nat_of_ascii c in
  if (Nat.leb 65 n && Nat.leb n 90)%bool then ascii_of_nat (n + 32) else c.

(** [s.lower()] *)
Fixpoint lower (s : string) : string :=
  match s with
  | EmptyString => EmptyString
  | String c s' => String (lower_ascii c) (lower s')
  end.

(** [needle in hay] *)
Fixpoint contains (needle hay : string) : bool :=
  if prefix needle hay then true
  else match hay with
       | EmptyString => false
       | String _ hay' => contains needle hay'
       end.

(** Whitespace removed by [str.strip()]. *)
Definition is_space (c : ascii) : bool :=
  let n := nat_of_ascii c in
  ((Nat.leb 9 n && Nat.leb n 13) || (Nat.leb 28 n && Nat.leb n 32))%bool.

Fixpoint lstrip (s : string) : string :=
  match s with
  | EmptyString => EmptyString
  | String c s' => if is_space c then lstrip s' else s
  end.

Fixpoint rstrip (s : string) : string :=
  match s with
  | EmptyString => EmptyString
  | String c s' =>
      match rstrip s' with
      | EmptyString => if is_space c then EmptyString else String c EmptyString
      | r => String c r
      end
  end.

(** [s.strip()] *)
Definition strip (s : string) : string := rstrip (lstrip s).

(** [s.replace(old, new)] for a non-empty [old]: occurrences are replaced
    left to right without overlap; [skip] counts the characters of a match
    still to be dropped. *)
Fixpoint replace_from (old new : string) (skip : nat) (s : string) : string :=
  match s with
  | EmptyString => EmptyString
  | String c s' =>
      match skip with
      | S k => replace_from old new k s'
      | O =>
          if prefix old s
          then new ++ replace_from old new (String.length old - 1) s'
          else String c (replace_from old new 0 s')
      end
  end.

Definition replace (old new s : string) : string := replace_from old new 0 s.

(** ** Number formatting *)

Definition digit_char (d : Z) : ascii := ascii_of_nat (48 + Z.to_nat d).

(** Decimal digits of a non-negative integer, most significant first;
    [fuel] bounds the number of digits. *)
Fixpoint digits_fuel (fuel : nat) (n : Z) (acc : string) : string :=
  match fuel with
  | O => acc
  | S fuel' =>
      let acc' := String (digit_char (n mod 10)) acc in
      if n / 10 =? 0 then acc' else digits_fuel fuel' (n / 10) acc'
  end.

Definition digits (n : Z) : string :=
  digits_fuel (S (Z.to_nat (Z.log2 n))) n EmptyString.

(** The [,] option of the format mini-language: a comma before every digit
    whose distance to the end is a positive multiple of three. *)
Fixpoint group3 (s : string) : string :=
  match s with
  | EmptyString => EmptyString
  | String c s' =>
      let n := String.length s' in
      String c (if (Nat.ltb 0 n && Nat.eqb (n mod 3) 0)%bool
                then String "," (group3 s') else group3 s')
  end.

Definition sign_text (negative : bool) : string :=
  if negative then "-" else "".

(** [f"{z:,}"] for an integer. *)
Definition format_int_comma (z : Z) : string :=
  sign_text (z <? 0) ++ group3 (digits (Z.abs z)).

(** Rounding of a non-negative rational to the nearest integer, ties to
    even, as the [f] presentation rounds. *)
Definition round_half_even (x : Q) : Z :=
  let f := Qfloor x in
  match Qcompare (x - inject_Z f)%Q (1 # 2)%Q with
  | Lt => f
  | Gt => f + 1
  | Eq => if Z.even f then f else f + 1
  end.

Fixpoint zero_pad (width : nat) (s : string) : string :=
  match width with
  | O => s
  | S w => if Nat.ltb (String.length s) width then String "0" (zero_pad w s) else s
  end.

(** [f"{x:,.{d}f}"] for a float. *)
Definition format_float_comma (d : nat) (f : pyfloat) : string :=
  match f with
  | FNaN => "nan"
  | FInf negative => sign_text negative ++ "inf"
  | FFinite q =>
      let scale := 10 ^ Z.of_nat d in
      let n := round_half_even (Qabs q * inject_Z scale)%Q in
      sign_text (Qltb q 0) ++ group3 (digits (n / scale)) ++
      match d with
      | O => ""
      | _ => "." ++ zero_pad d (digits (n mod scale))
      end
  end.

(** ** DataFrame *)

(** A pandas DataFrame: the column labels, the row labels (the index) and
    the rows, each row holding one cell per column. *)
Record DataFrame : Type := mkDataFrame {
  columns : list string;
  index : list nat;
  data : list (list cell)
}.

(** [df.reset_index(drop=True)]: the rows are labelled by their position. *)
Definition reset_index (df : DataFrame) : DataFrame :=
  mkDataFrame (columns df) (seq 0 (List.length (data df))) (data df).

(** [len(df)] *)
Definition len (df : DataFrame) : nat := List.length (data df).

(** [list(cols).index(name)]: the first position of [name], if any. *)
Fixpoint index_of (name : string) (cols : list string) : option nat :=
  match cols with
  | [] => None
  | c :: cols' =>
      if (c =? name)%string then Some O
      else option_map S (index_of name cols')
  end.

(** [df.iat[row, col]]; out of range is an IndexError. *)
Definition iat (df : DataFrame) (row col : nat) : result cell :=
  match nth_error (data df) row with
  | None => Raise IndexError
  | Some r =>
      match nth_error r col with
      | None => Raise IndexError
      | Some v => Ok v
      end
  end.

(** Every row has one cell per column and one label, as pandas
    guarantees. *)
Definition rectangular (df : DataFrame) : Prop :=
  List.length (index df) = List.length (data df) /\
  Forall (fun r => List.length r = List.length (columns df)) (data df).

(** ** PandasModel *)

Record PandasModel : Type := mkPandasModel { _df : DataFrame }.

(** [PandasModel.__init__] *)
Definition new_PandasModel (df : DataFrame) : PandasModel :=
  mkPandasModel (reset_index df).

Definition dataframe (model : PandasModel) : DataFrame := _df model.

Definition rowCount (model : PandasModel) : nat := len (_df model).

(** [PandasModel.columnCount] on the root index. *)
Definition columnCount (model : PandasModel) : nat :=
  List.length (columns (_df model)).

Inductive ItemRole : Type := DisplayRole | EditRole | OtherRole.

(** The formatting of [PandasModel.data]: integers and floats with a space
    between thousands, floats with two decimals unless they are [.00]; the
    last two cases are [str(val)]. *)
Definition display_text (val : cell) : string :=
  match val with
  | CInt z => replace "," " " (format_int_comma z)
  | CFloat f => replace ".00" "" (replace "," " " (format_float_comma 2 f))
  | CStr s => s
  | CNone => "None"
  end.

(** [PandasModel.data]: the text shown for a cell. An invalid index is
    [None]. *)
Definition PandasModel_data (model : PandasModel) (index : option (nat * nat))
    (role : ItemRole) : result (option string) :=
  match index with
  | None => Ok None
  | Some (row, column) =>
      match role with
      | OtherRole => Ok None
      | _ =>
          val <- iat (_df model) row column ;;
          Ok (Some (display_text val))
      end
  end.

(** ** RealEstateFilterProxy *)

Record RealEstateFilterProxy : Type := mkProxy {
  min_price : option Q;
  max_price : option Q;
  min_space : option Q;
  max_space : option Q;
  min_beds : option Q;
  max_beds : option Q;
  city_substr : string;
  state_exact : string;
  min_income : option Q;
  max_income : option Q;
  search_text : string;
  sourceModel : option PandasModel
}.

(** [RealEstateFilterProxy.__init__], then [setSourceModel]. *)
Definition new_proxy (model : option PandasModel) : RealEstateFilterProxy :=
  mkProxy None None None None None None "" "" None None "" model.

Definition _col (self : RealEstateFilterProxy) (name : string) : Z :=
  match sourceModel self with
  | None => -1
  | Some model =>
      match index_of name (columns (dataframe model)) with
      | Some i => Z.of_nat i
      | None => -1
      end
  end.

Definition is_none (v : cell) : bool :=
  match v with CNone => true | _ => false end.

(** [bound is not None and v < bound] *)
Definition below (v : cell) (bound : option Q) : bool :=
  match bound with
  | Some b => num_lt v b
  | None => false
  end.

(** [bound is not None and v > bound] *)
Definition above (v : cell) (bound : option Q) : bool :=
  match bound with
  | Some b => num_gt v b
  | None => false
  end.

(** [a or b] *)
Definition py_or (a b : cell) : cell := if truthy a then a else b.

Definition nonempty (s : string) : bool := negb (s =? "")%string.

Section Filter.

(** [repr] of a finite float (the shortest decimal that reads back as the
    same float) is Python's own; it is a parameter of the development. *)
Variable float_repr : Q -> string.

(** [str(v)] *)
Definition py_str (v : cell) : string :=
  match v with
  | CNone => "None"
  | CInt z => sign_text (z <? 0) ++ digits (Z.abs z)
  | CFloat FNaN => "nan"
  | CFloat (FInf negative) => sign_text negative ++ "inf"
  | CFloat (FFinite q) => float_repr q
  | CStr s => s
  end.

(** The local [val] of [filterAcceptsRow]. *)
Definition val (self : RealEstateFilterProxy) (df : DataFrame)
    (source_row : nat) (col_name : string) : result cell :=
  let col_idx := _col self col_name in
  if col_idx <? 0 then Ok CNone
  else iat df source_row (Z.to_nat col_idx).

Definition filterAcceptsRow (self : RealEstateFilterProxy)
    (source_row : nat) : result bool :=
  match sourceModel self with
  | None => Ok true
  | Some model =>
      let df := dataframe model in
      (* --- Filtres numeriques --- *)
      price <- val self df source_row "Price" ;;
      if (negb (is_none price) && is_number price
          && below price (min_price self))%bool then Ok false else
      if (negb (is_none price) && is_number price
          && above price (max_price self))%bool then Ok false else
      space <- val self df source_row "Living Space" ;;
      if (negb (is_none space) && is_number space
          && below space (min_space self))%bool then Ok false else
      if (negb (is_none space) && is_number space
          && above space (max_space self))%bool then Ok false else
      beds <- val self df source_row "Beds" ;;
      if (negb (is_none beds) && is_number beds
          && below beds (min_beds self))%bool then Ok false else
      if (negb (is_none beds) && is_number beds
          && above beds (max_beds self))%bool then Ok false else
      income <- val self df source_row "Median Household Income" ;;
      if (negb (is_none income) && is_number income
          && below income (min_income self))%bool then Ok false else
      if (negb (is_none income) && is_number income
          && above income (max_income self))%bool then Ok false else
      (* --- Filtres texte --- *)
      city_v <- val self df source_row "City" ;;
      let city := py_str (py_or city_v (CStr "")) in
      if (nonempty (city_substr self)
          && negb (contains (lower (city_substr self)) (lower city)))%bool
      then Ok false else
      state_v <- val self df source_row "State" ;;
      let state := py_str (py_or state_v (CStr "")) in
      if (nonempty (state_exact self)
          && negb (state =? state_exact self)%string)%bool
      then Ok false else
      address_v <- val self df source_row "Address" ;;
      let address := py_str (py_or address_v (CStr "")) in
      if (nonempty (search_text self)
          && negb (contains (lower (search_text self)) (lower address)))%bool
      then Ok false else
      Ok true
  end.

(** The filter pass of the proxy: the source rows, in source order, that
    [filterAcceptsRow] accepts. *)
Fixpoint accepted_rows (self : RealEstateFilterProxy) (rows : list nat)
    : result (list nat) :=
  match rows with
  | [] => Ok []
  | r :: rows' =>
      keep <- filterAcceptsRow self r ;;
      rest <- accepted_rows self rows' ;;
      Ok (if keep then r :: rest else rest)
  end.

(** The filter pass over the whole model: which source rows the proxy
    keeps, listed in source order. The order in which the proxy hands them
    to the table, to [export_csv] and to [_filtered_dataframe] is the one
    of its sort ([table_rows] below). *)
Definition visible_rows (self : RealEstateFilterProxy) : result (list nat) :=
  match sourceModel self with
  | None => Ok []
  | Some model => accepted_rows self (seq 0 (rowCount model))
  end.

End Filter.

(** ** ExplorationTab: the filter form *)

(** The values held by the widgets of the filter form. *)
Record FilterWidgets : Type := mkWidgets {
  spin_min_price : Q;
  spin_max_price : Q;
  spin_min_space : Q;
  spin_max_space : Q;
  spin_min_income : Q;
  spin_max_income : Q;
  spin_min_beds : Q;
  spin_max_beds : Q;
  edit_city : string;
  combo_state : string;
  edit_search : string
}.

(** [spin.value() or None] *)
Definition value_or_None (v : Q) : option Q :=
  if Qeq_bool v 0 then None else Some v.

(** [if bound == 0: bound = None] *)
Definition None_if_zero (bound : option Q) : option Q :=
  match bound with
  | Some v => if Qeq_bool v 0 then None else Some v
  | None => None
  end.

Definition _on_filters_changed (w : FilterWidgets)
    (proxy : RealEstateFilterProxy) : RealEstateFilterProxy :=
  {| min_price := value_or_None (spin_min_price w);
     max_price := None_if_zero (value_or_None (spin_max_price w));
     min_space := value_or_None (spin_min_space w);
     max_space := None_if_zero (value_or_None (spin_max_space w));
     min_income := value_or_None (spin_min_income w);
     max_income := None_if_zero (value_or_None (spin_max_income w));
     min_beds := value_or_None (spin_min_beds w);
     max_beds := None_if_zero (value_or_None (spin_max_beds w));
     city_substr := strip (edit_city w);
     state_exact := strip (combo_state w);
     search_text := strip (edit_search w);
     sourceModel := sourceModel proxy |}.

(** [_reset_filters]: every spin box to 0, both line edits cleared, the
    combo box on its first entry (the empty one), then one
    [_on_filters_changed]. *)
Definition reset_widgets : FilterWidgets :=
  mkWidgets 0 0 0 0 0 0 0 0 "" "" "".

Definition _reset_filters (proxy : RealEstateFilterProxy)
    : FilterWidgets * RealEstateFilterProxy :=
  (reset_widgets, _on_filters_changed reset_widgets proxy).

(** ** Sorting through the proxy

    [self.table.setSortingEnabled(True)]: a click on a header of the table
    sorts the proxy on that column. The proxy is a plain
    QSortFilterProxyModel, so it compares the DisplayRole data of the
    model, that is, the texts of [PandasModel.data]. *)

Inductive SortOrder : Type := AscendingOrder | DescendingOrder.

(** [QSortFilterProxyModel.lessThan] on the DisplayRole data of two cells:
    an invalid value is never smaller, any valid value is smaller than an
    invalid one, and two texts are compared case-sensitively, code unit by
    code unit. *)
Definition lessThan (l r : option string) : bool :=
  match l, r with
  | None, _ => false
  | Some _, None => true
  | Some a, Some b => String.ltb a b
  end.

Section StableSort.

Variable A : Type.
(** [before y x]: [y] has to come strictly before [x]. *)
Variable before : A -> A -> bool.

Fixpoint insert_stable (x : A) (l : list A) : list A :=
  match l with
  | [] => [x]
  | y :: l' => if before y x then y :: insert_stable x l' else x :: l
  end.

(** The order [std::stable_sort] produces: an element goes in front of the
    first later element that is not strictly before it. *)
Fixpoint stable_sort (l : list A) : list A :=
  match l with
  | [] => []
  | x :: l' => insert_stable x (stable_sort l')
  end.

End StableSort.
Arguments insert_stable {A} before x l.
Arguments stable_sort {A} before l.

(** The comparison the proxy sorts with, on rows paired with their text. *)
Definition row_before (order : SortOrder) (a b : nat * option string) : bool :=
  match order with
  | AscendingOrder => lessThan (snd a) (snd b)
  | DescendingOrder => lessThan (snd b) (snd a)
  end.

(** The text of every row of the proxy in the sort column. *)
Definition sort_keys (model : PandasModel) (column : nat) (rows : list nat)
    : result (list (nat * option string)) :=
  mapM (fun r =>
          k <- PandasModel_data model (Some (r, column)) DisplayRole ;;
          Ok (r, k)) rows.

(** [proxy.sort(column, order)] on the current rows of the proxy (source
    rows, in proxy order). *)
Definition sort_rows (model : PandasModel) (column : nat) (order : SortOrder)
    (rows : list nat) : result (list nat) :=
  keyed <- sort_keys model column rows ;;
  Ok (map fst (stable_sort (row_before order) keyed)).

(** ** ExplorationTab: the table

    The table shows the proxy. The proxy filters and sorts dynamically
    ([setDynamicSortFilter(True)] in its constructor), and the table has
    sorting enabled, so the proxy always has a sort: the section and the
    order of the sort indicator of the table's header. *)

Record ExplorationTab : Type := mkExplorationTab {
  proxy : RealEstateFilterProxy;
  sortIndicatorSection : nat;
  sortIndicatorOrder : SortOrder
}.

(** [ExplorationTab.__init__]: a model on the frame, a proxy on the model,
    and [self.table.setSortingEnabled(True)], which sorts the proxy at once
    by the sort indicator of the header; on a new header that is section 0
    in descending order. *)
Definition new_ExplorationTab (df : DataFrame) : ExplorationTab :=
  mkExplorationTab (new_proxy (Some (new_PandasModel df))) 0 DescendingOrder.


(** The slot [_on_filters_changed] on the tab: the proxy takes the values
    of the form and filters again; its sort stays. *)
Definition filters_changed (w : FilterWidgets) (self : ExplorationTab)
    : ExplorationTab :=
  mkExplorationTab (_on_filters_changed w (proxy self))
    (sortIndicatorSection self) (sortIndicatorOrder self).

(** The slot [_reset_filters] on the tab. *)
Definition filters_reset (self : ExplorationTab) : ExplorationTab :=
  mkExplorationTab (snd (_reset_filters (proxy self)))
    (sortIndicatorSection self) (sortIndicatorOrder self).

(** The rows of the proxy, as [self.proxy.mapToSource] gives them for the
    proxy rows 0, 1, ...: the source rows that [filterAcceptsRow] accepts,
    in the order of the sort on the text shown in the sort column. Rows
    showing the same text are listed in source order, which is how the
    sort run by [setSortingEnabled] leaves them; the properties below say
    nothing of the order among such rows. A section that is no column of
    the model sorts nothing. *)
Definition table_rows (float_repr : Q -> string) (self : ExplorationTab)
    : result (list nat) :=
  match sourceModel (proxy self) with
  | None => Ok []
  | Some model =>
      rows <- visible_rows float_repr (proxy self) ;;
      if Nat.ltb (sortIndicatorSection self) (columnCount model)
      then sort_rows model (sortIndicatorSection self)
             (sortIndicatorOrder self) rows
      else Ok rows
  end.

(** ** Export *)

(** [proxy.mapToSource(proxy.index(r, 0)).row()] *)
Definition mapToSource (proxy_rows : list nat) (r : nat) : result nat :=
  match nth_error proxy_rows r with
  | Some src => Ok src
  | None => Raise IndexError
  end.

(** The label and the cells of the row at a position. *)
Definition row_at (df : DataFrame) (r : nat) : result (nat * list cell) :=
  match nth_error (index df) r, nth_error (data df) r with
  | Some label, Some row => Ok (label, row)
  | _, _ => Raise IndexError
  end.

(** [df.iloc[rows]]: the rows at the given positions, in the given order,
    each with its label. *)
Definition iloc (df : DataFrame) (rows : list nat) : result DataFrame :=
  picked <- mapM (row_at df) rows ;;
  Ok (mkDataFrame (columns df) (map fst picked) (map snd picked)).

(** The loop shared by [export_csv] and [_filtered_dataframe]. *)
Definition _filtered_dataframe (model : PandasModel) (proxy_rows : list nat)
    : result DataFrame :=
  let df_all := dataframe model in
  rows <- mapM (mapToSource proxy_rows) (seq 0 (List.length proxy_rows)) ;;
  iloc df_all rows.

(** [export_csv]: nothing is written when the dialog gives no path;
    otherwise the result is the frame handed to [to_csv]. *)
Definition export_csv (path : string) (model : PandasModel)
    (proxy_rows : list nat) : result (option DataFrame) :=
  if (path =? "")%string then Ok None
  else
    df_filtered <- _filtered_dataframe model proxy_rows ;;
    Ok (Some df_filtered).

(** ** [float(...)] *)

Definition is_digit (c : ascii) : bool :=
  let n := nat_of_ascii c in (Nat.leb 48 n && Nat.leb n 57)%bool.

Definition digit_value (c : ascii) : Z := Z.of_nat (nat_of_ascii c - 48).

Definition starts_with_digit (s : string) : bool :=
  match s with
  | String c _ => is_digit c
  | EmptyString => false
  end.

(** Reads a run of digits, a single underscore being allowed between two
    digits: the accumulated value, the number of digits read, the rest. *)
Fixpoint read_digits (s : string) (acc : Z) (count : nat)
    : Z * nat * string :=
  match s with
  | EmptyString => (acc, count, s)
  | String c s' =>
      if is_digit c then read_digits s' (acc * 10 + digit_value c) (S count)
      else if (Ascii.eqb c "_" && Nat.ltb 0 count && starts_with_digit s')%bool
           then read_digits s' acc count
           else (acc, count, s)
  end.

(** An optional sign: whether it is a minus, and the rest. *)
Definition read_sign (s : string) : bool * string :=
  match s with
  | String "-" s' => (true, s')
  | String "+" s' => (false, s')
  | _ => (false, s)
  end.

(** The exponent part, if any; nothing may follow it. *)
Definition read_exponent (s : string) : option Z :=
  match s with
  | EmptyString => Some 0
  | String c s' =>
      if (Ascii.eqb c "e" || Ascii.eqb c "E")%bool then
        let (negative, s1) := read_sign s' in
        match read_digits s1 0 0 with
        | (e, S _, EmptyString) => Some (if negative then - e else e)
        | _ => None
        end
      else None
  end.

(** [float(s)] for a string: surrounding whitespace is dropped; then a
    sign, and either [inf], [infinity] or [nan] in any case, or a decimal
    number with an optional fraction and exponent. The value is the exact
    one the text denotes. *)
Definition float_of_string (s : string) : result pyfloat :=
  let (negative, body) := read_sign (strip s) in
  let word := lower body in
  if ((word =? "inf") || (word =? "infinity"))%string then Ok (FInf negative)
  else if (word =? "nan")%string then Ok FNaN
  else
    let '(ip, ic, r1) := read_digits body 0 0 in
    let '(mant, fc, r2) :=
      match r1 with
      | String "." r1' => read_digits r1' ip 0
      | _ => (ip, O, r1)
      end in
    if Nat.eqb (ic + fc) 0 then Raise (ValueError "could not convert string to float")
    else
      match read_exponent r2 with
      | None => Raise (ValueError "could not convert string to float")
      | Some e =>
          let q := (inject_Z mant * Qpower (10 # 1) (e - Z.of_nat fc))%Q in
          Ok (FFinite (if negative then Qopp q else q))
      end.

(** [float(v)] for a cell. *)
Definition py_float (v : cell) : result pyfloat :=
  match v with
  | CNone => Raise TypeError
  | CInt z => Ok (FFinite (inject_Z z))
  | CFloat f => Ok f
  | CStr s => float_of_string s
  end.

(** ** folium *)

Record Marker : Type := mkMarker {
  location : pyfloat * pyfloat;
  popup : string
}.

(** A rendered map: where it is centred, its tiles and zoom, and the
    markers of its cluster layer when it has one. *)
Record MapArtifact : Type := mkMap {
  center : Q * Q;
  tiles : string;
  zoom_start : Z;
  cluster : option (list Marker)
}.

(** The centre every map of the application is created with:
    [location=[39.5, -98.35]]. *)
Definition default_center : Q * Q := ((395 # 10)%Q, (- (9835 # 100))%Q).

Definition is_nan (f : pyfloat) : bool :=
  match f with FNaN => true | _ => false end.

(** One coordinate through folium's [validate_location]: it has to convert
    to a float and must not be NaN. *)
Definition validate_coord (v : cell) : result pyfloat :=
  match py_float v with
  | Raise _ =>
      Raise (ValueError "Location should consist of two numerical values")
  | Ok f =>
      if is_nan f then Raise (ValueError "Location values cannot contain NaNs")
      else Ok f
  end.

(** [folium.Marker([lat, lon], popup=html)] *)
Definition folium_Marker (lat lon : cell) (html : string) : result Marker :=
  la <- validate_coord lat ;;
  lo <- validate_coord lon ;;
  Ok (mkMarker (la, lo) html).

(** ** Rows as [iterrows] yields them *)

(** [row.get(name, default)] *)
Definition row_get (cols : list string) (row : list cell) (name : string)
    (default : cell) : cell :=
  match index_of name cols with
  | Some i => nth i row default
  | None => default
  end.

(** [row[name]] *)
Definition row_item (cols : list string) (row : list cell) (name : string)
    : result cell :=
  match index_of name cols with
  | Some i =>
      match nth_error row i with
      | Some v => Ok v
      | None => Raise IndexError
      end
  | None => Raise (KeyError name)
  end.

(** [name in df.columns] *)
Definition has_column (df : DataFrame) (name : string) : bool :=
  match index_of name (columns df) with Some _ => true | None => false end.

(** [f"${x:,.0f}"], which raises on a value that is not a number. *)
Definition format_price (x : cell) : result string :=
  match x with
  | CInt z => Ok ("$" ++ format_float_comma 0 (FFinite (inject_Z z)))
  | CFloat f => Ok ("$" ++ format_float_comma 0 f)
  | CStr _ => Raise (ValueError "Unknown format code 'f' for object of type 'str'")
  | CNone => Raise TypeError
  end.

(** ** CartographyTab *)

Section CartographyTab.

Variable float_repr : Q -> string.

(** numpy's generator is taken as it is: a state, how a seed makes one
    ([np.random.RandomState(seed)]), and the draw of [size] positions out
    of [range(population)] without replacement, which returns the positions
    and the state afterwards. *)
Variable rng : Type.
Variable RandomState : Z -> rng.
Variable choice : rng -> nat -> nat -> list nat * rng.

(** [df.sample(n, random_state=...)]: with a seed the draw comes from a
    generator of its own; without one it comes from the process-wide
    generator [np_random], which it advances. *)
Definition DataFrame_sample (df : DataFrame) (n : nat)
    (random_state : option Z) (np_random : rng) : result DataFrame * rng :=
  match random_state with
  | Some seed =>
      (iloc df (fst (choice (RandomState seed) (len df) n)), np_random)
  | None =>
      let (locs, np_random') := choice np_random (len df) n in
      (iloc df locs, np_random')
  end.

(** The first lines of [generate_map]: the rows it is going to draw. *)
Definition rows_to_draw (model : PandasModel) (proxy_rows : list nat)
    (n : nat) (np_random : rng) : result DataFrame * rng :=
  match _filtered_dataframe model proxy_rows with
  | Raise e => (Raise e, np_random)
  | Ok df_f =>
      if (Nat.ltb 0 n && Nat.ltb n (len df_f))%bool
      then DataFrame_sample df_f n (Some 42) np_random
      else (Ok df_f, np_random)
  end.

(** The popup text and marker of one row in [generate_map]. *)
Definition generate_marker (cols : list string) (row : list cell)
    : result Marker :=
  address <- row_item cols row "Address" ;;
  city <- row_item cols row "City" ;;
  state <- row_item cols row "State" ;;
  zip <- row_item cols row "Zip Code" ;;
  price <- row_item cols row "Price" ;;
  price_text <- format_price price ;;
  beds <- row_item cols row "Beds" ;;
  baths <- row_item cols row "Baths" ;;
  space <- row_item cols row "Living Space" ;;
  let html :=
    "<b>" ++ py_str float_repr address ++ "</b><br>" ++
    py_str float_repr city ++ ", " ++ py_str float_repr state ++
    " (" ++ py_str float_repr zip ++ ")<br>" ++
    "Price: " ++ price_text ++ "<br>" ++
    "Beds: " ++ py_str float_repr beds ++ " | Baths: " ++
    py_str float_repr baths ++ " | " ++
    "Living Space: " ++ py_str float_repr space ++ " ft²" in
  lat <- row_item cols row "Latitude" ;;
  lon <- row_item cols row "Longitude" ;;
  folium_Marker lat lon html.

Definition generate_map (model : PandasModel) (proxy_rows : list nat)
    (n : nat) (tiles_text : string) (zoom : Z) (np_random : rng)
    : result MapArtifact * rng :=
  match rows_to_draw model proxy_rows n np_random with
  | (Raise e, g) => (Raise e, g)
  | (Ok df_f, g) =>
      (markers <- mapM (generate_marker (columns df_f)) (data df_f) ;;
       Ok (mkMap default_center tiles_text zoom (Some markers)), g)
  end.

End CartographyTab.

(** ** cartographie.py *)

Module Cartographie.

Definition fmt_price (x : cell) : string :=
  match format_price x with
  | Ok s => s
  | Raise _ => "$0"
  end.

(** The frame and the values held by the widgets of the dynamic map. *)
Record CartographyDynamic : Type := mkCartographyDynamic {
  df : DataFrame;
  spin_min_price : Q;
  spin_max_price : Q;
  spin_min_beds : Q;
  spin_max_beds : Q;
  edit_city : string;
  combo_state : string
}.

(** [df[name]] as the list of its cells. *)
Definition column (d : DataFrame) (name : string) : result (list cell) :=
  match index_of name (columns d) with
  | None => Raise (KeyError name)
  | Some i =>
      mapM (fun row => match nth_error row i with
                       | Some v => Ok v
                       | None => Raise IndexError
                       end) (data d)
  end.

Fixpoint keep {A : Type} (mask : list bool) (l : list A) : list A :=
  match mask, l with
  | b :: mask', a :: l' => if b then a :: keep mask' l' else keep mask' l'
  | _, _ => []
  end.

(** [df[mask]] *)
Definition select (d : DataFrame) (mask : list bool) : DataFrame :=
  mkDataFrame (columns d) (keep mask (index d)) (keep mask (data d)).

(** One cell of [series >= bound] / [series <= bound]: a missing value
    compares false, a string cannot be compared with a float. *)
Definition cell_ge (bound : Q) (v : cell) : result bool :=
  match v with
  | CStr _ => Raise TypeError
  | CNone => Ok false
  | _ => Ok (num_ge v bound)
  end.

Definition cell_le (bound : Q) (v : cell) : result bool :=
  match v with
  | CStr _ => Raise TypeError
  | CNone => Ok false
  | _ => Ok (num_le v bound)
  end.

(** One cell of [series == state] *)
Definition cell_eq_text (text : string) (v : cell) : bool :=
  match v with
  | CStr s => (s =? text)%string
  | _ => false
  end.

Definition where_cells (d : DataFrame) (name : string)
    (test : cell -> result bool) : result DataFrame :=
  cells <- column d name ;;
  mask <- mapM test cells ;;
  Ok (select d mask).

(** [df.empty] *)
Definition empty (d : DataFrame) : bool :=
  (Nat.eqb (List.length (index d)) 0
   || Nat.eqb (List.length (columns d)) 0)%bool.

Inductive outcome : Type :=
| Shown (m : MapArtifact)
| Printed (e : exn).

Section Dynamic.

Variable float_repr : Q -> string.

(** Python's regular expressions are taken as they are:
    [re.compile(pattern, re.IGNORECASE)], which may reject the pattern,
    and then [search] on a text. *)
Variable re_compile_ignorecase : string -> result (string -> bool).

Definition filtered_df (self : CartographyDynamic) : result DataFrame :=
  let d := df self in
  let min_price := value_or_None (spin_min_price self) in
  let max_price := value_or_None (spin_max_price self) in
  let min_beds := value_or_None (spin_min_beds self) in
  let max_beds := value_or_None (spin_max_beds self) in
  let city := strip (edit_city self) in
  let state := strip (combo_state self) in
  d <- match min_price with
       | Some b => where_cells d "Price" (cell_ge b)
       | None => Ok d
       end ;;
  d <- match max_price with
       | Some b => where_cells d "Price" (cell_le b)
       | None => Ok d
       end ;;
  d <- match min_beds with
       | Some b => where_cells d "Beds" (cell_ge b)
       | None => Ok d
       end ;;
  d <- match max_beds with
       | Some b => where_cells d "Beds" (cell_le b)
       | None => Ok d
       end ;;
  d <- (if nonempty city then
          cells <- column d "City" ;;
          search <- re_compile_ignorecase city ;;
          Ok (select d (map (fun v => search (py_str float_repr v)) cells))
        else Ok d) ;;
  d <- (if nonempty state then
          cells <- column d "State" ;;
          Ok (select d (map (cell_eq_text state) cells))
        else Ok d) ;;
  Ok d.

(** The popup text of one row in [update_map]. *)
Definition popup_html (cols : list string) (row : list cell) : string :=
  "<b>" ++ py_str float_repr (row_get cols row "Address" (CStr "")) ++
  "</b><br>" ++
  py_str float_repr (row_get cols row "City" (CStr "")) ++ ", " ++
  py_str float_repr (row_get cols row "State" (CStr "")) ++ " (" ++
  py_str float_repr (row_get cols row "Zip Code" (CStr "")) ++ ")<br>" ++
  "Price: " ++ fmt_price (row_get cols row "Price" (CInt 0)) ++ "<br>" ++
  "Beds: " ++ py_str float_repr (row_get cols row "Beds" (CStr "?")) ++
  " | Baths: " ++ py_str float_repr (row_get cols row "Baths" (CStr "?")) ++
  " | " ++
  "Living Space: " ++
  py_str float_repr (row_get cols row "Living Space" (CStr "?")) ++ " ft²".

(** The loop of [update_map]: a row whose coordinates do not convert is
    passed over ([continue]); the others get a marker. *)
Fixpoint add_markers (cols : list string) (rows : list (list cell))
    : result (list Marker) :=
  match rows with
  | [] => Ok []
  | row :: rows' =>
      match (lat <- (v <- row_item cols row "Latitude" ;; py_float v) ;;
             lon <- (v <- row_item cols row "Longitude" ;; py_float v) ;;
             Ok (lat, lon)) with
      | Raise _ => add_markers cols rows'
      | Ok (lat, lon) =>
          let html := popup_html cols row in
          m <- folium_Marker (CFloat lat) (CFloat lon) html ;;
          ms <- add_markers cols rows' ;;
          Ok (m :: ms)
      end
  end.

(** The map without markers of the first branch of [update_map]:
    [folium.Map(location=[39.5, -98.35], zoom_start=4,
    tiles="CartoDB positron")]. *)
Definition empty_map : MapArtifact :=
  mkMap default_center "CartoDB positron" 4 None.

(** The body of the [try] of [update_map]. *)
Definition render (self : CartographyDynamic) : result MapArtifact :=
  df_f <- filtered_df self ;;
  if (empty df_f
      || negb (has_column df_f "Latitude" && has_column df_f "Longitude"))%bool
  then Ok empty_map
  else
    markers <- add_markers (columns df_f) (firstn 3000 (data df_f)) ;;
    Ok (mkMap default_center "CartoDB positron" 4 (Some markers)).

(** [update_map]: the map shown in the web view, or the exception that
    the outer [except] prints. *)
Definition update_map (self : CartographyDynamic) : outcome :=
  match render self with
  | Ok m => Shown m
  | Raise e => Printed e
  end.

End Dynamic.

End Cartographie.

(** * Properties *)

(** ** The filter predicates *)

Inductive numeric_column : Type := Price | LivingSpace | Beds | Income.

Definition column_name (c : numeric_column) : string :=
  match c with
  | Price => "Price"
  | LivingSpace => "Living Space"
  | Beds => "Beds"
  | Income => "Median Household Income"
  end.

(** The proxy with the two bounds of one numeric predicate replaced. *)
Definition with_bounds (c : numeric_column) (lo hi : option Q)
    (p : RealEstateFilterProxy) : RealEstateFilterProxy :=
  match c with
  | Price =>
      mkProxy lo hi (min_space p) (max_space p) (min_beds p) (max_beds p)
        (city_substr p) (state_exact p) (min_income p) (max_income p)
        (search_text p) (sourceModel p)
  | LivingSpace =>
      mkProxy (min_price p) (max_price p) lo hi (min_beds p) (max_beds p)
        (city_substr p) (state_exact p) (min_income p) (max_income p)
        (search_text p) (sourceModel p)
  | Beds =>
      mkProxy (min_price p) (max_price p) (min_space p) (max_space p) lo hi
        (city_substr p) (state_exact p) (min_income p) (max_income p)
        (search_text p) (sourceModel p)
  | Income =>
      mkProxy (min_price p) (max_price p) (min_space p) (max_space p)
        (min_beds p) (max_beds p) (city_substr p) (state_exact p) lo hi
        (search_text p) (sourceModel p)
  end.

Definition lower_bound (c : numeric_column) (p : RealEstateFilterProxy)
    : option Q :=
  match c with
  | Price => min_price p
  | LivingSpace => min_space p
  | Beds => min_beds p
  | Income => min_income p
  end.

Definition upper_bound (c : numeric_column) (p : RealEstateFilterProxy)
    : option Q :=
  match c with
  | Price => max_price p
  | LivingSpace => max_space p
  | Beds => max_beds p
  | Income => max_income p
  end.

Inductive text_column : Type := City | State | Address.

Definition text_column_name (c : text_column) : string :=
  match c with
  | City => "City"
  | State => "State"
  | Address => "Address"
  end.

(** The proxy with the needle of one text predicate replaced. *)
Definition with_needle (c : text_column) (needle : string)
    (p : RealEstateFilterProxy) : RealEstateFilterProxy :=
  match c with
  | City =>
      mkProxy (min_price p) (max_price p) (min_space p) (max_space p)
        (min_beds p) (max_beds p) needle (state_exact p) (min_income p)
        (max_income p) (search_text p) (sourceModel p)
  | State =>
      mkProxy (min_price p) (max_price p) (min_space p) (max_space p)
        (min_beds p) (max_beds p) (city_substr p) needle (min_income p)
        (max_income p) (search_text p) (sourceModel p)
  | Address =>
      mkProxy (min_price p) (max_price p) (min_space p) (max_space p)
        (min_beds p) (max_beds p) (city_substr p) (state_exact p)
        (min_income p) (max_income p) needle (sourceModel p)
  end.

Definition needle_of (c : text_column) (p : RealEstateFilterProxy) : string :=
  match c with
  | City => city_substr p
  | State => state_exact p
  | Address => search_text p
  end.

(** What a predicate of the proxy reads in a row: nothing when the proxy
    has no model, otherwise the result of the local [val]. *)
Definition cell_read (p : RealEstateFilterProxy) (source_row : nat)
    (name : string) : option (result cell) :=
  match sourceModel p with
  | None => None
  | Some model => Some (val p (dataframe model) source_row name)
  end.

(** A row gives a numeric predicate nothing to compare: its column is not
    in the frame, or the cell is not a number, or it is NaN. *)
Inductive lacks_number (p : RealEstateFilterProxy) (source_row : nat)
    (name : string) : Prop :=
| column_absent :
    _col p name = -1 -> lacks_number p source_row name
| not_a_number (v : cell) :
    cell_read p source_row name = Some (Ok v) -> is_number v = false ->
    lacks_number p source_row name
| missing_value :
    cell_read p source_row name = Some (Ok (CFloat FNaN)) ->
    lacks_number p source_row name.

(** [lo <= v <= hi], for the bounds that are set. *)
Definition in_range (v : cell) (lo hi : option Q) : bool :=
  (match lo with Some b => num_ge v b | None => true end
   && match hi with Some b => num_le v b | None => true end)%bool.

(** An integer or a finite float. *)
Definition is_finite (v : cell) : bool :=
  match v with
  | CInt _ | CFloat (FFinite _) => true
  | _ => false
  end.

(** The substring predicate in the words of the specification: an empty
    needle accepts, otherwise the needle has to occur in the text, case
    being ignored. *)
Definition substring_predicate (needle text : string) : bool :=
  ((needle =? "")%string || contains (lower needle) (lower text))%bool.

(** The exact predicate in the words of the specification. *)
Definition exact_predicate (literal text : string) : bool :=
  ((literal =? "")%string || (text =? literal)%string)%bool.

(** ** One predicate at a time

    [filterAcceptsRow] is a chain of seven stages; each reads a cell and
    either rejects the row or hands over to the next one. *)

Definition stage (read : result cell) (rejects : cell -> bool)
    (rest : result bool) : result bool :=
  v <- read ;; if rejects v then Ok false else rest.

Definition range_rejects (lo hi : option Q) (v : cell) : bool :=
  (negb (is_none v) && is_number v && (below v lo || above v hi))%bool.

Definition substring_rejects (float_repr : Q -> string) (needle : string)
    (v : cell) : bool :=
  (nonempty needle
   && negb (contains (lower needle)
              (lower (py_str float_repr (py_or v (CStr ""))))))%bool.

Definition exact_rejects (float_repr : Q -> string) (literal : string)
    (v : cell) : bool :=
  (nonempty literal
   && negb (py_str float_repr (py_or v (CStr "")) =? literal)%string)%bool.

Definition stages (float_repr : Q -> string) (p : RealEstateFilterProxy)
    (df : DataFrame) (r : nat) : result bool :=
  stage (val p df r "Price") (range_rejects (min_price p) (max_price p))
 (stage (val p df r "Living Space")
    (range_rejects (min_space p) (max_space p))
 (stage (val p df r "Beds") (range_rejects (min_beds p) (max_beds p))
 (stage (val p df r "Median Household Income")
    (range_rejects (min_income p) (max_income p))
 (stage (val p df r "City") (substring_rejects float_repr (city_substr p))
 (stage (val p df r "State") (exact_rejects float_repr (state_exact p))
 (stage (val p df r "Address")
    (substring_rejects float_repr (search_text p))
    (Ok true))))))).

(** ** Fixtures *)

(** Five listings with the prices of scenario A. *)
Definition scenario_A_frame : DataFrame :=
  mkDataFrame ["Address"; "City"; "State"; "Price"; "Beds"] (seq 0 5)
    [ [CStr "12 Oak St"; CStr "Springfield"; CStr "IL"; CInt 100000; CInt 3];
      [CStr "7 Elm Ave"; CStr "Chicago"; CStr "IL"; CInt 250000; CInt 4];
      [CStr "3 Pine Rd"; CStr "Denver"; CStr "CO"; CInt 99000; CInt 2];
      [CStr "9 Lake Dr"; CStr "NYC"; CStr "NY"; CInt 400000; CInt 5];
      [CStr "1 Main St"; CStr "Boulder"; CStr "CO"; CInt 250000; CInt 3] ].

(** Four listings with the cities of scenario B. *)
Definition scenario_B_frame : DataFrame :=
  mkDataFrame ["City"; "Price"] (seq 0 4)
    [ [CStr "Springfield"; CInt 100000];
      [CStr "Chicago"; CInt 250000];
      [CStr "Colorado Springs"; CInt 99000];
      [CStr "NYC"; CInt 400000] ].

(** Listings with holes: a missing price, a price that is a text, a
    missing city; the frame has no "Beds" column. *)
Definition frame_with_holes : DataFrame :=
  mkDataFrame ["City"; "State"; "Address"; "Price"] (seq 0 3)
    [ [CStr "Springfield"; CStr "IL"; CStr "12 Oak St"; CFloat FNaN];
      [CStr "Chicago"; CStr "IL"; CStr "7 Elm Ave"; CStr "on request"];
      [CFloat FNaN; CFloat FNaN; CFloat FNaN; CInt 99000] ].

(** A printer of finite floats to run the fixtures with; none of them
    prints one. *)
Definition plain_repr (q : Q) : string :=
  format_float_comma 1 (FFinite q).

(** The predicate of a text column in the words of the specification:
    containment for City and Address, equality for State. *)
Definition text_predicate (c : text_column) (needle text : string) : bool :=
  match c with
  | State => exact_predicate needle text
  | _ => substring_predicate needle text
  end.

(** The text a text predicate of the proxy tests: [str(v or "")]. *)
Definition tested_text (float_repr : Q -> string) (v : cell) : string :=
  py_str float_repr (py_or v (CStr "")).

Definition spin_lower (c : numeric_column) (w : FilterWidgets) : Q :=
  match c with
  | Price => spin_min_price w
  | LivingSpace => spin_min_space w
  | Beds => spin_min_beds w
  | Income => spin_min_income w
  end.

Definition spin_upper (c : numeric_column) (w : FilterWidgets) : Q :=
  match c with
  | Price => spin_max_price w
  | LivingSpace => spin_max_space w
  | Beds => spin_max_beds w
  | Income => spin_max_income w
  end.

(** Every spin box on 0 and every text field empty. *)
Definition all_unset (w : FilterWidgets) : Prop :=
  (forall c, spin_lower c w == 0 /\ spin_upper c w == 0)%Q /\
  edit_city w = "" /\ combo_state w = "" /\ edit_search w = "".

(** The form of scenario A: prices from 100000 to 250000. *)
Definition scenario_A_widgets : FilterWidgets :=
  mkWidgets (100000 # 1) (250000 # 1) 0 0 0 0 0 0 "" "" "".

(** The form of scenario B: cities containing "spring". *)
Definition scenario_B_widgets : FilterWidgets :=
  mkWidgets 0 0 0 0 0 0 0 0 "spring" "" "".

(** The tab on the listings of scenario A, with the form of scenario A. *)
Definition scenario_A_tab : ExplorationTab :=
  filters_changed scenario_A_widgets (new_ExplorationTab scenario_A_frame).

(** The proxy on the listings of scenario B, with the form of scenario B. *)
Definition scenario_B_proxy : RealEstateFilterProxy :=
  _on_filters_changed scenario_B_widgets
    (new_proxy (Some (new_PandasModel scenario_B_frame))).

(** The tab on the listings of scenario B, with the form of scenario B. *)
Definition scenario_B_tab : ExplorationTab :=
  filters_changed scenario_B_widgets (new_ExplorationTab scenario_B_frame).


(** The dynamic map of [cartographie.py] on the listings of scenario A,
    with the same price bounds. *)
Definition scenario_A_dynamic : Cartographie.CartographyDynamic :=
  Cartographie.mkCartographyDynamic scenario_A_frame
    (100000 # 1) (250000 # 1) 0 0 "" "".

(** ** Sorting, property side *)

(** The text the table shows for a row in a column (empty when there is no
    such cell). *)
Definition shown (model : PandasModel) (column : nat) (r : nat) : string :=
  match iat (dataframe model) r column with
  | Ok v => display_text v
  | Raise _ => ""
  end.

(** [a] may stand before [b] after a sort: in ascending order the text of
    [b] is not smaller than the text of [a], in descending order not
    greater. *)
Definition text_order (model : PandasModel) (column : nat) (order : SortOrder)
    (a b : nat) : Prop :=
  match order with
  | AscendingOrder =>
      String.ltb (shown model column b) (shown model column a) = false
  | DescendingOrder =>
      String.ltb (shown model column a) (shown model column b) = false
  end.

(** The rows whose shown text is [text]. *)
Definition shows (model : PandasModel) (column : nat) (text : string)
    (r : nat) : bool :=
  (shown model column r =? text)%string.

(** The comparison of the proxy on rows, given the text of each row. *)
Definition by_key (key : nat -> option string) (order : SortOrder)
    (a b : nat) : bool :=
  row_before order (a, key a) (b, key b).

(** The characters a formatted number can start with. *)
Definition leading (c : ascii) : Prop :=
  In c ["-"; "0"; "1"; "2"; "3"; "4"; "5"; "6"; "7"; "8"; "9"; "i"]%char.

(** Numeric order in the words of the specification, for an ascending
    sort of rows holding integers: prices never decrease along the list. *)
Fixpoint ascending_prices (prices : list Z) : bool :=
  match prices with
  | a :: (b :: _) as rest => (a <=? b) && ascending_prices rest
  | _ => true
  end.

(** Strictly descending prices. *)
Fixpoint strictly_descending_prices (prices : list Z) : bool :=
  match prices with
  | a :: (b :: _) as rest => (b <? a) && strictly_descending_prices rest
  | _ => true
  end.

(** The integer prices of a list of rows ([0] where the cell is not an
    integer). *)
Definition prices_of (model : PandasModel) (column : nat) (rows : list nat)
    : list Z :=
  map (fun r => match iat (dataframe model) r column with
                | Ok (CInt z) => z
                | _ => 0
                end) rows.

(** Two listings, 99000 and 100000. *)
Definition two_prices_frame : DataFrame :=
  mkDataFrame ["City"; "Price"] (seq 0 2)
    [ [CStr "Denver"; CInt 99000];
      [CStr "Chicago"; CInt 100000] ].

(** Three listings, 99000, 100000 and 250000. *)
Definition three_prices_frame : DataFrame :=
  mkDataFrame ["City"; "Price"] (seq 0 3)
    [ [CStr "Denver"; CInt 99000];
      [CStr "Chicago"; CInt 100000];
      [CStr "Boulder"; CInt 250000] ].

(** Three listings, two of them at the same price in different cities. *)
Definition equal_prices_frame : DataFrame :=
  mkDataFrame ["City"; "Price"] (seq 0 3)
    [ [CStr "Denver"; CInt 250000];
      [CStr "Chicago"; CInt 100000];
      [CStr "Boulder"; CInt 250000] ].

(** ** Sampling, property side *)

(** What numpy promises of a draw without replacement: [size] positions of
    [range(population)], no two the same. *)
Definition draws_without_replacement (rng : Type)
    (choice : rng -> nat -> nat -> list nat * rng) : Prop :=
  forall g population size,
    (size <= population)%nat ->
    List.length (fst (choice g population size)) = size /\
    Forall (fun i => (i < population)%nat) (fst (choice g population size)) /\
    NoDup (fst (choice g population size)).

(** A generator to run the fixtures with: it draws the first positions. *)
Definition first_positions (g : unit) (population size : nat)
    : list nat * unit :=
  (seq 0 size, g).

(** ** Map fixtures *)

Definition listing_columns : list string :=
  ["Address"; "City"; "State"; "Zip Code"; "Price"; "Beds"; "Baths";
   "Living Space"; "Latitude"; "Longitude"].

(** A listing with both coordinates. *)
Definition listing_located : list cell :=
  [CStr "12 Oak St"; CStr "Springfield"; CStr "IL"; CInt 62701;
   CInt 100000; CInt 3; CInt 2; CInt 1500;
   CFloat (FFinite (398 # 10)); CFloat (FFinite (- (896 # 10)))].

(** A listing whose latitude is missing. *)
Definition listing_without_latitude : list cell :=
  [CStr "7 Elm Ave"; CStr "Chicago"; CStr "IL"; CInt 60601;
   CInt 250000; CInt 4; CInt 3; CInt 2100;
   CFloat FNaN; CFloat (FFinite (- (876 # 10)))].

(** A listing whose latitude is a text that is not a number. *)
Definition listing_with_text_latitude : list cell :=
  [CStr "3 Pine Rd"; CStr "Denver"; CStr "CO"; CInt 80201;
   CInt 99000; CInt 2; CInt 1; CInt 900;
   CStr "abc"; CFloat (FFinite (- (1049 # 10)))].

(** The listing with both coordinates as it is read next to the previous
    one: the latitudes of such a column are all texts. *)
Definition listing_located_as_text : list cell :=
  [CStr "12 Oak St"; CStr "Springfield"; CStr "IL"; CInt 62701;
   CInt 100000; CInt 3; CInt 2; CInt 1500;
   CStr "39.8"; CFloat (FFinite (- (896 # 10)))].

Definition frame_missing_latitude : DataFrame :=
  mkDataFrame listing_columns (seq 0 2)
    [listing_without_latitude; listing_located].

Definition frame_text_latitude : DataFrame :=
  mkDataFrame listing_columns (seq 0 2)
    [listing_with_text_latitude; listing_located_as_text].

(** The dynamic map with no filter set. *)
Definition dynamic_on (d : DataFrame) : Cartographie.CartographyDynamic :=
  Cartographie.mkCartographyDynamic d 0 0 0 0 "" "".

(** The marker of the listing with both coordinates. *)
Definition marker_located : Marker :=
  mkMarker (FFinite (398 # 10), FFinite (- (896 # 10)))
    ("<b>12 Oak St</b><br>Springfield, IL (62701)<br>Price: $100,000<br>"
     ++ "Beds: 3 | Baths: 2 | Living Space: 1500 ft²").

(** * Further properties: definitions *)

(** The range predicate in full: a cell that is no number, or is NaN, has
    nothing to compare and passes; any other number has to lie within the
    bounds that are set, both included. *)
Definition range_predicate (lo hi : option Q) (v : cell) : bool :=
  match v with
  | CInt _ => in_range v lo hi
  | CFloat FNaN => true
  | CFloat _ => in_range v lo hi
  | _ => true
  end.

(** [lo] asks no more than [lo']. *)
Definition looser_lower (lo lo' : option Q) : Prop :=
  match lo, lo' with
  | None, _ => True
  | Some a, Some b => (a <= b)%Q
  | Some _, None => False
  end.

(** [hi] asks no more than [hi']. *)
Definition looser_upper (hi hi' : option Q) : Prop :=
  match hi, hi' with
  | None, _ => True
  | Some a, Some b => (b <= a)%Q
  | Some _, None => False
  end.

(** The DisplayRole data of a row in a column, as the proxy reads it when
    it sorts (nothing when [data] raises). *)
Definition shown_key (model : PandasModel) (column : nat) (r : nat)
    : option string :=
  match PandasModel_data model (Some (r, column)) DisplayRole with
  | Ok k => k
  | Raise _ => None
  end.

(** The ten columns [generate_map] reads in every row it draws. *)
Definition popup_columns : list string :=
  ["Address"; "City"; "State"; "Zip Code"; "Price"; "Beds"; "Baths";
   "Living Space"; "Latitude"; "Longitude"].

(** Neither coordinate of a marker is NaN. *)
Definition placed (m : Marker) : Prop :=
  is_nan (fst (location m)) = false /\ is_nan (snd (location m)) = false.

(** The conversions [update_map] tries on a row: [float(row["Latitude"])]
    and [float(row["Longitude"])]. *)
Definition coordinates (cols : list string) (row : list cell)
    : result (pyfloat * pyfloat) :=
  lat <- (v <- row_item cols row "Latitude" ;; py_float v) ;;
  lon <- (v <- row_item cols row "Longitude" ;; py_float v) ;;
  Ok (lat, lon).

(** Both conversions go through. *)
Definition converts (cols : list string) (row : list cell) : bool :=
  match coordinates cols row with
  | Ok _ => true
  | Raise _ => false
  end.

(** Both conversions go through and neither gives NaN. *)
Definition located (cols : list string) (row : list cell) : bool :=
  match coordinates cols row with
  | Ok (lat, lon) => (negb (is_nan lat) && negb (is_nan lon))%bool
  | Raise _ => false
  end.

(** The marker [update_map] makes for a row whose coordinates convert. *)
Definition marker_of (float_repr : Q -> string) (cols : list string)
    (row : list cell) : result Marker :=
  match coordinates cols row with
  | Ok (lat, lon) =>
      folium_Marker (CFloat lat) (CFloat lon)
        (Cartographie.popup_html float_repr cols row)
  | Raise e => Raise e
  end.

(** ** [filtered_df], property side *)

(** The mask that keeps what [second] keeps of what [first] keeps. *)
Fixpoint mask_then (first second : list bool) : list bool :=
  match first with
  | [] => []
  | true :: first' =>
      match second with
      | b :: second' => b :: mask_then first' second'
      | [] => []
      end
  | false :: first' => false :: mask_then first' second
  end.

(** [d'] is made of rows of [d], each with its label, in the order of [d],
    under the same columns. *)
Definition selection_of (d d' : DataFrame) : Prop :=
  exists mask, d' = Cartographie.select d mask.

(** The cell of a row under a column of the frame passes a test. *)
Definition cell_passes (cols : list string) (name : string)
    (test : cell -> Prop) (row : list cell) : Prop :=
  exists v, row_item cols row name = Ok v /\ test v.

(** One bound of [filtered_df]: [if bound: df = df[df[name] >= bound]]. *)
Definition bound_filter (bound : option Q) (name : string)
    (test : Q -> cell -> result bool) (d : DataFrame) : result DataFrame :=
  match bound with
  | Some b => Cartographie.where_cells d name (test b)
  | None => Ok d
  end.

(** The City step of [filtered_df]. *)
Definition city_filter (float_repr : Q -> string)
    (re_compile_ignorecase : string -> result (string -> bool))
    (city : string) (d : DataFrame) : result DataFrame :=
  if nonempty city then
    cells <- Cartographie.column d "City" ;;
    search <- re_compile_ignorecase city ;;
    Ok (Cartographie.select d (map (fun v => search (py_str float_repr v)) cells))
  else Ok d.

(** The State step of [filtered_df]. *)
Definition state_filter (state : string) (d : DataFrame) : result DataFrame :=
  if nonempty state then
    cells <- Cartographie.column d "State" ;;
    Ok (Cartographie.select d (map (Cartographie.cell_eq_text state) cells))
  else Ok d.

(** The dynamic map has a filter set on a column. *)
Inductive filters_on (self : Cartographie.CartographyDynamic)
    : string -> Prop :=
| on_min_price :
    ~ (Cartographie.spin_min_price self == 0)%Q -> filters_on self "Price"
| on_max_price :
    ~ (Cartographie.spin_max_price self == 0)%Q -> filters_on self "Price"
| on_min_beds :
    ~ (Cartographie.spin_min_beds self == 0)%Q -> filters_on self "Beds"
| on_max_beds :
    ~ (Cartographie.spin_max_beds self == 0)%Q -> filters_on self "Beds"
| on_city :
    strip (Cartographie.edit_city self) <> "" -> filters_on self "City"
| on_state :
    strip (Cartographie.combo_state self) <> "" -> filters_on self "State".

(** A number that is at least [b] (NaN is not). *)
Definition at_least (b : Q) (v : cell) : Prop :=
  is_number v = true /\ num_ge v b = true.

(** A number that is at most [b] (NaN is not). *)
Definition at_most (b : Q) (v : cell) : Prop :=
  is_number v = true /\ num_le v b = true.

(** Listings for the dynamic map: one price is missing. *)
Definition frame_missing_price : DataFrame :=
  mkDataFrame ["City"; "State"; "Price"; "Beds"] (seq 0 3)
    [ [CStr "Springfield"; CStr "IL"; CInt 100000; CInt 3];
      [CStr "Chicago"; CStr "IL"; CFloat FNaN; CInt 4];
      [CStr "Denver"; CStr "CO"; CInt 250000; CInt 2] ].

(** The dynamic map on the listings with a missing price, with a minimum
    price of 50000. *)
Definition dynamic_min_price : Cartographie.CartographyDynamic :=
  Cartographie.mkCartographyDynamic frame_missing_price
    (50000 # 1) 0 0 0 "" "".

(** The dynamic map on a frame that has no Beds column, with a minimum
    number of beds. *)
Definition dynamic_min_beds_no_column : Cartographie.CartographyDynamic :=
  Cartographie.mkCartographyDynamic scenario_B_frame 0 0 (2 # 1) 0 "" "".

(** The dynamic map on the listings with holes (one price is a text), with
    a minimum price. *)
Definition dynamic_text_price : Cartographie.CartographyDynamic :=
  Cartographie.mkCartographyDynamic frame_with_holes (50000 # 1) 0 0 0 "" "".

(** The cell of a row under a column is a text. *)
Definition text_under (cols : list string) (name : string) (row : list cell)
    : Prop :=
  exists s, row_item cols row name = Ok (CStr s).

(** ** PandasModel: headers *)

Inductive Orientation : Type := Horizontal | Vertical.

(** [PandasModel.headerData]: the label of a column, or the number of a
    row counted from 1; nothing for a role other than DisplayRole. *)
Definition headerData (model : PandasModel) (section : nat)
    (orientation : Orientation) (role : ItemRole) : result (option string) :=
  match role with
  | DisplayRole =>
      match orientation with
      | Horizontal =>
          match nth_error (columns (_df model)) section with
          | Some label => Ok (Some label)
          | None => Raise IndexError
          end
      | Vertical => Ok (Some (digits (Z.of_nat section + 1)))
      end
  | _ => Ok None
  end.

(** ** The choices of the State combo box *)

(** [a == b] on cells, as a hash table of Python objects compares them. *)
Definition py_eqb (a b : cell) : bool :=
  match a, b with
  | CNone, CNone => true
  | CStr s, CStr t => (s =? t)%string
  | CInt _, CInt _ | CInt _, CFloat _ | CFloat _, CInt _ | CFloat _, CFloat _ =>
      match to_float a, to_float b with
      | FFinite p, FFinite q => Qeq_bool p q
      | FInf m, FInf n => Bool.eqb m n
      | _, _ => false
      end
  | _, _ => false
  end.

(** A missing value: NaN or [None]. *)
Definition is_null (v : cell) : bool :=
  match v with
  | CNone | CFloat FNaN => true
  | _ => false
  end.

(** [series.dropna()] *)
Definition dropna (cells : list cell) : list cell :=
  filter (fun v => negb (is_null v)) cells.

(** [series.unique()]: the values in the order of their first occurrence;
    [seen] holds the values met so far. *)
Fixpoint unique_from (seen : list cell) (cells : list cell) : list cell :=
  match cells with
  | [] => []
  | v :: cells' =>
      if existsb (py_eqb v) seen then unique_from seen cells'
      else v :: unique_from (v :: seen) cells'
  end.

Definition unique (cells : list cell) : list cell := unique_from [] cells.

(** [sorted(texts)] *)
Definition sorted_texts (texts : list string) : list string :=
  stable_sort String.ltb texts.

Section StateChoices.

Variable float_repr : Q -> string.

(** The items of the State combo box, in [_build_filters] of
    [exploration.py] and in [CartographyDynamic.__init__]: the empty entry,
    then [sorted(map(str, df["State"].dropna().unique()))]. *)
Definition state_choices (d : DataFrame) : result (list string) :=
  cells <- Cartographie.column d "State" ;;
  let states := sorted_texts (map (py_str float_repr) (unique (dropna cells))) in
  Ok ("" :: states).

End StateChoices.

(** A frame without a State column. *)
Definition frame_without_state : DataFrame :=
  mkDataFrame ["City"; "Price"] (seq 0 1) [[CStr "Denver"; CInt 99000]].

(** ** Loading *)

Definition EXPECTED_COLUMNS : list string :=
  ["Zip Code"; "Price"; "Beds"; "Baths"; "Living Space"; "Address";
   "City"; "State"; "Zip Code Population"; "Zip Code Density"; "County";
   "Median Household Income"; "Latitude"; "Longitude"].

(** [load_dataframe], given what [pd.read_csv] returned: the frame as it
    was read and, when expected columns are not in it, the list that the
    warning prints. *)
Definition load_dataframe (read_csv : result DataFrame)
    : result (DataFrame * option (list string)) :=
  df <- read_csv ;;
  let missing := filter (fun c => negb (has_column df c)) EXPECTED_COLUMNS in
  Ok (df, match missing with
          | [] => None
          | _ => Some missing
          end).

(** The columns the predicates of the proxy read. *)
Definition filter_columns : list string :=
  ["Price"; "Living Space"; "Beds"; "Median Household Income"; "City";
   "State"; "Address"].

(** ** CartographyTab: the two buttons *)

Record CartographyTab : Type := mkCartographyTab {
  _last_map_path : option string;
  btn_open_enabled : bool
}.

(** [CartographyTab.__init__] *)
Definition new_CartographyTab : CartographyTab := mkCartographyTab None false.

(** The end of [generate_map]: when the render went through, the map is
    saved under a fresh temporary name, which is remembered, and the Open
    button is enabled; when it raised, nothing of this is reached. *)
Definition after_generate (outcome : result MapArtifact) (tmp_name : string)
    (self : CartographyTab) : CartographyTab :=
  match outcome with
  | Ok _ => mkCartographyTab (Some tmp_name) true
  | Raise _ => self
  end.

(** [open_map]: the path handed to the browser, if any. *)
Definition open_map (self : CartographyTab) : option string :=
  match _last_map_path self with
  | Some path => if nonempty path then Some path else None
  | None => None
  end.

(** The states the tab can be in: the initial one, and any state a click on
    Generate leads to, whatever the render gave; temporary names are not
    empty. *)
Inductive tab_reachable : CartographyTab -> Prop :=
| reach_new : tab_reachable new_CartographyTab
| reach_generate self outcome tmp_name :
    tab_reachable self -> tmp_name <> "" ->
    tab_reachable (after_generate outcome tmp_name self).

(** ** Shown numbers, property side *)

(** A text without a decimal point. *)
Fixpoint no_dot (s : string) : Prop :=
  match s with
  | EmptyString => True
  | String c s' => c <> "."%char /\ no_dot s'
  end.

(** * Proofs *)

(** ** The stages of the filter *)

Lemma two_ifs (A : Type) (a b c : bool) (x y : A) :
  (if (a && b)%bool then x else if (a && c)%bool then x else y) =
  (if (a && (b || c))%bool then x else y).
Proof. destruct a, b, c; reflexivity. Qed.

Lemma filterAcceptsRow_stages float_repr p r :
  filterAcceptsRow float_repr p r =
  match sourceModel p with
  | None => Ok true
  | Some model => stages float_repr p (dataframe model) r
  end.
Proof.
  unfold filterAcceptsRow, stages, stage, range_rejects.
  destruct (sourceModel p) as [model|]; [|reflexivity].
  repeat (match goal with
          | |- bind ?m _ = bind ?m _ =>
              destruct m; cbn [bind]; [|reflexivity]
          end;
          try rewrite two_ifs;
          match goal with
          | |- (if ?c then _ else _) = _ => destruct c; [reflexivity|]
          end).
  reflexivity.
Qed.

Lemma val_with_bounds c lo hi p df r name :
  val (with_bounds c lo hi p) df r name = val p df r name.
Proof. destruct c; reflexivity. Qed.

Lemma val_with_needle c needle p df r name :
  val (with_needle c needle p) df r name = val p df r name.
Proof. destruct c; reflexivity. Qed.

Lemma sourceModel_with_bounds c lo hi p :
  sourceModel (with_bounds c lo hi p) = sourceModel p.
Proof. destruct c; reflexivity. Qed.

Lemma sourceModel_with_needle c needle p :
  sourceModel (with_needle c needle p) = sourceModel p.
Proof. destruct c; reflexivity. Qed.

Lemma stage_congr read rej rest rest' (P : bool) :
  (forall b, rest' = Ok b -> rest = Ok (b && P)%bool) ->
  forall b, stage read rej rest' = Ok b ->
            stage read rej rest = Ok (b && P)%bool.
Proof.
  intros H b. unfold stage. destruct read as [v|e]; cbn [bind]; [|discriminate].
  destruct (rej v); [|apply H].
  intros [= <-]. reflexivity.
Qed.

Lemma stage_changed read rej rej0 rest v :
  read = Ok v -> rej0 v = false ->
  forall b, stage read rej0 rest = Ok b ->
            stage read rej rest = Ok (b && negb (rej v))%bool.
Proof.
  intros -> H0 b. unfold stage. cbn [bind]. rewrite H0. intros ->.
  destruct (rej v); cbn [negb]; [rewrite andb_false_r | rewrite andb_true_r];
    reflexivity.
Qed.

Lemma stage_total read rej rest :
  (exists v, read = Ok v) -> (exists b, rest = Ok b) ->
  exists b, stage read rej rest = Ok b.
Proof.
  intros [v ->] [b ->]. unfold stage. cbn [bind].
  destruct (rej v); eauto.
Qed.

Lemma stage_pass read rej rest :
  (exists v, read = Ok v) -> (forall v, rej v = false) ->
  stage read rej rest = rest.
Proof.
  intros [v ->] H. unfold stage. cbn [bind]. now rewrite H.
Qed.

Lemma range_rejects_unset v : range_rejects None None v = false.
Proof. unfold range_rejects. cbn [below above orb]. apply andb_false_r. Qed.

Lemma range_rejects_lacking lo hi v :
  is_number v = false \/ v = CFloat FNaN -> range_rejects lo hi v = false.
Proof.
  unfold range_rejects. intros [H | ->].
  - rewrite H, andb_false_r. reflexivity.
  - destruct lo, hi; reflexivity.
Qed.

Lemma range_rejects_finite lo hi v :
  is_finite v = true -> negb (range_rejects lo hi v) = in_range v lo hi.
Proof.
  destruct v as [| z | [| n | q] | s]; try discriminate; intros _;
    destruct lo, hi; cbn; unfold in_range, num_ge, num_le, Qltb; cbn;
    repeat match goal with
           | |- context [Qle_bool ?a ?b] => destruct (Qle_bool a b)
           end; reflexivity.
Qed.

Lemma substring_rejects_spec float_repr needle v :
  negb (substring_rejects float_repr needle v) =
  substring_predicate needle (py_str float_repr (py_or v (CStr ""))).
Proof.
  unfold substring_rejects, substring_predicate, nonempty.
  destruct (needle =? "")%string; cbn; [reflexivity|].
  apply negb_involutive.
Qed.

Lemma exact_rejects_spec float_repr literal v :
  negb (exact_rejects float_repr literal v) =
  exact_predicate literal (py_str float_repr (py_or v (CStr ""))).
Proof.
  unfold exact_rejects, exact_predicate, nonempty.
  destruct (literal =? "")%string; cbn; [reflexivity|].
  apply negb_involutive.
Qed.

(** What a row that lacks a number hands to the predicate. *)
Lemma lacks_number_val p r name model :
  sourceModel p = Some model -> lacks_number p r name ->
  exists v, val p (dataframe model) r name = Ok v /\
            (is_number v = false \/ v = CFloat FNaN).
Proof.
  intros Hm [Habs | v Hv Hn | Hv].
  - exists CNone. unfold val. rewrite Habs. cbn. auto.
  - unfold cell_read in Hv. rewrite Hm in Hv. injection Hv as Hv. eauto.
  - unfold cell_read in Hv. rewrite Hm in Hv. injection Hv as Hv. eauto.
Qed.

Lemma stage_same read rej rej' rest v :
  read = Ok v -> rej v = rej' v -> stage read rej rest = stage read rej' rest.
Proof. intros -> H. unfold stage. cbn [bind]. rewrite H. reflexivity. Qed.

Ltac proxy_fields :=
  cbn [column_name text_column_name lower_bound upper_bound needle_of
       with_bounds with_needle min_price max_price min_space max_space
       min_beds max_beds min_income max_income city_substr state_exact
       search_text sourceModel] in *.

(** ** The filter never raises on a frame *)

Lemma index_of_bound name cols i :
  index_of name cols = Some i -> (i < List.length cols)%nat.
Proof.
  revert i. induction cols as [|c cols IH]; cbn; [discriminate|].
  intros i. destruct (c =? name)%string.
  - intros [= <-]. lia.
  - destruct (index_of name cols) as [j|]; cbn; [|discriminate].
    intros [= <-]. specialize (IH j eq_refl). lia.
Qed.

Lemma iat_total df r i :
  rectangular df -> (r < len df)%nat -> (i < List.length (columns df))%nat ->
  exists v, iat df r i = Ok v.
Proof.
  intros [_ Hrect] Hr Hi. unfold iat, len in *.
  destruct (nth_error (data df) r) as [row|] eqn:Hrow.
  - rewrite Forall_forall in Hrect.
    specialize (Hrect row (nth_error_In _ _ Hrow)).
    destruct (nth_error row i) as [v|] eqn:Hv; [eauto|].
    apply nth_error_None in Hv. lia.
  - apply nth_error_None in Hrow. lia.
Qed.

Lemma val_total p model r name :
  sourceModel p = Some model -> rectangular (dataframe model) ->
  (r < rowCount model)%nat ->
  exists v, val p (dataframe model) r name = Ok v.
Proof.
  intros Hm Hrect Hr. unfold val, _col. rewrite Hm.
  destruct (index_of name (columns (dataframe model))) as [i|] eqn:Hi.
  - assert ((Z.of_nat i <? 0) = false) as -> by (apply Z.ltb_ge; lia).
    rewrite Nat2Z.id. apply iat_total; auto.
    eapply index_of_bound; eauto.
  - cbn. eauto.
Qed.

(** On a frame, [filterAcceptsRow] gives a verdict for every row. *)
Lemma filterAcceptsRow_total float_repr p model r :
  sourceModel p = Some model -> rectangular (dataframe model) ->
  (r < rowCount model)%nat ->
  exists b, filterAcceptsRow float_repr p r = Ok b.
Proof.
  intros Hm Hrect Hr. rewrite filterAcceptsRow_stages, Hm. unfold stages.
  repeat (apply stage_total; [eapply val_total; eauto|]).
  eauto.
Qed.

Lemma accepted_rows_all float_repr p rows :
  (forall r, In r rows -> filterAcceptsRow float_repr p r = Ok true) ->
  accepted_rows float_repr p rows = Ok rows.
Proof.
  induction rows as [|r rows IH]; intros H; cbn; [reflexivity|].
  rewrite (H r (or_introl eq_refl)). cbn [bind].
  rewrite IH by (intros; apply H; now right). reflexivity.
Qed.

Lemma accepted_rows_total float_repr p model rows :
  sourceModel p = Some model -> rectangular (dataframe model) ->
  Forall (fun r => (r < rowCount model)%nat) rows ->
  exists l, accepted_rows float_repr p rows = Ok l.
Proof.
  intros Hm Hrect. induction 1 as [|r rows Hr _ [l IH]]; cbn; [eauto|].
  destruct (filterAcceptsRow_total float_repr p model r Hm Hrect Hr) as [b ->].
  cbn [bind]. rewrite IH. cbn [bind]. eauto.
Qed.

(** The visible row set exists for every state of the filter. *)
Lemma visible_rows_total float_repr p model :
  sourceModel p = Some model -> rectangular (dataframe model) ->
  exists l, visible_rows float_repr p = Ok l.
Proof.
  intros Hm Hrect. unfold visible_rows. rewrite Hm.
  eapply accepted_rows_total; eauto.
  apply Forall_forall. intros r Hr. apply in_seq in Hr. lia.
Qed.

(** ** Numeric predicates fail open *)

Lemma val_sourceModel p p' df r name :
  sourceModel p = sourceModel p' -> val p df r name = val p' df r name.
Proof. intros H. unfold val, _col. now rewrite H. Qed.

Lemma stage_skip read rej rest v :
  read = Ok v -> rej v = false -> stage read rej rest = rest.
Proof. intros -> H. unfold stage. cbn [bind]. now rewrite H. Qed.

Lemma frame_with_holes_rectangular : rectangular frame_with_holes.
Proof. split; [reflexivity | repeat constructor]. Qed.

(** C1. A numeric range predicate (Price, Living Space, Beds, Median
    Household Income) fails open. When the column is not in the frame, or
    the cell of the row is not a number, or it is missing (NaN), the
    predicate accepts the row whatever its bounds are: a proxy on which
    only these two bounds are set accepts the row, and on any proxy the
    verdict on the row is the verdict, which exists, that the filter gives
    with both bounds of that predicate unset, so that a row the other
    predicates accept is accepted. *)
Theorem numeric_predicate_fails_open float_repr c p r lo hi model :
  sourceModel p = Some model ->
  rectangular (dataframe model) ->
  (r < rowCount model)%nat ->
  lacks_number p r (column_name c) ->
  filterAcceptsRow float_repr
    (with_bounds c lo hi (new_proxy (Some model))) r = Ok true /\
  (exists b,
      filterAcceptsRow float_repr (with_bounds c None None p) r = Ok b /\
      filterAcceptsRow float_repr (with_bounds c lo hi p) r = Ok b) /\
  (filterAcceptsRow float_repr (with_bounds c None None p) r = Ok true ->
   filterAcceptsRow float_repr (with_bounds c lo hi p) r = Ok true).
Proof.
  intros Hm Hrect Hr H.
  destruct (lacks_number_val _ _ _ _ Hm H) as (v & Hv & Hk).
  assert (Hsame : filterAcceptsRow float_repr (with_bounds c lo hi p) r =
                  filterAcceptsRow float_repr (with_bounds c None None p) r).
  { rewrite !filterAcceptsRow_stages, !sourceModel_with_bounds, Hm.
    unfold stages. rewrite !val_with_bounds.
    destruct c; proxy_fields;
      repeat first
        [ apply (stage_same _ _ _ _ v Hv);
          rewrite !range_rejects_lacking by assumption; reflexivity
        | apply f_equal ]. }
  split; [|split].
  - set (q := with_bounds c lo hi (new_proxy (Some model))).
    assert (Hq : sourceModel q = Some model) by (destruct c; reflexivity).
    assert (Hvq : val q (dataframe model) r (column_name c) = Ok v).
    { rewrite <- Hv. apply val_sourceModel. now rewrite Hq, Hm. }
    rewrite filterAcceptsRow_stages, Hq. unfold stages.
    destruct c; cbn [column_name] in Hvq; subst q; proxy_fields;
      cbn [new_proxy min_price max_price min_space max_space min_beds
           max_beds min_income max_income city_substr state_exact
           search_text] in *;
      repeat first
        [ rewrite (stage_skip _ _ _ v Hvq)
            by (apply range_rejects_lacking; assumption)
        | rewrite stage_pass;
          [ | solve [eapply val_total; eauto]
            | solve [intros; first [apply range_rejects_unset | reflexivity]] ] ];
      reflexivity.
  - destruct (filterAcceptsRow_total float_repr (with_bounds c None None p)
                model r) as [b Hb];
      [now rewrite sourceModel_with_bounds | assumption | assumption |].
    exists b. split; [exact Hb | now rewrite Hsame].
  - intros Hb. now rewrite Hsame.
Qed.

Lemma numeric_predicate_fails_open_witness :
  (rectangular (dataframe (new_PandasModel frame_with_holes)) /\
   (0 < rowCount (new_PandasModel frame_with_holes))%nat /\
   lacks_number (new_proxy (Some (new_PandasModel frame_with_holes))) 0
     (column_name Price)) /\
  filterAcceptsRow plain_repr
    (with_bounds Price (Some (100000 # 1)%Q) (Some (250000 # 1)%Q)
       (new_proxy (Some (new_PandasModel frame_with_holes)))) 0 = Ok true.
Proof.
  assert (H1 : (0 < rowCount (new_PandasModel frame_with_holes))%nat)
    by (cbn; lia).
  assert (H2 : lacks_number
                 (new_proxy (Some (new_PandasModel frame_with_holes))) 0
                 (column_name Price))
    by (apply missing_value; reflexivity).
  split; [split; [exact frame_with_holes_rectangular | split; assumption]|].
  exact (proj1 (numeric_predicate_fails_open plain_repr Price
                  (new_proxy (Some (new_PandasModel frame_with_holes))) 0
                  (Some (100000 # 1)%Q) (Some (250000 # 1)%Q)
                  (new_PandasModel frame_with_holes)
                  eq_refl frame_with_holes_rectangular H1 H2)).
Defined.

(** The three ways of lacking a number, on the frame with holes: a missing
    price, a price that is a text, and a column that is not there. *)
Example fails_open_on_frame_with_holes :
  let p := new_proxy (Some (new_PandasModel frame_with_holes)) in
  filterAcceptsRow plain_repr
    (with_bounds Price (Some (100000 # 1)%Q) (Some (250000 # 1)%Q) p) 0
  = Ok true /\
  filterAcceptsRow plain_repr
    (with_bounds Price (Some (100000 # 1)%Q) (Some (250000 # 1)%Q) p) 1
  = Ok true /\
  filterAcceptsRow plain_repr
    (with_bounds Beds (Some (3 # 1)%Q) (Some (4 # 1)%Q) p) 2 = Ok true /\
  filterAcceptsRow plain_repr
    (with_bounds Price (Some (100000 # 1)%Q) (Some (250000 # 1)%Q) p) 2
  = Ok false.
Proof. repeat split. Qed.

(** ** One predicate against the others *)


Lemma text_stage float_repr c p r model v :
  sourceModel p = Some model ->
  val p (dataframe model) r (text_column_name c) = Ok v ->
  forall b,
    filterAcceptsRow float_repr (with_needle c "" p) r = Ok b ->
    filterAcceptsRow float_repr p r =
    Ok (b && text_predicate c (needle_of c p) (tested_text float_repr v))%bool.
Proof.
  intros Hm Hv. rewrite !filterAcceptsRow_stages, sourceModel_with_needle, Hm.
  unfold stages, tested_text. rewrite !val_with_needle.
  destruct c; cbn [text_predicate];
    rewrite <- ?substring_rejects_spec, <- ?exact_rejects_spec; proxy_fields;
    repeat first
      [ apply (stage_changed _ _ _ _ v Hv); reflexivity
      | apply stage_congr ].
Qed.


(** ** Text predicates *)

Lemma lower_nonempty s : s <> "" -> lower s <> "".
Proof. destruct s; [congruence | discriminate]. Qed.

Lemma contains_in_empty needle : needle <> "" -> contains needle "" = false.
Proof. destruct needle; [congruence | reflexivity]. Qed.

Lemma substring_predicate_empty_text needle :
  needle <> "" -> substring_predicate needle "" = false.
Proof.
  intros H. unfold substring_predicate.
  rewrite (proj2 (String.eqb_neq _ _) H). cbn [orb lower].
  apply contains_in_empty, lower_nonempty, H.
Qed.

Lemma val_absent p df r name : _col p name = -1 -> val p df r name = Ok CNone.
Proof. intros H. unfold val. now rewrite H. Qed.

Lemma nonempty_true s : s <> "" -> nonempty s = true.
Proof.
  intros H. unfold nonempty. now rewrite (proj2 (String.eqb_neq _ _) H).
Qed.

Lemma column_cells d name i :
  rectangular d -> index_of name (columns d) = Some i ->
  Cartographie.column d name
  = Ok (map (fun row => nth i row CNone) (data d)).
Proof.
  intros [_ Hrect] Hi. unfold Cartographie.column. rewrite Hi.
  pose proof (index_of_bound _ _ _ Hi) as Hlt.
  induction Hrect as [|row rows Hrow _ IH]; cbn [mapM map]; [reflexivity|].
  rewrite (nth_error_nth' row CNone) by lia. cbn [bind]. now rewrite IH.
Qed.

(** C6 against the code. The City and Address predicates of the proxy do
    what is claimed: they test containment without regard to case in the
    text [str(v or "")] of the cell, and the verdict on a row is the
    conjunction of that test with the verdict of the other predicates; the
    text of a string cell is the string itself (as is the text of every
    cell that is not empty, zero or [None]); an empty needle accepts
    whatever the text is; when the column is not in the frame the text is
    empty, so that a non-empty needle rejects the row; and on the four
    cities of scenario B the needle "spring" leaves rows 0 and 2 in the
    table. The City filter of [cartographie.py] does not: when the frame
    has no City column a non-empty needle raises [KeyError('City')], which
    [update_map] prints instead of showing a map; the needle is compiled as
    a regular expression, so a needle the compiler rejects makes
    [update_map] print that exception, and otherwise the rows kept are
    those in whose City text the pattern finds a match. For a needle that
    the compiler reads as plain text, as "spring" is, it keeps rows 0 and 2
    of scenario B. *)
Theorem substring_predicate_contains float_repr re_compile_ignorecase :
  (forall c p r model v b,
      c <> State ->
      sourceModel p = Some model ->
      val p (dataframe model) r (text_column_name c) = Ok v ->
      filterAcceptsRow float_repr (with_needle c "" p) r = Ok b ->
      filterAcceptsRow float_repr p r =
      Ok (b && substring_predicate (needle_of c p)
                 (tested_text float_repr v))%bool) /\
  (forall s, tested_text float_repr (CStr s) = s) /\
  (forall v, truthy v = true -> tested_text float_repr v = py_str float_repr v) /\
  (forall text, substring_predicate "" text = true) /\
  (forall c p r model b,
      c <> State ->
      sourceModel p = Some model ->
      _col p (text_column_name c) = -1 ->
      needle_of c p <> "" ->
      filterAcceptsRow float_repr (with_needle c "" p) r = Ok b ->
      tested_text float_repr CNone = "" /\
      filterAcceptsRow float_repr p r = Ok false) /\
  table_rows float_repr scenario_B_tab = Ok [0; 2]%nat /\
  (forall d city,
      strip city <> "" -> has_column d "City" = false ->
      Cartographie.update_map float_repr re_compile_ignorecase
        (Cartographie.mkCartographyDynamic d 0 0 0 0 city "")
      = Cartographie.Printed (KeyError "City")) /\
  (forall d city e,
      rectangular d -> has_column d "City" = true ->
      strip city <> "" ->
      re_compile_ignorecase (strip city) = Raise e ->
      Cartographie.update_map float_repr re_compile_ignorecase
        (Cartographie.mkCartographyDynamic d 0 0 0 0 city "")
      = Cartographie.Printed e) /\
  (forall d city cells search,
      Cartographie.column d "City" = Ok cells ->
      strip city <> "" ->
      re_compile_ignorecase (strip city) = Ok search ->
      Cartographie.filtered_df float_repr re_compile_ignorecase
        (Cartographie.mkCartographyDynamic d 0 0 0 0 city "")
      = Ok (Cartographie.select d
              (map (fun v => search (py_str float_repr v)) cells))) /\
  (forall search,
      re_compile_ignorecase "spring" = Ok search ->
      (forall text, search text = contains "spring" (lower text)) ->
      exists kept,
        Cartographie.filtered_df float_repr re_compile_ignorecase
          (Cartographie.mkCartographyDynamic scenario_B_frame
             0 0 0 0 "spring" "") = Ok kept /\
        index kept = [0; 2]%nat).
Proof.
  split; [|split; [|split; [|split; [|split; [|split; [|split; [|split;
    [|split]]]]]]]].
  - intros c p r model v b Hc Hm Hv Hb.
    rewrite (text_stage float_repr c p r model v Hm Hv b Hb).
    destruct c; [reflexivity | congruence | reflexivity].
  - intros s. unfold tested_text, py_or. cbn [truthy].
    destruct s; reflexivity.
  - intros v Hv. unfold tested_text, py_or. now rewrite Hv.
  - reflexivity.
  - intros c p r model b Hc Hm Habs Hn Hb. split; [reflexivity|].
    rewrite (text_stage float_repr c p r model CNone Hm
               (val_absent _ _ _ _ Habs) b Hb).
    replace (text_predicate c (needle_of c p) (tested_text float_repr CNone))
      with false; [now rewrite andb_false_r|].
    symmetry. destruct c; [|congruence|];
      apply substring_predicate_empty_text; assumption.
  - reflexivity.
  - intros d city Hcity Hmiss.
    unfold Cartographie.update_map, Cartographie.render,
      Cartographie.filtered_df.
    cbn [Cartographie.df Cartographie.spin_min_price
         Cartographie.spin_max_price Cartographie.spin_min_beds
         Cartographie.spin_max_beds Cartographie.edit_city
         Cartographie.combo_state].
    change (value_or_None 0) with (@None Q). cbn [bind].
    rewrite (nonempty_true _ Hcity).
    unfold Cartographie.column. unfold has_column in Hmiss.
    destruct (index_of "City" (columns d)); [discriminate | reflexivity].
  - intros d city e Hrect Hcol Hcity Hre.
    unfold Cartographie.update_map, Cartographie.render,
      Cartographie.filtered_df.
    cbn [Cartographie.df Cartographie.spin_min_price
         Cartographie.spin_max_price Cartographie.spin_min_beds
         Cartographie.spin_max_beds Cartographie.edit_city
         Cartographie.combo_state].
    change (value_or_None 0) with (@None Q). cbn [bind].
    rewrite (nonempty_true _ Hcity).
    unfold has_column in Hcol.
    destruct (index_of "City" (columns d)) as [i|] eqn:Hi; [|discriminate].
    rewrite (column_cells d "City" i Hrect Hi). cbn [bind].
    rewrite Hre. reflexivity.
  - intros d city cells search Hcells Hcity Hre.
    unfold Cartographie.filtered_df.
    cbn [Cartographie.df Cartographie.spin_min_price
         Cartographie.spin_max_price Cartographie.spin_min_beds
         Cartographie.spin_max_beds Cartographie.edit_city
         Cartographie.combo_state].
    change (value_or_None 0) with (@None Q). cbn [bind].
    rewrite (nonempty_true _ Hcity), Hcells. cbn [bind]. rewrite Hre.
    cbn [bind]. change (strip "") with "". reflexivity.
  - intros search Hre Hsearch.
    unfold Cartographie.filtered_df. cbn -[strip].
    change (strip "spring") with "spring". change (strip "") with "".
    cbn. rewrite Hre. cbn. rewrite !Hsearch. cbn. eexists. split; reflexivity.
Qed.

Lemma substring_predicate_contains_witness :
  (City <> State /\
   val scenario_B_proxy scenario_B_frame 2 (text_column_name City)
   = Ok (CStr "Colorado Springs")) /\
  filterAcceptsRow plain_repr scenario_B_proxy 2
  = Ok (true && substring_predicate "spring"
                  (tested_text plain_repr (CStr "Colorado Springs")))%bool.
Proof.
  split; [split; [discriminate | reflexivity]|].
  exact (proj1 (substring_predicate_contains plain_repr
                  (fun _ => Raise ReError))
           City scenario_B_proxy
           2%nat (new_PandasModel scenario_B_frame)
           (CStr "Colorado Springs") true
           ltac:(discriminate) eq_refl eq_refl eq_refl).
Defined.

(** On a frame without a City column the City filter of the dynamic map
    raises, where the proxy rejects the row. *)
Example dynamic_city_filter_without_column float_repr re_compile_ignorecase :
  Cartographie.update_map float_repr re_compile_ignorecase
    (Cartographie.mkCartographyDynamic
       (mkDataFrame ["State"] [0%nat] [[CStr "IL"]]) 0 0 0 0 "spring" "")
  = Cartographie.Printed (KeyError "City") /\
  filterAcceptsRow float_repr
    (with_needle City "spring"
       (new_proxy (Some (new_PandasModel
                           (mkDataFrame ["State"] [0%nat] [[CStr "IL"]]))))) 0
  = Ok false.
Proof. split; reflexivity. Qed.

(** C10, as the code has it. A missing (NaN) cell of a text column is
    tested as the text "nan",
    not as the empty text. For City and Address a needle passes exactly
    when it is empty or occurs, case being ignored, in "nan": "na", "an"
    and "NaN" accept the row, "x" and "spring" reject it. For State, whose
    predicate is an equality, the row passes exactly when the literal is
    empty or is "nan". In each case the verdict on the row is the
    conjunction with the verdict of the other predicates. *)
Theorem missing_text_is_nan float_repr :
  tested_text float_repr (CFloat FNaN) = "nan" /\
  (forall c p r model b,
      sourceModel p = Some model ->
      val p (dataframe model) r (text_column_name c) = Ok (CFloat FNaN) ->
      filterAcceptsRow float_repr (with_needle c "" p) r = Ok b ->
      filterAcceptsRow float_repr p r =
      Ok (b && text_predicate c (needle_of c p) "nan")%bool) /\
  (substring_predicate "na" "nan" = true /\
   substring_predicate "an" "nan" = true /\
   substring_predicate "NaN" "nan" = true /\
   substring_predicate "x" "nan" = false /\
   substring_predicate "spring" "nan" = false) /\
  (forall literal,
      exact_predicate literal "nan" = true <->
      literal = "" \/ literal = "nan") /\
  (let p := new_proxy (Some (new_PandasModel frame_with_holes)) in
   filterAcceptsRow float_repr (with_needle City "na" p) 2 = Ok true /\
   filterAcceptsRow float_repr (with_needle City "spring" p) 2 = Ok false /\
   filterAcceptsRow float_repr (with_needle Address "AN" p) 2 = Ok true /\
   filterAcceptsRow float_repr (with_needle State "nan" p) 2 = Ok true /\
   filterAcceptsRow float_repr (with_needle State "na" p) 2 = Ok false).
Proof.
  split; [reflexivity|]. split; [|split; [|split]].
  - intros c p r model b Hm Hv Hb.
    apply (text_stage float_repr c p r model (CFloat FNaN) Hm Hv b Hb).
  - repeat split.
  - intros literal. unfold exact_predicate.
    rewrite orb_true_iff, !String.eqb_eq. intuition congruence.
  - repeat split.
Qed.

Lemma missing_text_is_nan_witness :
  val (with_needle City "na"
         (new_proxy (Some (new_PandasModel frame_with_holes))))
      frame_with_holes 2 (text_column_name City) = Ok (CFloat FNaN) /\
  filterAcceptsRow plain_repr
    (with_needle City "na"
       (new_proxy (Some (new_PandasModel frame_with_holes)))) 2
  = Ok (true && text_predicate City "na" "nan")%bool.
Proof.
  split; [reflexivity|].
  exact (proj1 (proj2 (missing_text_is_nan plain_repr))
           City
           (with_needle City "na"
              (new_proxy (Some (new_PandasModel frame_with_holes))))
           2%nat (new_PandasModel frame_with_holes) true
           eq_refl eq_refl eq_refl).
Defined.

(** C10, as stated, fails for State: on the row of the frame with holes
    whose City and State are missing, the needle "na" occurs in the tested
    text "nan" and is accepted by the City predicate, but the State
    predicate, an equality, rejects the row. *)
Lemma state_needle_in_nan_is_rejected :
  val (new_proxy (Some (new_PandasModel frame_with_holes)))
      frame_with_holes 2 "State" = Ok (CFloat FNaN) /\
  tested_text plain_repr (CFloat FNaN) = "nan" /\
  contains (lower "na") (lower "nan") = true /\
  filterAcceptsRow plain_repr
    (with_needle City "na"
       (new_proxy (Some (new_PandasModel frame_with_holes)))) 2 = Ok true /\
  filterAcceptsRow plain_repr
    (with_needle State "na"
       (new_proxy (Some (new_PandasModel frame_with_holes)))) 2 = Ok false.
Proof. repeat split. Qed.

(** ** Stable sorting *)

Section StableSortFacts.

Variable A : Type.
Variable before : A -> A -> bool.

Lemma insert_stable_perm x l : Permutation (x :: l) (insert_stable before x l).
Proof.
  induction l as [|y l IH]; cbn; [reflexivity|].
  destruct (before y x); [|reflexivity].
  rewrite perm_swap. now apply perm_skip.
Qed.

Lemma stable_sort_perm l : Permutation l (stable_sort before l).
Proof.
  induction l as [|x l IH]; cbn; [constructor|].
  rewrite <- insert_stable_perm. now apply perm_skip.
Qed.

(** Selecting elements that the comparison does not separate commutes
    with the insertion. *)
Lemma insert_stable_filter (sel : A -> bool) x l :
  (forall a b, before a b = true -> sel a = true -> sel b = true -> False) ->
  filter sel (insert_stable before x l) = filter sel (x :: l).
Proof.
  intros Hsel. induction l as [|y l IH]; cbn; [reflexivity|].
  destruct (before y x) eqn:Hyx; [|reflexivity].
  cbn. rewrite IH. cbn.
  destruct (sel y) eqn:Hy, (sel x) eqn:Hx; try reflexivity.
  exfalso. eapply Hsel; eauto.
Qed.

Lemma stable_sort_filter (sel : A -> bool) l :
  (forall a b, before a b = true -> sel a = true -> sel b = true -> False) ->
  filter sel (stable_sort before l) = filter sel l.
Proof.
  intros Hsel. induction l as [|x l IH]; cbn; [reflexivity|].
  rewrite insert_stable_filter by assumption. cbn. now rewrite IH.
Qed.

Hypothesis before_asym : forall a b, before a b = true -> before b a = false.

Lemma insert_stable_sorted x l :
  Sorted (fun a b => before b a = false) l ->
  Sorted (fun a b => before b a = false) (insert_stable before x l).
Proof.
  induction l as [|y l IH]; cbn; intros Hs.
  - repeat constructor.
  - destruct (before y x) eqn:Hyx.
    + apply Sorted_inv in Hs as [Hs Hhd]. constructor; [auto|].
      destruct l as [|z l]; cbn.
      * constructor. now apply before_asym.
      * destruct (before z x); constructor.
        -- now inversion Hhd.
        -- now apply before_asym.
    + constructor; [assumption|]. now constructor.
Qed.

Lemma stable_sort_sorted l :
  Sorted (fun a b => before b a = false) (stable_sort before l).
Proof.
  induction l as [|x l IH]; cbn; [constructor|].
  now apply insert_stable_sorted.
Qed.

End StableSortFacts.

(** Sorting commutes with a decoration of the elements. *)
Lemma stable_sort_map (A B : Type) (f : A -> B) (beforeA : A -> A -> bool)
    (beforeB : B -> B -> bool) l :
  (forall a b, beforeB (f a) (f b) = beforeA a b) ->
  stable_sort beforeB (map f l) = map f (stable_sort beforeA l).
Proof.
  intros H.
  assert (Hins : forall x l',
             insert_stable beforeB (f x) (map f l')
             = map f (insert_stable beforeA x l')).
  { intros x l'. induction l' as [|y l' IH]; cbn; [reflexivity|].
    rewrite H. destruct (beforeA y x); cbn; [now rewrite IH | reflexivity]. }
  induction l as [|x l IH]; cbn; [reflexivity|].
  now rewrite IH, Hins.
Qed.

(** ** The order of texts *)

Lemma ascii_compare_refl a : Ascii.compare a a = Eq.
Proof. apply N.compare_refl. Qed.

Lemma ascii_compare_lt_trans a b c :
  Ascii.compare a b = Lt -> Ascii.compare b c = Lt -> Ascii.compare a c = Lt.
Proof.
  unfold Ascii.compare. rewrite !N.compare_lt_iff. apply N.lt_trans.
Qed.

Lemma string_compare_refl s : String.compare s s = Eq.
Proof.
  induction s as [|a s IH]; cbn; [reflexivity|].
  now rewrite ascii_compare_refl.
Qed.

Lemma string_compare_lt_trans s1 :
  forall s2 s3,
    String.compare s1 s2 = Lt -> String.compare s2 s3 = Lt ->
    String.compare s1 s3 = Lt.
Proof.
  induction s1 as [|a s1 IH]; intros [|b s2] [|c s3]; cbn;
    try discriminate; try reflexivity.
  destruct (Ascii.compare a b) eqn:Hab, (Ascii.compare b c) eqn:Hbc;
    try discriminate; intros H1 H2.
  - apply Ascii.compare_eq_iff in Hab, Hbc. subst.
    rewrite ascii_compare_refl. eauto.
  - apply Ascii.compare_eq_iff in Hab. subst. now rewrite Hbc.
  - apply Ascii.compare_eq_iff in Hbc. subst. now rewrite Hab.
  - now rewrite (ascii_compare_lt_trans _ _ _ Hab Hbc).
Qed.

Lemma ltb_irrefl s : String.ltb s s = false.
Proof. unfold String.ltb. now rewrite string_compare_refl. Qed.

Lemma ltb_asym a b : String.ltb a b = true -> String.ltb b a = false.
Proof.
  unfold String.ltb. rewrite (String.compare_antisym b a).
  destruct (String.compare a b); cbn; congruence.
Qed.

(** "Not smaller" is transitive. *)
Lemma not_ltb_trans a b c :
  String.ltb b a = false -> String.ltb c b = false -> String.ltb c a = false.
Proof.
  unfold String.ltb. intros Hba Hcb.
  destruct (String.compare c a) eqn:Hca; try reflexivity. exfalso.
  destruct (String.compare c b) eqn:E; try discriminate.
  - apply String.compare_eq_iff in E. subst. now rewrite Hca in Hba.
  - assert (Hbc : String.compare b c = Lt)
      by (rewrite String.compare_antisym, E; reflexivity).
    now rewrite (string_compare_lt_trans _ _ _ Hbc Hca) in Hba.
Qed.

(** ** The proxy sorts by the shown text *)

Lemma sort_keys_shown model column rows :
  rectangular (dataframe model) ->
  (column < List.length (columns (dataframe model)))%nat ->
  Forall (fun r => (r < rowCount model)%nat) rows ->
  sort_keys model column rows
  = Ok (map (fun r => (r, Some (shown model column r))) rows).
Proof.
  intros Hrect Hc. unfold sort_keys.
  induction 1 as [|r rows Hr _ IH]; cbn [mapM map]; [reflexivity|].
  rewrite IH. unfold PandasModel_data, shown, dataframe.
  destruct (iat_total (_df model) r column Hrect Hr Hc) as [v ->].
  reflexivity.
Qed.

Lemma sort_rows_by_key model column order rows :
  rectangular (dataframe model) ->
  (column < List.length (columns (dataframe model)))%nat ->
  Forall (fun r => (r < rowCount model)%nat) rows ->
  sort_rows model column order rows
  = Ok (stable_sort
          (by_key (fun r => Some (shown model column r)) order) rows).
Proof.
  intros Hrect Hc Hrows. unfold sort_rows.
  rewrite (sort_keys_shown model column rows Hrect Hc Hrows). cbn [bind].
  rewrite (stable_sort_map _ _ (fun r => (r, Some (shown model column r)))
             (by_key (fun r => Some (shown model column r)) order))
    by reflexivity.
  rewrite map_map. cbn [fst]. now rewrite map_id.
Qed.

Lemma by_key_asym key order a b :
  by_key (fun r => Some (key r)) order a b = true ->
  by_key (fun r => Some (key r)) order b a = false.
Proof. destruct order; cbn; apply ltb_asym. Qed.

Lemma by_key_separates key order a b text :
  by_key (fun r => Some (key r)) order a b = true ->
  (key a =? text)%string = true -> (key b =? text)%string = true -> False.
Proof.
  rewrite !String.eqb_eq. intros H Ha Hb.
  destruct order; cbn in H; rewrite Ha, Hb, ltb_irrefl in H; discriminate.
Qed.

Lemma text_order_trans model column order a b c :
  text_order model column order a b -> text_order model column order b c ->
  text_order model column order a c.
Proof.
  destruct order; cbn; intros H1 H2.
  - exact (not_ltb_trans _ _ _ H1 H2).
  - exact (not_ltb_trans _ _ _ H2 H1).
Qed.

Lemma stable_sort_text_order model column order rows :
  StronglySorted (text_order model column order)
    (stable_sort (by_key (fun r => Some (shown model column r)) order) rows).
Proof.
  apply Sorted_StronglySorted.
  - intros a b c. apply text_order_trans.
  - pose proof (stable_sort_sorted nat
                  (by_key (fun r => Some (shown model column r)) order)
                  (by_key_asym (shown model column) order) rows) as H.
    induction H as [|a l Hs IH Hhd]; constructor; [exact IH|].
    destruct Hhd as [|b l' Hab]; constructor.
    destruct order; exact Hab.
Qed.

(** ** The text of a number *)

Lemma digit_char_leading d : 0 <= d < 10 -> leading (digit_char d).
Proof.
  intros H. unfold leading.
  assert (d = 0 \/ d = 1 \/ d = 2 \/ d = 3 \/ d = 4 \/ d = 5 \/ d = 6 \/
          d = 7 \/ d = 8 \/ d = 9) as Hd by lia.
  repeat (destruct Hd as [-> | Hd]; [cbn; tauto|]). subst. cbn. tauto.
Qed.

Lemma digits_fuel_leading fuel :
  forall n acc, exists c rest,
    leading c /\ digits_fuel (S fuel) n acc = String c rest.
Proof.
  induction fuel as [|fuel IH]; intros n acc.
  - exists (digit_char (n mod 10)), acc. split.
    + apply digit_char_leading, Z.mod_pos_bound. lia.
    + cbn. destruct (n / 10 =? 0); reflexivity.
  - cbn [digits_fuel]. destruct (n / 10 =? 0).
    + exists (digit_char (n mod 10)), acc. split; [|reflexivity].
      apply digit_char_leading, Z.mod_pos_bound. lia.
    + apply IH.
Qed.

Lemma group3_digits_leading n :
  exists c rest, leading c /\ group3 (digits n) = String c rest.
Proof.
  unfold digits.
  destruct (digits_fuel_leading (Z.to_nat (Z.log2 n)) n "") as (c & rest & Hc & ->).
  cbn [group3]. eauto.
Qed.

Lemma signed_leading negative c rest tail :
  leading c -> exists c' rest',
    leading c' /\
    sign_text negative ++ String c rest ++ tail = String c' rest'.
Proof.
  intros Hc. destruct negative; cbn.
  - exists "-"%char. eexists. split; [|reflexivity]. cbn. tauto.
  - exists c, (rest ++ tail). split; [assumption | reflexivity].
Qed.

(** Neither replacement of [display_text] touches the first character of a
    number, and that character sorts before the [n] of "nan". *)
Lemma leading_before_nan c rest :
  leading c ->
  String.ltb (replace "," " " (String c rest)) "nan" = true /\
  String.ltb (replace ".00" "" (replace "," " " (String c rest))) "nan" = true.
Proof.
  unfold leading. cbn [In]. intros H.
  repeat (destruct H as [<- | H]; [split; reflexivity|]).
  contradiction.
Qed.

Lemma number_before_nan v :
  is_number v = true -> v <> CFloat FNaN ->
  String.ltb (display_text v) (display_text (CFloat FNaN)) = true.
Proof.
  destruct v as [| z | [| negative | q] | s]; try discriminate;
    intros _ Hv; try congruence.
  - cbn [display_text]. unfold format_int_comma.
    destruct (group3_digits_leading (Z.abs z)) as (c & rest & Hc & ->).
    assert (exists c' rest', leading c' /\
              sign_text (z <? 0) ++ String c rest = String c' rest')
      as (c' & rest' & Hc' & ->).
    { destruct (z <? 0); cbn.
      - exists "-"%char. eexists. split; [|reflexivity]. cbn. tauto.
      - exists c, rest. split; [assumption | reflexivity]. }
    apply (leading_before_nan c' rest' Hc').
  - destruct negative; reflexivity.
  - cbn [display_text format_float_comma].
    match goal with
    | |- context [group3 (digits ?n)] =>
        destruct (group3_digits_leading n) as (c & rest & Hc & ->)
    end.
    match goal with
    | |- context [sign_text ?b ++ String c rest ++ ?t] =>
        destruct (signed_leading b c rest t Hc) as (c' & rest' & Hc' & ->)
    end.
    apply (leading_before_nan c' rest' Hc').
Qed.

Lemma StronglySorted_later (A : Type) (R : A -> A -> Prop) front a rest b :
  StronglySorted R (front ++ a :: rest)%list -> In b rest -> R a b.
Proof.
  induction front as [|x front IH]; cbn; intros Hs Hb.
  - apply StronglySorted_inv in Hs as [_ Hall].
    rewrite Forall_forall in Hall. now apply Hall.
  - apply StronglySorted_inv in Hs as [Hs _]. now apply IH.
Qed.

Lemma nan_or_not v : v = CFloat FNaN \/ v <> CFloat FNaN.
Proof.
  destruct v as [| z | [| negative | q] | s]; auto; right; discriminate.
Qed.

(** C2, as the code has it. The proxy sorts on the text that
    [PandasModel.data] shows, compared as text, not on the number: for
    rows and a column of the frame, the sort returns a rearrangement of
    the rows in which no row stands before a row with a smaller text
    (ascending) or a greater text (descending), and the rows showing the
    same text keep the order they had before the sort. A missing value is
    shown as "nan", a text that is greater than the text of every number:
    in ascending order no number follows a missing value, in descending
    order none precedes one. *)
Theorem sort_is_stable_on_shown_text model column order rows :
  rectangular (dataframe model) ->
  (column < List.length (columns (dataframe model)))%nat ->
  Forall (fun r => (r < rowCount model)%nat) rows ->
  (exists sorted,
      sort_rows model column order rows = Ok sorted /\
      Permutation rows sorted /\
      StronglySorted (text_order model column order) sorted /\
      (forall text,
          filter (shows model column text) sorted
          = filter (shows model column text) rows) /\
      (forall front a middle b back va vb,
          sorted = (front ++ a :: middle ++ b :: back)%list ->
          iat (dataframe model) a column = Ok va ->
          iat (dataframe model) b column = Ok vb ->
          match order with
          | AscendingOrder =>
              va = CFloat FNaN -> is_number vb = true -> vb = CFloat FNaN
          | DescendingOrder =>
              vb = CFloat FNaN -> is_number va = true -> va = CFloat FNaN
          end)) /\
  display_text (CFloat FNaN) = "nan" /\
  (forall v,
      is_number v = true -> v <> CFloat FNaN ->
      String.ltb (display_text v) (display_text (CFloat FNaN)) = true).
Proof.
  intros Hrect Hc Hrows. split; [|split; [reflexivity | exact number_before_nan]].
  exists (stable_sort (by_key (fun r => Some (shown model column r)) order) rows).
  split; [now apply sort_rows_by_key|].
  split; [apply stable_sort_perm|].
  split; [apply stable_sort_text_order|].
  split.
  - intros text. apply stable_sort_filter.
    intros a b. apply by_key_separates.
  - intros front a middle b back va vb Hsplit Ha Hb.
    pose proof (stable_sort_text_order model column order rows) as Hs.
    rewrite Hsplit in Hs.
    assert (Hin : In b (middle ++ b :: back)%list)
      by (apply in_or_app; right; left; reflexivity).
    pose proof (StronglySorted_later _ _ _ _ _ b Hs Hin) as Hab.
    unfold text_order, shown in Hab. rewrite Ha, Hb in Hab.
    destruct order; intros -> Hnum.
    + destruct (nan_or_not vb) as [E | E]; [exact E|].
      rewrite (number_before_nan vb Hnum E) in Hab. discriminate.
    + destruct (nan_or_not va) as [E | E]; [exact E|].
      rewrite (number_before_nan va Hnum E) in Hab. discriminate.
Qed.

Lemma equal_prices_frame_rectangular :
  rectangular (dataframe (new_PandasModel equal_prices_frame)).
Proof. split; [reflexivity | repeat constructor]. Qed.

Lemma sort_is_stable_on_shown_text_witness :
  (rectangular (dataframe (new_PandasModel equal_prices_frame)) /\
   (1 < List.length (columns (dataframe (new_PandasModel equal_prices_frame))))%nat /\
   Forall (fun r => (r < rowCount (new_PandasModel equal_prices_frame))%nat)
     [0; 1; 2]%nat) /\
  exists sorted,
    sort_rows (new_PandasModel equal_prices_frame) 1 DescendingOrder
      [0; 1; 2]%nat = Ok sorted /\
    Permutation [0; 1; 2]%nat sorted /\
    StronglySorted
      (text_order (new_PandasModel equal_prices_frame) 1 DescendingOrder)
      sorted /\
    forall text,
      filter (shows (new_PandasModel equal_prices_frame) 1 text) sorted
      = filter (shows (new_PandasModel equal_prices_frame) 1 text)
          [0; 1; 2]%nat.
Proof.
  assert (H1 : (1 < List.length
                    (columns (dataframe (new_PandasModel equal_prices_frame))))%nat)
    by (cbn; lia).
  assert (H2 : Forall
                 (fun r => (r < rowCount (new_PandasModel equal_prices_frame))%nat)
                 [0; 1; 2]%nat)
    by (repeat constructor).
  split; [split; [exact equal_prices_frame_rectangular | split; assumption]|].
  destruct (proj1 (sort_is_stable_on_shown_text
                     (new_PandasModel equal_prices_frame) 1 DescendingOrder
                     [0; 1; 2]%nat equal_prices_frame_rectangular H1 H2))
    as (sorted & Hsort & Hperm & Hord & Hstable & _).
  exists sorted. repeat split; assumption.
Defined.

(** Two equal prices in different cities keep their order, whichever the
    direction of the sort. *)
Example equal_prices_keep_their_order :
  sort_rows (new_PandasModel equal_prices_frame) 1 AscendingOrder
    [0; 1; 2]%nat = Ok [1; 0; 2]%nat /\
  sort_rows (new_PandasModel equal_prices_frame) 1 DescendingOrder
    [0; 1; 2]%nat = Ok [0; 2; 1]%nat.
Proof. split; reflexivity. Qed.

(** C2, as stated, fails: an ascending sort on Price puts 100000 before
    99000, because "100 000" is the smaller text. *)
Lemma price_sort_is_not_numeric :
  sort_rows (new_PandasModel two_prices_frame) 1 AscendingOrder [0; 1]%nat
  = Ok [1; 0]%nat /\
  prices_of (new_PandasModel two_prices_frame) 1 [1; 0]%nat
  = [100000; 99000] /\
  ~ (forall model column rows sorted,
        sort_rows model column AscendingOrder rows = Ok sorted ->
        ascending_prices (prices_of model column sorted) = true).
Proof.
  split; [reflexivity|]. split; [reflexivity|].
  intros H.
  specialize (H (new_PandasModel two_prices_frame) 1%nat [0; 1]%nat
                [1; 0]%nat eq_refl).
  discriminate H.
Qed.

(** ** Export *)

Lemma mapM_mapToSource pre rows :
  mapM (mapToSource (pre ++ rows)%list)
    (seq (List.length pre) (List.length rows)) = Ok rows.
Proof.
  revert pre. induction rows as [|r rows IH]; intros pre; [reflexivity|].
  cbn [List.length seq mapM]. unfold mapToSource at 1.
  rewrite nth_error_app2, Nat.sub_diag by lia. cbn [nth_error bind].
  replace (pre ++ r :: rows)%list with ((pre ++ [r]) ++ rows)%list
    by (now rewrite <- app_assoc).
  replace (S (List.length pre)) with (List.length (pre ++ [r])%list)
    by (rewrite length_app; cbn; lia).
  now rewrite IH.
Qed.

Lemma mapM_row_at df rows :
  List.length (index df) = List.length (data df) ->
  Forall (fun r => (r < len df)%nat) rows ->
  mapM (row_at df) rows
  = Ok (map (fun r => (nth r (index df) O, nth r (data df) [])) rows).
Proof.
  intros Hlen. unfold len.
  induction 1 as [|r rows Hr _ IH]; cbn [mapM map]; [reflexivity|].
  unfold row_at at 1.
  rewrite (nth_error_nth' (index df) O) by lia.
  rewrite (nth_error_nth' (data df) []) by lia.
  cbn [bind]. now rewrite IH.
Qed.

Lemma _filtered_dataframe_projects model rows :
  List.length (index (dataframe model)) = List.length (data (dataframe model)) ->
  Forall (fun r => (r < rowCount model)%nat) rows ->
  _filtered_dataframe model rows
  = Ok (mkDataFrame (columns (dataframe model))
          (map (fun r => nth r (index (dataframe model)) O) rows)
          (map (fun r => nth r (data (dataframe model)) []) rows)).
Proof.
  intros Hlen Hrows. unfold _filtered_dataframe.
  pose proof (mapM_mapToSource [] rows) as Hmap. cbn [app List.length] in Hmap.
  rewrite Hmap. cbn [bind]. unfold iloc.
  rewrite (mapM_row_at _ rows Hlen Hrows). cbn [bind].
  now rewrite !map_map.
Qed.

Lemma sort_keys_rows model column rows keyed :
  sort_keys model column rows = Ok keyed -> map fst keyed = rows.
Proof.
  unfold sort_keys. revert keyed.
  induction rows as [|r rows IH]; cbn [mapM]; intros keyed.
  - now intros [= <-].
  - destruct (PandasModel_data model (Some (r, column)) DisplayRole)
      as [k|]; cbn [bind]; [|discriminate].
    destruct (mapM _ rows) as [ks|]; cbn [bind]; [|discriminate].
    intros [= <-]. cbn. now rewrite (IH ks eq_refl).
Qed.

(** A sort rearranges the rows of the proxy and nothing else. *)
Lemma sort_rows_perm model column order rows sorted :
  sort_rows model column order rows = Ok sorted -> Permutation rows sorted.
Proof.
  unfold sort_rows.
  destruct (sort_keys model column rows) as [keyed|] eqn:Hk; cbn [bind];
    [|discriminate].
  intros [= <-]. rewrite <- (sort_keys_rows _ _ _ _ Hk).
  apply Permutation_map, stable_sort_perm.
Qed.

(** ** The rows of the table *)

Lemma accepted_rows_In float_repr p rows :
  forall kept,
    accepted_rows float_repr p rows = Ok kept ->
    forall r, In r kept <->
              In r rows /\ filterAcceptsRow float_repr p r = Ok true.
Proof.
  induction rows as [|x rows IH]; cbn [accepted_rows]; intros kept.
  - intros [= <-] r. cbn. tauto.
  - destruct (filterAcceptsRow float_repr p x) as [b|] eqn:Hx; cbn [bind];
      [|discriminate].
    destruct (accepted_rows float_repr p rows) as [rest|]; cbn [bind];
      [|discriminate].
    intros [= <-] r. specialize (IH rest eq_refl r).
    destruct b; cbn [In]; rewrite IH; split.
    + intros [<- | [H1 H2]]; auto.
    + intros [[<- | H1] H2]; auto.
    + intros [H1 H2]; auto.
    + intros [[<- | H1] H2]; [congruence | auto].
Qed.

Lemma visible_rows_range float_repr p model rows :
  sourceModel p = Some model -> visible_rows float_repr p = Ok rows ->
  Forall (fun r => (r < rowCount model)%nat) rows.
Proof.
  intros Hm H. unfold visible_rows in H. rewrite Hm in H.
  apply Forall_forall. intros r Hr.
  apply (accepted_rows_In _ _ _ _ H) in Hr as [Hr _].
  apply in_seq in Hr. lia.
Qed.

(** On a frame the table has its rows: the rows of the filter pass,
    rearranged, and in the order of the sort when the sort column is a
    column of the frame. *)
Lemma table_rows_sorted_pass float_repr self model :
  sourceModel (proxy self) = Some model -> rectangular (dataframe model) ->
  exists accepted rows,
    visible_rows float_repr (proxy self) = Ok accepted /\
    table_rows float_repr self = Ok rows /\
    Permutation accepted rows /\
    ((sortIndicatorSection self < columnCount model)%nat ->
     StronglySorted
       (text_order model (sortIndicatorSection self) (sortIndicatorOrder self))
       rows).
Proof.
  intros Hm Hrect.
  destruct (visible_rows_total float_repr (proxy self) model Hm Hrect)
    as [accepted Hacc].
  pose proof (visible_rows_range _ _ _ _ Hm Hacc) as Hrange.
  unfold table_rows. rewrite Hm, Hacc. cbn [bind].
  destruct (Nat.ltb_spec (sortIndicatorSection self) (columnCount model))
    as [Hc|Hc].
  - rewrite (sort_rows_by_key model _ (sortIndicatorOrder self) accepted
               Hrect Hc Hrange).
    eexists _, _. split; [reflexivity|]. split; [reflexivity|].
    split; [apply stable_sort_perm|].
    intros _. apply stable_sort_text_order.
  - exists accepted, accepted. split; [reflexivity|]. split; [reflexivity|].
    split; [reflexivity|]. intros H. lia.
Qed.

Lemma scenario_A_frame_rectangular :
  rectangular (dataframe (new_PandasModel scenario_A_frame)).
Proof. split; [reflexivity | repeat constructor]. Qed.

(** ** Unset bounds *)

Lemma value_or_None_zero v : (v == 0)%Q -> value_or_None v = None.
Proof.
  intros H. unfold value_or_None. now rewrite (Qeq_eq_bool _ _ H).
Qed.

Lemma None_if_zero_zero v :
  (v == 0)%Q -> None_if_zero (value_or_None v) = None.
Proof. intros H. now rewrite (value_or_None_zero v H). Qed.

Lemma val_on_filters_changed w p df r name :
  val (_on_filters_changed w p) df r name = val p df r name.
Proof. reflexivity. Qed.

(** C4, as the code has it. A spin box on 0 leaves its bound unset
    ([None]), and an unset bound rejects no value. With every spin box on 0
    and every text field empty (the state [_reset_filters] puts the form
    in), every row of the frame is accepted, and the table shows every row
    of the frame once. It shows them in the order of its sort, which the
    table has from the start, on whatever column and in whatever direction
    the sort is: no row stands before a row with a smaller text
    (ascending) or a greater text (descending) in the sort column. *)
Theorem zero_bounds_are_unset float_repr w self :
  (forall c, (spin_lower c w == 0)%Q ->
             lower_bound c (proxy (filters_changed w self)) = None) /\
  (forall c, (spin_upper c w == 0)%Q ->
             upper_bound c (proxy (filters_changed w self)) = None) /\
  (forall v, below v None = false /\ above v None = false) /\
  (forall model,
      all_unset w -> sourceModel (proxy self) = Some model ->
      rectangular (dataframe model) ->
      (forall r, (r < rowCount model)%nat ->
                 filterAcceptsRow float_repr (proxy (filters_changed w self)) r
                 = Ok true) /\
      exists rows,
        table_rows float_repr (filters_changed w self) = Ok rows /\
        Permutation (seq 0 (rowCount model)) rows /\
        ((sortIndicatorSection self < columnCount model)%nat ->
         StronglySorted
           (text_order model (sortIndicatorSection self)
              (sortIndicatorOrder self))
           rows)).
Proof.
  cbn [filters_changed proxy].
  split; [|split; [|split]].
  - intros [] H; cbn in *; now apply value_or_None_zero.
  - intros [] H; cbn in *; now apply None_if_zero_zero.
  - intros v. split; reflexivity.
  - intros model (Hspin & Hcity & Hstate & Hsearch) Hm Hrect.
    set (p := proxy self) in *.
    assert (Hall : forall r, (r < rowCount model)%nat ->
              filterAcceptsRow float_repr (_on_filters_changed w p) r
              = Ok true).
    { intros r Hr. rewrite filterAcceptsRow_stages.
      unfold _on_filters_changed at 1. proxy_fields. rewrite Hm.
      unfold stages. rewrite !val_on_filters_changed.
      unfold _on_filters_changed. proxy_fields.
      rewrite Hcity, Hstate, Hsearch.
      destruct (Hspin Price) as [Hp1 Hp2], (Hspin LivingSpace) as [Hs1 Hs2],
        (Hspin Beds) as [Hb1 Hb2], (Hspin Income) as [Hi1 Hi2].
      cbn [spin_lower spin_upper] in *.
      rewrite (value_or_None_zero _ Hp1), (None_if_zero_zero _ Hp2),
        (value_or_None_zero _ Hs1), (None_if_zero_zero _ Hs2),
        (value_or_None_zero _ Hb1), (None_if_zero_zero _ Hb2),
        (value_or_None_zero _ Hi1), (None_if_zero_zero _ Hi2).
      repeat (rewrite stage_pass;
              [ | apply val_total; assumption
                | first [ apply range_rejects_unset | reflexivity ] ]).
      reflexivity. }
    split; [exact Hall|].
    assert (Hvis : visible_rows float_repr (_on_filters_changed w p)
                   = Ok (seq 0 (rowCount model))).
    { unfold visible_rows. unfold _on_filters_changed at 1. proxy_fields.
      rewrite Hm. apply accepted_rows_all.
      intros r Hr. apply Hall. apply in_seq in Hr. lia. }
    destruct (table_rows_sorted_pass float_repr (filters_changed w self) model
                Hm Hrect) as (accepted & rows & Hacc & Hrows & Hperm & Hsorted).
    cbn [filters_changed proxy sortIndicatorSection sortIndicatorOrder] in *.
    fold p in Hacc. rewrite Hvis in Hacc. injection Hacc as <-.
    exists rows. repeat split; assumption.
Qed.

Lemma reset_widgets_unset : all_unset reset_widgets.
Proof.
  split; [intros []; split; reflexivity | repeat split].
Qed.

Lemma zero_bounds_are_unset_witness :
  (all_unset reset_widgets /\
   rectangular (dataframe (new_PandasModel scenario_A_frame))) /\
  exists rows,
    table_rows plain_repr (filters_changed reset_widgets scenario_A_tab)
    = Ok rows /\
    Permutation [0; 1; 2; 3; 4]%nat rows.
Proof.
  split; [split; [exact reset_widgets_unset | exact scenario_A_frame_rectangular]|].
  destruct (proj2 (proj2 (proj2 (proj2
              (zero_bounds_are_unset plain_repr reset_widgets scenario_A_tab)))
              (new_PandasModel scenario_A_frame)
              reset_widgets_unset eq_refl scenario_A_frame_rectangular))
    as (rows & Hrows & Hperm & _).
  exists rows. split; assumption.
Defined.

(** C4, as stated, fails in its last part: on the five listings of
    scenario A, after the filters are reset, the table shows the rows in the
    order of its sort (section 0, the addresses, descending), which is not
    the order of the frame. *)
Lemma reset_rows_are_not_in_frame_order :
  table_rows plain_repr (filters_reset scenario_A_tab)
  = Ok [3; 1; 2; 0; 4]%nat /\
  table_rows plain_repr (filters_reset (new_ExplorationTab scenario_A_frame))
  = Ok [3; 1; 2; 0; 4]%nat /\
  ~ (forall float_repr self model,
        sourceModel (proxy self) = Some model ->
        rectangular (dataframe model) ->
        table_rows float_repr (filters_reset self)
        = Ok (seq 0 (rowCount model))).
Proof.
  split; [reflexivity|]. split; [reflexivity|].
  intros H.
  specialize (H plain_repr scenario_A_tab (new_PandasModel scenario_A_frame)
                eq_refl scenario_A_frame_rectangular).
  discriminate H.
Qed.

(** ** Inclusive bounds *)




(** ** Export of the rows of the proxy *)

(** C9, as the code has it. [export_csv] is a projection: when a path is
    given, the frame handed to [to_csv] has one record per row of the
    proxy, in the order of the proxy, the i-th record being the record (and
    label) of the frame at the i-th row of the proxy; nothing is filtered.
    After a sort the export follows the order the sort produced, which is
    the order of the shown texts. *)
Theorem export_is_projection path model rows :
  path <> "" ->
  List.length (index (dataframe model)) = List.length (data (dataframe model)) ->
  Forall (fun r => (r < rowCount model)%nat) rows ->
  (exists exported,
      export_csv path model rows = Ok (Some exported) /\
      columns exported = columns (dataframe model) /\
      List.length (data exported) = List.length rows /\
      (forall i r,
          nth_error rows i = Some r ->
          nth_error (data exported) i = nth_error (data (dataframe model)) r /\
          nth_error (index exported) i
          = nth_error (index (dataframe model)) r)) /\
  (forall column order sorted,
      sort_rows model column order rows = Ok sorted ->
      export_csv path model sorted
      = Ok (Some (mkDataFrame (columns (dataframe model))
                    (map (fun r => nth r (index (dataframe model)) O) sorted)
                    (map (fun r => nth r (data (dataframe model)) []) sorted)))).
Proof.
  intros Hpath Hlen Hrows.
  assert (Hexp : forall l,
             Forall (fun r => (r < rowCount model)%nat) l ->
             export_csv path model l
             = Ok (Some (mkDataFrame (columns (dataframe model))
                     (map (fun r => nth r (index (dataframe model)) O) l)
                     (map (fun r => nth r (data (dataframe model)) []) l)))).
  { intros l Hl. unfold export_csv.
    rewrite (proj2 (String.eqb_neq _ _) Hpath).
    now rewrite (_filtered_dataframe_projects model l Hlen Hl). }
  split.
  - eexists. split; [apply Hexp, Hrows|]. cbn [columns data index].
    split; [reflexivity|]. split; [apply length_map|].
    intros i r Hi.
    assert (Hr : (r < rowCount model)%nat).
    { rewrite Forall_forall in Hrows. apply Hrows.
      eapply nth_error_In; eauto. }
    unfold rowCount, len in Hr. fold (dataframe model) in Hr.
    rewrite !nth_error_map, Hi. cbn [option_map].
    rewrite (nth_error_nth' (data (dataframe model)) []) by lia.
    rewrite (nth_error_nth' (index (dataframe model)) O) by lia.
    split; reflexivity.
  - intros column order sorted Hs. apply Hexp.
    eapply Permutation_Forall; [|exact Hrows].
    eapply sort_rows_perm; eauto.
Qed.

Lemma three_prices_frame_lengths :
  List.length (index (dataframe (new_PandasModel three_prices_frame)))
  = List.length (data (dataframe (new_PandasModel three_prices_frame))).
Proof. reflexivity. Qed.

Lemma export_is_projection_witness :
  ("filtered_exploration.csv" <> "" /\
   Forall (fun r => (r < rowCount (new_PandasModel three_prices_frame))%nat)
     [2; 0]%nat) /\
  exists exported,
    export_csv "filtered_exploration.csv"
      (new_PandasModel three_prices_frame) [2; 0]%nat = Ok (Some exported) /\
    columns exported = columns (dataframe (new_PandasModel three_prices_frame)) /\
    List.length (data exported) = List.length [2; 0]%nat /\
    (forall i r,
        nth_error [2; 0]%nat i = Some r ->
        nth_error (data exported) i
        = nth_error (data (dataframe (new_PandasModel three_prices_frame))) r /\
        nth_error (index exported) i
        = nth_error (index (dataframe (new_PandasModel three_prices_frame))) r).
Proof.
  assert (H1 : "filtered_exploration.csv" <> "") by discriminate.
  assert (H2 : Forall
                 (fun r => (r < rowCount (new_PandasModel three_prices_frame))%nat)
                 [2; 0]%nat) by (repeat constructor).
  split; [split; assumption|].
  exact (proj1 (export_is_projection "filtered_exploration.csv"
                  (new_PandasModel three_prices_frame) [2; 0]%nat
                  H1 three_prices_frame_lengths H2)).
Defined.

(** C9, as stated, fails in its last part: after a descending sort on
    Price of three visible rows the export follows the sort, but the sort
    put 99000 first, so the exported prices are not descending. *)
Lemma export_after_price_sort_is_not_descending :
  sort_rows (new_PandasModel three_prices_frame) 1 DescendingOrder
    [0; 1; 2]%nat = Ok [0; 2; 1]%nat /\
  export_csv "filtered_exploration.csv" (new_PandasModel three_prices_frame)
    [0; 2; 1]%nat
  = Ok (Some (mkDataFrame ["City"; "Price"] [0; 2; 1]%nat
                [ [CStr "Denver"; CInt 99000];
                  [CStr "Boulder"; CInt 250000];
                  [CStr "Chicago"; CInt 100000] ])) /\
  ~ (forall model column rows sorted exported,
        List.length rows = 3%nat ->
        sort_rows model column DescendingOrder rows = Ok sorted ->
        export_csv "filtered_exploration.csv" model sorted
        = Ok (Some exported) ->
        strictly_descending_prices
          (prices_of (mkPandasModel exported) column (seq 0 3)) = true).
Proof.
  split; [reflexivity|]. split; [reflexivity|].
  intros H.
  specialize (H (new_PandasModel three_prices_frame) 1%nat [0; 1; 2]%nat
                [0; 2; 1]%nat _ eq_refl eq_refl eq_refl).
  discriminate H.
Qed.

(** ** Sampling *)

Lemma NoDup_map_nth (l : list nat) (d : nat) (positions : list nat) :
  NoDup l -> NoDup positions ->
  Forall (fun i => (i < List.length l)%nat) positions ->
  NoDup (map (fun i => nth i l d) positions).
Proof.
  intros Hl Hp Hin. induction Hp as [|i positions Hi Hp IH]; cbn; [constructor|].
  inversion Hin as [|? ? Hlt Hin']; subst. constructor; [|auto].
  intros Hmem. apply in_map_iff in Hmem as (j & Hj & Hjin).
  rewrite Forall_forall in Hin'.
  assert (j = i) by (eapply (proj1 (NoDup_nth l d)); eauto).
  subst. contradiction.
Qed.

(** C3. With a sample size [n > 0] below the number of visible rows,
    [generate_map] draws exactly [n] of the visible rows, no row twice,
    and the draw depends on nothing but the visible rows and [n]: it is
    made with a generator seeded afresh with 42, so the state of the
    process-wide generator neither matters nor changes, and two renders of
    the same visible rows select the same rows and give the same map. *)
Theorem sampling_is_deterministic float_repr (rng : Type)
    (RandomState : Z -> rng) (choice : rng -> nat -> nat -> list nat * rng)
    model rows n tiles_text zoom (g1 g2 : rng) :
  draws_without_replacement rng choice ->
  List.length (index (dataframe model)) = List.length (data (dataframe model)) ->
  Forall (fun r => (r < rowCount model)%nat) rows ->
  (0 < n)%nat -> (n < List.length rows)%nat ->
  (exists df_f,
      rows_to_draw rng RandomState choice model rows n g1 = (Ok df_f, g1) /\
      rows_to_draw rng RandomState choice model rows n g2 = (Ok df_f, g2) /\
      List.length (data df_f) = n /\
      List.length (index df_f) = n /\
      incl (index df_f)
        (map (fun r => nth r (index (dataframe model)) O) rows) /\
      (NoDup rows -> NoDup (index (dataframe model)) ->
       NoDup (index df_f))) /\
  fst (generate_map float_repr rng RandomState choice model rows n
         tiles_text zoom g1)
  = fst (generate_map float_repr rng RandomState choice model rows n
           tiles_text zoom g2).
Proof.
  intros Hchoice Hlen Hrows Hn0 Hn.
  set (labels := map (fun r => nth r (index (dataframe model)) O) rows).
  set (records := map (fun r => nth r (data (dataframe model)) []) rows).
  set (df0 := mkDataFrame (columns (dataframe model)) labels records).
  set (locs := fst (choice (RandomState 42) (List.length rows) n)).
  destruct (Hchoice (RandomState 42) (List.length rows) n (Nat.lt_le_incl _ _ Hn))
    as (Hsize & Hrange & Hnodup). fold locs in Hsize, Hrange, Hnodup.
  assert (Hlen0 : len df0 = List.length rows) by apply length_map.
  assert (Hdraw : forall g,
             rows_to_draw rng RandomState choice model rows n g
             = (Ok (mkDataFrame (columns df0)
                      (map (fun i => nth i labels O) locs)
                      (map (fun i => nth i records []) locs)), g)).
  { intros g. unfold rows_to_draw.
    rewrite (_filtered_dataframe_projects model rows Hlen Hrows).
    fold labels records df0. rewrite Hlen0.
    rewrite (proj2 (Nat.ltb_lt 0 n) Hn0), (proj2 (Nat.ltb_lt _ _) Hn).
    cbn [andb DataFrame_sample]. rewrite Hlen0. fold locs. unfold iloc.
    rewrite (mapM_row_at df0 locs).
    - cbn [bind]. now rewrite !map_map.
    - cbn. unfold labels, records. now rewrite !length_map.
    - rewrite Hlen0. exact Hrange. }
  split.
  - eexists. split; [apply Hdraw|]. split; [apply Hdraw|].
    cbn [data index]. rewrite !length_map. split; [exact Hsize|].
    split; [exact Hsize|]. split.
    + intros x Hx. apply in_map_iff in Hx as (i & <- & Hi).
      apply nth_In. rewrite Forall_forall in Hrange.
      unfold labels. rewrite length_map. now apply Hrange.
    + intros Hnd Hndi. apply NoDup_map_nth; [| exact Hnodup |].
      * unfold labels. apply NoDup_map_nth; [exact Hndi | exact Hnd |].
        unfold rowCount, len in Hrows. fold (dataframe model) in Hrows.
        now rewrite Hlen.
      * unfold labels. now rewrite length_map.
  - unfold generate_map. now rewrite !Hdraw.
Qed.

Lemma first_positions_draw : draws_without_replacement unit first_positions.
Proof.
  intros g population size H. cbn. split; [apply length_seq|]. split.
  - apply Forall_forall. intros i Hi. apply in_seq in Hi. lia.
  - apply seq_NoDup.
Qed.

Lemma sampling_is_deterministic_witness :
  (draws_without_replacement unit first_positions /\
   Forall (fun r => (r < rowCount (new_PandasModel scenario_A_frame))%nat)
     [0; 1; 4]%nat /\
   (0 < 2)%nat /\ (2 < List.length [0; 1; 4]%nat)%nat) /\
  exists df_f,
    rows_to_draw unit (fun _ => tt) first_positions
      (new_PandasModel scenario_A_frame) [0; 1; 4]%nat 2 tt = (Ok df_f, tt) /\
    List.length (data df_f) = 2%nat /\
    List.length (index df_f) = 2%nat.
Proof.
  assert (H1 : Forall
                 (fun r => (r < rowCount (new_PandasModel scenario_A_frame))%nat)
                 [0; 1; 4]%nat) by (repeat constructor).
  assert (H2 : (0 < 2)%nat) by lia.
  assert (H3 : (2 < List.length [0; 1; 4]%nat)%nat) by (cbn; lia).
  split; [split; [exact first_positions_draw | repeat split; assumption]|].
  destruct (proj1 (sampling_is_deterministic plain_repr unit (fun _ => tt)
                     first_positions (new_PandasModel scenario_A_frame)
                     [0; 1; 4]%nat 2 "openstreetmap" 4 tt tt
                     first_positions_draw eq_refl H1 H2 H3))
    as (df_f & Hdraw & _ & Hdata & Hindex & _).
  exists df_f. repeat split; assumption.
Defined.

(** The draw on the listings of scenario A: two of the three visible rows,
    the same two on every render. *)
Example two_of_three_visible_rows :
  fst (rows_to_draw unit (fun _ => tt) first_positions
         (new_PandasModel scenario_A_frame) [0; 1; 4]%nat 2 tt)
  = Ok (mkDataFrame (columns scenario_A_frame) [0; 1]%nat
          [ [CStr "12 Oak St"; CStr "Springfield"; CStr "IL";
             CInt 100000; CInt 3];
            [CStr "7 Elm Ave"; CStr "Chicago"; CStr "IL";
             CInt 250000; CInt 4] ]).
Proof. reflexivity. Qed.

(** ** The dynamic map *)

Lemma where_cells_columns d name test d' :
  Cartographie.where_cells d name test = Ok d' -> columns d' = columns d.
Proof.
  unfold Cartographie.where_cells.
  destruct (Cartographie.column d name); cbn [bind]; [|discriminate].
  destruct (mapM test a); cbn [bind]; [|discriminate].
  now intros [= <-].
Qed.

Lemma bind_keeps_columns (m : result DataFrame)
    (k : DataFrame -> result DataFrame) d0 out :
  (forall d, m = Ok d -> columns d = columns d0) ->
  (forall d, columns d = columns d0 -> k d = Ok out ->
             columns out = columns d0) ->
  bind m k = Ok out -> columns out = columns d0.
Proof.
  intros Hm Hk. destruct m as [d|e]; cbn [bind]; [|discriminate].
  apply Hk, Hm. reflexivity.
Qed.

Ltac keeps_columns :=
  match goal with
  | H : match ?o with Some _ => _ | None => _ end = Ok _ |- _ =>
      destruct o;
      [ apply where_cells_columns in H | injection H as <- ]; congruence
  | H : (if ?c then _ else _) = Ok _ |- _ =>
      destruct c; [|injection H as <-; congruence];
      repeat match type of H with
             | bind ?m _ = Ok _ =>
                 destruct m; cbn [bind] in H; [|discriminate H]
             end;
      injection H as <-; cbn [columns Cartographie.select]; congruence
  end.

(** Filtering keeps the columns of the frame. *)
Lemma filtered_df_columns float_repr re_compile_ignorecase self df_f :
  Cartographie.filtered_df float_repr re_compile_ignorecase self = Ok df_f ->
  columns df_f = columns (Cartographie.df self).
Proof.
  unfold Cartographie.filtered_df.
  repeat (apply bind_keeps_columns;
          [ let d := fresh "d" in
            let H := fresh "H" in
            intros d H; keeps_columns
          | let d := fresh "d" in
            let H := fresh "Hcols" in
            intros d H ]).
  intros [= <-]. assumption.
Qed.

(** C8, as the code has it. [update_map] filters first. When the filter
    returns and the filtered frame has no row, or the frame has no Latitude
    or no Longitude column, [update_map] shows the map without markers,
    centred on latitude 39.5 and longitude -98.35 with zoom 4, and prints
    no exception. With no filter set the filter returns the frame itself,
    so this is what a frame without rows or without one of the two columns
    always gives. When the filter raises, [update_map] prints the
    exception and shows no map, whatever the rows and columns are. *)
Theorem empty_result_shows_empty_map float_repr re_compile_ignorecase self :
  (forall df_f,
      Cartographie.filtered_df float_repr re_compile_ignorecase self
      = Ok df_f ->
      index df_f = [] \/
      has_column (Cartographie.df self) "Latitude" = false \/
      has_column (Cartographie.df self) "Longitude" = false ->
      Cartographie.update_map float_repr re_compile_ignorecase self
      = Cartographie.Shown Cartographie.empty_map) /\
  (forall d,
      index d = [] \/
      has_column d "Latitude" = false \/
      has_column d "Longitude" = false ->
      Cartographie.update_map float_repr re_compile_ignorecase (dynamic_on d)
      = Cartographie.Shown Cartographie.empty_map) /\
  (forall e,
      Cartographie.filtered_df float_repr re_compile_ignorecase self
      = Raise e ->
      Cartographie.update_map float_repr re_compile_ignorecase self
      = Cartographie.Printed e) /\
  center Cartographie.empty_map = ((395 # 10)%Q, (- (9835 # 100))%Q) /\
  zoom_start Cartographie.empty_map = 4 /\
  cluster Cartographie.empty_map = None.
Proof.
  assert (Hshown : forall self' df_f,
             Cartographie.filtered_df float_repr re_compile_ignorecase self'
             = Ok df_f ->
             index df_f = [] \/
             has_column (Cartographie.df self') "Latitude" = false \/
             has_column (Cartographie.df self') "Longitude" = false ->
             Cartographie.update_map float_repr re_compile_ignorecase self'
             = Cartographie.Shown Cartographie.empty_map).
  { intros self' df_f Hf Hcase.
    unfold Cartographie.update_map, Cartographie.render. rewrite Hf.
    cbn [bind].
    assert (Hcols : forall name,
               has_column df_f name = has_column (Cartographie.df self') name).
    { intros name. unfold has_column.
      now rewrite (filtered_df_columns _ _ _ _ Hf). }
    replace (Cartographie.empty df_f
             || negb (has_column df_f "Latitude"
                      && has_column df_f "Longitude"))%bool
      with true; [reflexivity|].
    symmetry. destruct Hcase as [He | [Hl | Hl]].
    - unfold Cartographie.empty. now rewrite He.
    - rewrite (Hcols "Latitude"), Hl. cbn. apply orb_true_r.
    - rewrite (Hcols "Longitude"), Hl. rewrite andb_false_r.
      apply orb_true_r. }
  split; [apply Hshown|]. split; [|split; [|repeat split]].
  - intros d Hcase. apply (Hshown (dynamic_on d) d); [reflexivity | exact Hcase].
  - intros e He. unfold Cartographie.update_map, Cartographie.render.
    now rewrite He.
Qed.

Lemma empty_result_shows_empty_map_witness :
  (Cartographie.filtered_df plain_repr (fun _ => Raise ReError)
     scenario_A_dynamic
   = Ok (mkDataFrame (columns scenario_A_frame) [0; 1; 4]%nat
           [ [CStr "12 Oak St"; CStr "Springfield"; CStr "IL";
              CInt 100000; CInt 3];
             [CStr "7 Elm Ave"; CStr "Chicago"; CStr "IL";
              CInt 250000; CInt 4];
             [CStr "1 Main St"; CStr "Boulder"; CStr "CO";
              CInt 250000; CInt 3] ]) /\
   has_column (Cartographie.df scenario_A_dynamic) "Latitude" = false) /\
  Cartographie.update_map plain_repr (fun _ => Raise ReError)
    scenario_A_dynamic
  = Cartographie.Shown Cartographie.empty_map.
Proof.
  split; [split; reflexivity|].
  exact (proj1 (empty_result_shows_empty_map plain_repr
                  (fun _ => Raise ReError) scenario_A_dynamic) _
           eq_refl (or_intror (or_introl eq_refl))).
Defined.

(** C8, as stated, fails: the frame with holes has no Latitude and no
    Longitude column, and with a minimum price set [update_map] prints the
    TypeError of the comparison with the price that is a text; on a frame
    that has none of the columns a bound on Price gives KeyError. No map is
    shown in either case. *)
Lemma failed_filter_shows_no_map :
  has_column (Cartographie.df dynamic_text_price) "Latitude" = false /\
  has_column (Cartographie.df dynamic_text_price) "Longitude" = false /\
  Cartographie.update_map plain_repr (fun _ => Raise ReError)
    dynamic_text_price
  = Cartographie.Printed TypeError /\
  Cartographie.update_map plain_repr (fun _ => Raise ReError)
    (Cartographie.mkCartographyDynamic
       (mkDataFrame ["State"] [0%nat] [[CStr "IL"]]) (100000 # 1) 0 0 0 "" "")
  = Cartographie.Printed (KeyError "Price") /\
  ~ (forall float_repr re_compile_ignorecase self,
        has_column (Cartographie.df self) "Latitude" = false ->
        Cartographie.update_map float_repr re_compile_ignorecase self
        = Cartographie.Shown Cartographie.empty_map).
Proof.
  split; [reflexivity|]. split; [reflexivity|]. split; [reflexivity|].
  split; [reflexivity|].
  intros H.
  specialize (H plain_repr (fun _ => Raise ReError) dynamic_text_price
                eq_refl).
  discriminate H.
Qed.

(** A frame without rows, with no filter set. *)
Example empty_frame_shows_empty_map float_repr re_compile_ignorecase :
  Cartographie.update_map float_repr re_compile_ignorecase
    (dynamic_on (mkDataFrame listing_columns [] []))
  = Cartographie.Shown Cartographie.empty_map.
Proof. reflexivity. Qed.

(** ** Rows without coordinates *)

(** C7 against the code. [update_map] passes over a row whose latitude is
    a text that does not convert ("abc") and still draws the others. But a
    missing latitude is NaN, which [float] converts without complaint: the
    row is not passed over, folium rejects its marker, and the outer
    handler prints the exception instead of showing a map. [generate_map]
    has no handler at all: there the row with "abc", and the row with NaN,
    abort the render with the exception of folium. *)
Theorem rows_without_coordinates float_repr re_compile_ignorecase
    (rng : Type) (RandomState : Z -> rng)
    (choice : rng -> nat -> nat -> list nat * rng) (g : rng) :
  Cartographie.update_map float_repr re_compile_ignorecase
    (dynamic_on frame_text_latitude)
  = Cartographie.Shown
      (mkMap default_center "CartoDB positron" 4 (Some [marker_located])) /\
  Cartographie.update_map float_repr re_compile_ignorecase
    (dynamic_on frame_missing_latitude)
  = Cartographie.Printed (ValueError "Location values cannot contain NaNs") /\
  generate_map float_repr rng RandomState choice
    (new_PandasModel frame_text_latitude) [0; 1]%nat 0 "openstreetmap" 4 g
  = (Raise (ValueError "Location should consist of two numerical values"), g) /\
  generate_map float_repr rng RandomState choice
    (new_PandasModel frame_missing_latitude) [0; 1]%nat 0 "openstreetmap" 4 g
  = (Raise (ValueError "Location values cannot contain NaNs"), g).
Proof. repeat split. Qed.

(** * Further properties *)

(** ** The filter pass *)

Lemma accepted_rows_sorted float_repr p rows :
  forall kept,
    accepted_rows float_repr p rows = Ok kept ->
    StronglySorted lt rows -> StronglySorted lt kept.
Proof.
  induction rows as [|x rows IH]; cbn [accepted_rows]; intros kept.
  - intros [= <-] _. constructor.
  - destruct (filterAcceptsRow float_repr p x) as [b|] eqn:Hx; cbn [bind];
      [|discriminate].
    destruct (accepted_rows float_repr p rows) as [rest|] eqn:Hrest;
      cbn [bind]; [|discriminate].
    intros [= <-] Hs. apply StronglySorted_inv in Hs as [Hs Hall].
    specialize (IH rest eq_refl Hs).
    destruct b; [|exact IH]. constructor; [exact IH|].
    rewrite Forall_forall in *. intros r Hr. apply Hall.
    now apply (accepted_rows_In float_repr p rows rest Hrest r).
Qed.

Lemma seq_sorted start n : StronglySorted lt (seq start n).
Proof.
  revert start. induction n as [|n IH]; intros start; cbn; constructor.
  - apply IH.
  - apply Forall_forall. intros r Hr. apply in_seq in Hr. lia.
Qed.

(** X1. On a frame the table has its rows whatever the filter and the
    sort are: reading them never raises; a row is in the table if and only
    if it is a row of the frame that [filterAcceptsRow] accepts; no row is
    there twice; and the rows stand in the order of the sort, no row before
    a row with a smaller text (ascending) or a greater text (descending)
    in the sort column. *)
Theorem table_rows_are_the_accepted_rows float_repr self model :
  sourceModel (proxy self) = Some model ->
  rectangular (dataframe model) ->
  exists rows,
    table_rows float_repr self = Ok rows /\
    (forall r, In r rows <->
               (r < rowCount model)%nat /\
               filterAcceptsRow float_repr (proxy self) r = Ok true) /\
    NoDup rows /\
    ((sortIndicatorSection self < columnCount model)%nat ->
     StronglySorted
       (text_order model (sortIndicatorSection self) (sortIndicatorOrder self))
       rows).
Proof.
  intros Hm Hrect.
  destruct (table_rows_sorted_pass float_repr self model Hm Hrect)
    as (accepted & rows & Hacc & Hrows & Hperm & Hsorted).
  exists rows. split; [exact Hrows|].
  unfold visible_rows in Hacc. rewrite Hm in Hacc.
  assert (Hs : StronglySorted lt accepted)
    by (eapply accepted_rows_sorted; [exact Hacc | apply seq_sorted]).
  assert (Hnd : NoDup accepted).
  { clear Hacc Hperm. induction Hs as [|a l Hs IH Hall]; constructor;
      [|exact IH].
    intros Hin. rewrite Forall_forall in Hall. specialize (Hall a Hin). lia. }
  split; [|split; [|exact Hsorted]].
  - intros r. split.
    + intros Hr. apply (Permutation_in r (Permutation_sym Hperm)) in Hr.
      apply (accepted_rows_In _ _ _ _ Hacc r) in Hr as [H1 H2].
      apply in_seq in H1. split; [lia | exact H2].
    + intros [H1 H2]. apply (Permutation_in r Hperm).
      apply (accepted_rows_In _ _ _ _ Hacc r). split; [|exact H2].
      apply in_seq. lia.
  - exact (Permutation_NoDup Hperm Hnd).
Qed.

Lemma table_rows_are_the_accepted_rows_witness :
  (sourceModel (proxy scenario_A_tab)
   = Some (new_PandasModel scenario_A_frame) /\
   rectangular (dataframe (new_PandasModel scenario_A_frame))) /\
  exists rows,
    table_rows plain_repr scenario_A_tab = Ok rows /\
    NoDup rows.
Proof.
  split; [split; [reflexivity | exact scenario_A_frame_rectangular]|].
  destruct (table_rows_are_the_accepted_rows plain_repr scenario_A_tab
              (new_PandasModel scenario_A_frame) eq_refl
              scenario_A_frame_rectangular)
    as (rows & Hrows & _ & Hnd & _).
  exists rows. split; assumption.
Defined.

(** ** All seven predicates *)

Lemma range_rejects_predicate lo hi v :
  negb (range_rejects lo hi v) = range_predicate lo hi v.
Proof.
  destruct v as [| z | [| negative | q] | s]; cbn [range_predicate].
  - reflexivity.
  - now apply range_rejects_finite.
  - destruct lo, hi; reflexivity.
  - destruct lo, hi, negative; reflexivity.
  - now apply range_rejects_finite.
  - unfold range_rejects. cbn. reflexivity.
Qed.

Lemma stage_value read rej rest v b :
  read = Ok v -> rest = Ok b ->
  stage read rej rest = Ok (negb (rej v) && b)%bool.
Proof.
  intros -> ->. unfold stage. cbn [bind]. destruct (rej v); reflexivity.
Qed.

(** X2. On a frame, the verdict of [filterAcceptsRow] on a row is the
    conjunction of its seven predicates on the cells of the row: the four
    inclusive ranges (which a cell that is no number or is NaN passes), the
    containment tests on City and Address and the equality test on State;
    an unset bound and an empty needle pass. *)
Theorem filter_is_a_conjunction float_repr p model r :
  sourceModel p = Some model ->
  rectangular (dataframe model) ->
  (r < rowCount model)%nat ->
  exists price space beds income city state address,
    val p (dataframe model) r "Price" = Ok price /\
    val p (dataframe model) r "Living Space" = Ok space /\
    val p (dataframe model) r "Beds" = Ok beds /\
    val p (dataframe model) r "Median Household Income" = Ok income /\
    val p (dataframe model) r "City" = Ok city /\
    val p (dataframe model) r "State" = Ok state /\
    val p (dataframe model) r "Address" = Ok address /\
    filterAcceptsRow float_repr p r =
    Ok (range_predicate (min_price p) (max_price p) price
        && (range_predicate (min_space p) (max_space p) space
        && (range_predicate (min_beds p) (max_beds p) beds
        && (range_predicate (min_income p) (max_income p) income
        && (substring_predicate (city_substr p) (tested_text float_repr city)
        && (exact_predicate (state_exact p) (tested_text float_repr state)
        && (substring_predicate (search_text p)
              (tested_text float_repr address)
        && true)))))))%bool.
Proof.
  intros Hm Hrect Hr.
  destruct (val_total p model r "Price" Hm Hrect Hr) as [price Hprice].
  destruct (val_total p model r "Living Space" Hm Hrect Hr) as [space Hspace].
  destruct (val_total p model r "Beds" Hm Hrect Hr) as [beds Hbeds].
  destruct (val_total p model r "Median Household Income" Hm Hrect Hr)
    as [income Hincome].
  destruct (val_total p model r "City" Hm Hrect Hr) as [city Hcity].
  destruct (val_total p model r "State" Hm Hrect Hr) as [state Hstate].
  destruct (val_total p model r "Address" Hm Hrect Hr) as [address Haddress].
  exists price, space, beds, income, city, state, address.
  repeat (split; [assumption|]).
  rewrite filterAcceptsRow_stages, Hm. unfold stages, tested_text.
  rewrite <- !range_rejects_predicate, <- !substring_rejects_spec,
    <- exact_rejects_spec.
  repeat (eapply stage_value; [eassumption|]). reflexivity.
Qed.

Lemma filter_is_a_conjunction_witness :
  (rectangular (dataframe (new_PandasModel scenario_A_frame)) /\
   (3 < rowCount (new_PandasModel scenario_A_frame))%nat) /\
  filterAcceptsRow plain_repr
    (_on_filters_changed scenario_A_widgets
       (new_proxy (Some (new_PandasModel scenario_A_frame)))) 3
  = Ok false.
Proof.
  assert (H : (3 < rowCount (new_PandasModel scenario_A_frame))%nat)
    by (cbn; lia).
  split; [split; [exact scenario_A_frame_rectangular | exact H]|].
  destruct (filter_is_a_conjunction plain_repr
              (_on_filters_changed scenario_A_widgets
                 (new_proxy (Some (new_PandasModel scenario_A_frame))))
              (new_PandasModel scenario_A_frame) 3 eq_refl
              scenario_A_frame_rectangular H)
    as (price & space & beds & income & city & state & address &
        Hp & _ & _ & _ & _ & _ & _ & Hv).
  rewrite Hv. injection Hp as <-. reflexivity.
Defined.

(** ** Case of the needles *)

Lemma lower_ascii_idem c : lower_ascii (lower_ascii c) = lower_ascii c.
Proof.
  destruct c as [[] [] [] [] [] [] [] []]; reflexivity.
Qed.

Lemma lower_idem s : lower (lower s) = lower s.
Proof.
  induction s as [|c s IH]; cbn; [reflexivity|].
  now rewrite lower_ascii_idem, IH.
Qed.

Lemma lower_empty s : lower s = "" <-> s = "".
Proof. destruct s; cbn; split; congruence. Qed.

Lemma nonempty_lower a b : lower a = lower b -> nonempty a = nonempty b.
Proof.
  intros H. unfold nonempty.
  destruct (String.eqb_spec a "") as [->|Ha], (String.eqb_spec b "") as [->|Hb];
    try reflexivity; exfalso.
  - apply Hb, lower_empty. now rewrite <- H.
  - apply Ha, lower_empty. now rewrite H.
Qed.

Lemma stage_ext read rej rej' rest rest' :
  (forall v, rej v = rej' v) -> rest = rest' ->
  stage read rej rest = stage read rej' rest'.
Proof.
  intros H ->. unfold stage. destruct read as [v|e]; cbn [bind]; [|reflexivity].
  now rewrite H.
Qed.

(** X3. The City and Address needles are matched without regard to
    their own case: two needles that differ only in case give the same
    verdict on every row. The State literal is matched exactly: with a
    non-empty literal, a row whose State text differs from it in any way,
    be it only in case, is rejected. *)
Theorem needle_case float_repr p r :
  (forall c needle needle',
      c <> State -> lower needle = lower needle' ->
      filterAcceptsRow float_repr (with_needle c needle p) r
      = filterAcceptsRow float_repr (with_needle c needle' p) r) /\
  (forall model v literal,
      sourceModel p = Some model ->
      val p (dataframe model) r "State" = Ok v ->
      literal <> "" -> tested_text float_repr v <> literal ->
      filterAcceptsRow float_repr (with_needle State literal p) r
      <> Ok true).
Proof.
  split.
  - intros c needle needle' Hc Hl.
    rewrite !filterAcceptsRow_stages, !sourceModel_with_needle.
    destruct (sourceModel p) as [model|]; [|reflexivity].
    unfold stages. rewrite !val_with_needle.
    assert (Hrej : forall v,
               substring_rejects float_repr needle v
               = substring_rejects float_repr needle' v).
    { intros v. unfold substring_rejects.
      now rewrite Hl, (nonempty_lower _ _ Hl). }
    destruct c; [|congruence|]; proxy_fields;
      repeat (apply stage_ext; [first [exact Hrej | reflexivity]|]);
      reflexivity.
  - intros model v literal Hm Hv Hlit Htext Hacc.
    destruct (filterAcceptsRow float_repr (with_needle State "" p) r)
      as [b|e] eqn:Hb.
    + pose proof (text_stage float_repr State (with_needle State literal p)
                    r model v) as H.
      rewrite sourceModel_with_needle, val_with_needle in H.
      specialize (H Hm Hv b). cbn [text_column_name] in H.
      assert (Hsame : with_needle State ""
                        (with_needle State literal p)
                      = with_needle State "" p) by reflexivity.
      rewrite Hsame in H. specialize (H Hb). rewrite H in Hacc.
      cbn [needle_of with_needle state_exact text_predicate] in Hacc.
      unfold exact_predicate in Hacc.
      rewrite (proj2 (String.eqb_neq _ _) Hlit) in Hacc.
      rewrite (proj2 (String.eqb_neq _ _) Htext) in Hacc.
      rewrite andb_false_r in Hacc. discriminate.
    + rewrite !filterAcceptsRow_stages, !sourceModel_with_needle, Hm in *.
      unfold stages in *. rewrite !val_with_needle in *. proxy_fields.
      unfold stage in *.
      repeat match goal with
             | H : context [bind ?m _] |- _ =>
                 destruct m; cbn [bind] in *; try discriminate
             | H : context [if ?c then _ else _] |- _ =>
                 destruct c; try discriminate
             end.
Qed.

Lemma needle_case_witness :
  (City <> State /\ lower "SPRING" = lower "spring") /\
  filterAcceptsRow plain_repr
    (with_needle City "SPRING"
       (new_proxy (Some (new_PandasModel scenario_B_frame)))) 2
  = filterAcceptsRow plain_repr
      (with_needle City "spring"
         (new_proxy (Some (new_PandasModel scenario_B_frame)))) 2.
Proof.
  split; [split; [discriminate | reflexivity]|].
  exact (proj1 (needle_case plain_repr
                  (new_proxy (Some (new_PandasModel scenario_B_frame))) 2)
           City "SPRING" "spring" ltac:(discriminate) eq_refl).
Defined.

(** ** Tighter bounds *)

Lemma Qltb_le_trans a b c : Qltb a b = true -> (b <= c)%Q -> Qltb a c = true.
Proof.
  unfold Qltb. rewrite !negb_true_iff. intros H Hbc.
  destruct (Qle_bool c a) eqn:E; [|reflexivity].
  apply Qle_bool_iff in E.
  assert (Hba : (b <= a)%Q) by (eapply Qle_trans; eauto).
  apply Qle_bool_iff in Hba. congruence.
Qed.

Lemma Qle_ltb_trans a b c : (a <= b)%Q -> Qltb b c = true -> Qltb a c = true.
Proof.
  unfold Qltb. rewrite !negb_true_iff. intros Hab H.
  destruct (Qle_bool c a) eqn:E; [|reflexivity].
  apply Qle_bool_iff in E.
  assert (Hcb : (c <= b)%Q) by (eapply Qle_trans; eauto).
  apply Qle_bool_iff in Hcb. congruence.
Qed.

Lemma below_mono v lo lo' :
  looser_lower lo lo' -> below v lo = true -> below v lo' = true.
Proof.
  destruct lo as [a|], lo' as [b|]; cbn; try tauto; try discriminate.
  unfold num_lt. destruct (to_float v) as [| negative | q]; cbn; auto.
  intros Hab H. eapply Qltb_le_trans; eauto.
Qed.

Lemma above_mono v hi hi' :
  looser_upper hi hi' -> above v hi = true -> above v hi' = true.
Proof.
  destruct hi as [a|], hi' as [b|]; cbn; try tauto; try discriminate.
  unfold num_gt. destruct (to_float v) as [| negative | q]; cbn; auto.
  intros Hab H. eapply Qle_ltb_trans; eauto.
Qed.

Lemma range_rejects_mono lo lo' hi hi' v :
  looser_lower lo lo' -> looser_upper hi hi' ->
  range_rejects lo hi v = true -> range_rejects lo' hi' v = true.
Proof.
  intros Hlo Hhi. unfold range_rejects.
  rewrite !andb_true_iff, !orb_true_iff. intros [Hn [H | H]].
  - split; [exact Hn|]. left. eapply below_mono; eauto.
  - split; [exact Hn|]. right. eapply above_mono; eauto.
Qed.

Lemma stage_true_rest read rej rest rest' :
  (rest' = Ok true -> rest = Ok true) ->
  stage read rej rest' = Ok true -> stage read rej rest = Ok true.
Proof.
  intros H. unfold stage. destruct read as [v|e]; cbn [bind]; [|discriminate].
  destruct (rej v); [discriminate | exact H].
Qed.

Lemma stage_true_looser read rej rej' rest :
  (forall v, rej v = true -> rej' v = true) ->
  stage read rej' rest = Ok true -> stage read rej rest = Ok true.
Proof.
  intros H. unfold stage. destruct read as [v|e]; cbn [bind]; [|discriminate].
  destruct (rej' v) eqn:E'; [discriminate|].
  destruct (rej v) eqn:E; [|auto]. rewrite (H v E) in E'. discriminate.
Qed.

(** X4. Tightening the bounds of a numeric predicate never brings a row
    in: a row accepted with bounds [lo'], [hi'] is accepted with any bounds
    that ask no more (a lower minimum or none, a higher maximum or none),
    so the rows visible with the tighter bounds are among the rows visible
    with the looser ones. *)
Theorem tighter_bounds_keep_fewer_rows float_repr c p lo lo' hi hi' :
  looser_lower lo lo' -> looser_upper hi hi' ->
  (forall r,
      filterAcceptsRow float_repr (with_bounds c lo' hi' p) r = Ok true ->
      filterAcceptsRow float_repr (with_bounds c lo hi p) r = Ok true) /\
  (forall tight loose,
      visible_rows float_repr (with_bounds c lo' hi' p) = Ok tight ->
      visible_rows float_repr (with_bounds c lo hi p) = Ok loose ->
      incl tight loose).
Proof.
  intros Hlo Hhi.
  assert (Hrow : forall r,
             filterAcceptsRow float_repr (with_bounds c lo' hi' p) r = Ok true ->
             filterAcceptsRow float_repr (with_bounds c lo hi p) r = Ok true).
  { intros r. rewrite !filterAcceptsRow_stages, !sourceModel_with_bounds.
    destruct (sourceModel p) as [model|]; [|auto].
    unfold stages. rewrite !val_with_bounds.
    destruct c; proxy_fields;
      repeat first
        [ apply stage_true_looser; intros v;
          apply range_rejects_mono; assumption
        | apply stage_true_rest ]. }
  split; [exact Hrow|].
  intros tight loose. unfold visible_rows.
  rewrite !sourceModel_with_bounds.
  destruct (sourceModel p) as [model|].
  - intros Ht Hl r Hr.
    apply (accepted_rows_In _ _ _ _ Ht) in Hr as [Hin Hacc].
    apply (accepted_rows_In _ _ _ _ Hl). split; [exact Hin|]. now apply Hrow.
  - intros [= <-] _ r [].
Qed.

Lemma tighter_bounds_keep_fewer_rows_witness :
  (looser_lower (Some (50000 # 1)%Q) (Some (100000 # 1)%Q) /\
   looser_upper None (Some (250000 # 1)%Q)) /\
  incl [0; 1; 4]%nat [0; 1; 2; 3; 4]%nat.
Proof.
  assert (H1 : looser_lower (Some (50000 # 1)%Q) (Some (100000 # 1)%Q))
    by (cbn; unfold Qle; cbn; lia).
  assert (H2 : looser_upper None (Some (250000 # 1)%Q)) by exact I.
  split; [split; assumption|].
  exact (proj2 (tighter_bounds_keep_fewer_rows plain_repr Price
                  (new_proxy (Some (new_PandasModel scenario_A_frame)))
                  (Some (50000 # 1)%Q) (Some (100000 # 1)%Q)
                  None (Some (250000 # 1)%Q) H1 H2)
           [0; 1; 4]%nat [0; 1; 2; 3; 4]%nat eq_refl eq_refl).
Defined.

(** ** The bounds the form sets *)

(** X5. A bound that [_on_filters_changed] sets is never zero: each of the
    eight bounds is either unset or the non-zero value of its spin box, so
    that the second test on the maximum bounds ([== 0]) never changes
    anything and minimum and maximum are read the same way. *)
Theorem bounds_are_never_zero w p c :
  lower_bound c (_on_filters_changed w p) = value_or_None (spin_lower c w) /\
  upper_bound c (_on_filters_changed w p) = value_or_None (spin_upper c w) /\
  (forall b,
      lower_bound c (_on_filters_changed w p) = Some b ->
      b = spin_lower c w /\ ~ (b == 0)%Q) /\
  (forall b,
      upper_bound c (_on_filters_changed w p) = Some b ->
      b = spin_upper c w /\ ~ (b == 0)%Q).
Proof.
  assert (Hnz : forall v, None_if_zero (value_or_None v) = value_or_None v).
  { intros v. unfold value_or_None.
    destruct (Qeq_bool v 0) eqn:E; cbn; [reflexivity | now rewrite E]. }
  assert (Hsome : forall v b, value_or_None v = Some b ->
                              b = v /\ ~ (b == 0)%Q).
  { intros v b. unfold value_or_None.
    destruct (Qeq_bool v 0) eqn:E; [discriminate|].
    intros [= <-]. split; [reflexivity|]. now apply Qeq_bool_neq. }
  assert (Hlo : lower_bound c (_on_filters_changed w p)
                = value_or_None (spin_lower c w))
    by (destruct c; reflexivity).
  assert (Hhi : upper_bound c (_on_filters_changed w p)
                = value_or_None (spin_upper c w))
    by (destruct c; cbn; apply Hnz).
  split; [exact Hlo|]. split; [exact Hhi|].
  rewrite Hlo, Hhi. split; intros b; apply Hsome.
Qed.

Lemma bounds_are_never_zero_witness :
  lower_bound Price
    (_on_filters_changed scenario_A_widgets
       (new_proxy (Some (new_PandasModel scenario_A_frame))))
  = Some (100000 # 1)%Q /\
  ((100000 # 1)%Q = spin_lower Price scenario_A_widgets /\
   ~ ((100000 # 1) == 0)%Q).
Proof.
  split; [reflexivity|].
  exact (proj1 (proj2 (proj2
           (bounds_are_never_zero scenario_A_widgets
              (new_proxy (Some (new_PandasModel scenario_A_frame))) Price)))
           (100000 # 1)%Q eq_refl).
Defined.

(** ** Sorting again *)

Section InsertCommutes.

Variable A : Type.
Variable before : A -> A -> bool.
Hypothesis before_asym : forall a b, before a b = true -> before b a = false.
Hypothesis before_trans :
  forall a b c, before a b = true -> before b c = true -> before a c = true.

(** Two elements that the comparison separates go to the same places in
    whichever order they are inserted. *)
Lemma insert_stable_comm x y l :
  before x y = true ->
  insert_stable before y (insert_stable before x l)
  = insert_stable before x (insert_stable before y l).
Proof.
  intros Hxy. pose proof (before_asym _ _ Hxy) as Hyx.
  induction l as [|z l IH]; cbn [insert_stable].
  - now rewrite Hxy, Hyx.
  - destruct (before z x) eqn:Hzx.
    + pose proof (before_trans _ _ _ Hzx Hxy) as Hzy.
      rewrite Hzy. cbn [insert_stable]. now rewrite Hzx, Hzy, IH.
    + destruct (before z y) eqn:Hzy; cbn [insert_stable].
      * now rewrite Hxy, Hzy, Hzx.
      * now rewrite Hxy, Hzy, Hyx.
Qed.

Variable earlier : A -> A -> bool.
Hypothesis earlier_separates :
  forall a b, earlier a b = true -> before a b = true \/ before b a = true.

Lemma stable_sort_insert_other x l :
  stable_sort before (insert_stable earlier x l)
  = stable_sort before (x :: l).
Proof.
  induction l as [|y l IH]; cbn [insert_stable]; [reflexivity|].
  destruct (earlier y x) eqn:Hyx; [|reflexivity].
  cbn [stable_sort]. rewrite IH. cbn [stable_sort].
  destruct (earlier_separates _ _ Hyx) as [H | H].
  - symmetry. now apply insert_stable_comm.
  - now apply insert_stable_comm.
Qed.

(** A stable sort forgets an earlier stable sort whose comparison it can
    tell apart. *)
Lemma stable_sort_after_sort l :
  stable_sort before (stable_sort earlier l) = stable_sort before l.
Proof.
  induction l as [|x l IH]; cbn [stable_sort]; [reflexivity|].
  rewrite stable_sort_insert_other. cbn [stable_sort]. now rewrite IH.
Qed.

End InsertCommutes.

Lemma lessThan_asym a b : lessThan a b = true -> lessThan b a = false.
Proof.
  destruct a as [a|], b as [b|]; cbn; try discriminate; try reflexivity.
  apply ltb_asym.
Qed.

Lemma lessThan_trans a b c :
  lessThan a b = true -> lessThan b c = true -> lessThan a c = true.
Proof.
  destruct a as [a|], b as [b|], c as [c|]; cbn; try discriminate;
    try reflexivity.
  unfold String.ltb.
  destruct (String.compare a b) eqn:Hab; try discriminate.
  destruct (String.compare b c) eqn:Hbc; try discriminate.
  now rewrite (string_compare_lt_trans _ _ _ Hab Hbc).
Qed.

Lemma sort_keys_shown_key model column rows keyed :
  sort_keys model column rows = Ok keyed ->
  keyed = map (fun r => (r, shown_key model column r)) rows.
Proof.
  unfold sort_keys. revert keyed.
  induction rows as [|r rows IH]; cbn [mapM map]; intros keyed.
  - now intros [= <-].
  - unfold shown_key at 1.
    destruct (PandasModel_data model (Some (r, column)) DisplayRole)
      as [k|]; cbn [bind]; [|discriminate].
    destruct (mapM _ rows) as [ks|]; cbn [bind]; [|discriminate].
    intros [= <-]. now rewrite (IH ks eq_refl).
Qed.

Lemma sort_keys_perm model column rows rows' keyed :
  sort_keys model column rows = Ok keyed -> Permutation rows rows' ->
  exists keyed', sort_keys model column rows' = Ok keyed'.
Proof.
  intros Hk Hperm.
  assert (Hall : forall r, In r rows ->
             exists k, PandasModel_data model (Some (r, column)) DisplayRole
                       = Ok k).
  { clear Hperm. unfold sort_keys in Hk. revert keyed Hk.
    induction rows as [|x rows IH]; cbn [mapM]; intros keyed Hk r [].
    - subst. destruct (PandasModel_data model (Some (r, column)) DisplayRole);
        [eauto | discriminate].
    - destruct (PandasModel_data model (Some (x, column)) DisplayRole);
        cbn [bind] in Hk; [|discriminate].
      destruct (mapM _ rows) as [ks|] eqn:E; cbn [bind] in Hk; [|discriminate].
      eapply IH; eauto. }
  assert (Hall' : forall r, In r rows' ->
             exists k, PandasModel_data model (Some (r, column)) DisplayRole
                       = Ok k).
  { intros r Hr. apply Hall. eapply Permutation_in; [symmetry|]; eauto. }
  clear - Hall'. unfold sort_keys.
  induction rows' as [|x rows' IH]; cbn [mapM]; [eauto|].
  destruct (Hall' x (or_introl eq_refl)) as [k ->]. cbn [bind].
  destruct IH as [ks ->]; [intros; apply Hall'; now right|].
  cbn [bind]. eauto.
Qed.

Lemma sort_rows_shown_key model column order rows sorted :
  sort_rows model column order rows = Ok sorted ->
  sorted = stable_sort (by_key (shown_key model column) order) rows.
Proof.
  unfold sort_rows.
  destruct (sort_keys model column rows) as [keyed|] eqn:Hk; cbn [bind];
    [|discriminate].
  intros [= <-]. rewrite (sort_keys_shown_key _ _ _ _ Hk).
  rewrite (stable_sort_map _ _ (fun r => (r, shown_key model column r))
             (by_key (shown_key model column) order))
    by reflexivity.
  rewrite map_map. cbn [fst]. now rewrite map_id.
Qed.

(** X6. What a sort of the proxy on a column gives does not depend on an
    earlier sort on the same column, in either direction: sorting the
    sorted rows again in direction [order'] gives what sorting the unsorted
    rows in that direction gives. In particular a second sort in the same
    direction changes nothing. *)
Theorem sort_forgets_earlier_sort model column order order' rows sorted :
  sort_rows model column order rows = Ok sorted ->
  sort_rows model column order' sorted = sort_rows model column order' rows /\
  sort_rows model column order sorted = Ok sorted.
Proof.
  intros Hs.
  assert (Hgen : forall o,
             sort_rows model column o sorted = sort_rows model column o rows).
  { intros o.
    pose proof (sort_rows_perm _ _ _ _ _ Hs) as Hperm.
    unfold sort_rows in Hs.
    destruct (sort_keys model column rows) as [keyed|] eqn:Hk; cbn [bind] in Hs;
      [|discriminate].
    destruct (sort_keys_perm _ _ _ _ _ Hk Hperm) as [keyed' Hk'].
    assert (H1 : sort_rows model column o rows
                 = Ok (stable_sort (by_key (shown_key model column) o) rows)).
    { destruct (sort_rows model column o rows) as [s|] eqn:E.
      - now rewrite (sort_rows_shown_key _ _ _ _ _ E).
      - unfold sort_rows in E. rewrite Hk in E. discriminate. }
    assert (H2 : sort_rows model column o sorted
                 = Ok (stable_sort (by_key (shown_key model column) o) sorted)).
    { destruct (sort_rows model column o sorted) as [s|] eqn:E.
      - now rewrite (sort_rows_shown_key _ _ _ _ _ E).
      - unfold sort_rows in E. rewrite Hk' in E. discriminate. }
    rewrite H1, H2. f_equal.
    assert (Hsorted : sorted
                      = stable_sort (by_key (shown_key model column) order) rows).
    { apply sort_rows_shown_key. unfold sort_rows. rewrite Hk. cbn [bind].
      now rewrite Hs. }
    rewrite Hsorted. apply stable_sort_after_sort.
    - intros a b. destruct o; apply lessThan_asym.
    - intros a b c. destruct o; cbn; intros H H'.
      + eapply lessThan_trans; eauto.
      + eapply lessThan_trans; eauto.
    - intros a b. destruct order, o; cbn; auto. }
  split; [apply Hgen|]. now rewrite Hgen.
Qed.

Lemma sort_forgets_earlier_sort_witness :
  sort_rows (new_PandasModel three_prices_frame) 1 AscendingOrder
    [0; 1; 2]%nat = Ok [1; 2; 0]%nat /\
  sort_rows (new_PandasModel three_prices_frame) 1 DescendingOrder
    [1; 2; 0]%nat
  = sort_rows (new_PandasModel three_prices_frame) 1 DescendingOrder
      [0; 1; 2]%nat.
Proof.
  split; [reflexivity|].
  exact (proj1 (sort_forgets_earlier_sort
                  (new_PandasModel three_prices_frame) 1 AscendingOrder
                  DescendingOrder [0; 1; 2]%nat [1; 2; 0]%nat eq_refl)).
Defined.

(** ** Export of the rows of the table *)

(** X7. Exporting what the table shows never fails on a frame: the file
    gets one record per row of the table, in the order of the table, which
    is the order of its sort; each record is the record of a row that
    [filterAcceptsRow] accepts, under the columns of the frame. *)
Theorem export_of_table_rows float_repr path self model :
  path <> "" ->
  sourceModel (proxy self) = Some model ->
  rectangular (dataframe model) ->
  exists rows exported,
    table_rows float_repr self = Ok rows /\
    export_csv path model rows = Ok (Some exported) /\
    columns exported = columns (dataframe model) /\
    List.length (data exported) = List.length rows /\
    (forall i r,
        nth_error rows i = Some r ->
        filterAcceptsRow float_repr (proxy self) r = Ok true /\
        nth_error (data exported) i = nth_error (data (dataframe model)) r) /\
    ((sortIndicatorSection self < columnCount model)%nat ->
     StronglySorted
       (text_order model (sortIndicatorSection self) (sortIndicatorOrder self))
       rows).
Proof.
  intros Hpath Hm Hrect.
  destruct (table_rows_sorted_pass float_repr self model Hm Hrect)
    as (accepted & rows & Hacc & Hrows & Hperm & Hsorted).
  assert (Hin : forall r, In r rows ->
             (r < rowCount model)%nat /\
             filterAcceptsRow float_repr (proxy self) r = Ok true).
  { intros r Hr. apply (Permutation_in r (Permutation_sym Hperm)) in Hr.
    pose proof Hacc as Hv. unfold visible_rows in Hv.
    rewrite Hm in Hv. apply (accepted_rows_In _ _ _ _ Hv) in Hr as [H1 H2].
    apply in_seq in H1. split; [lia | exact H2]. }
  assert (Hrange : Forall (fun r => (r < rowCount model)%nat) rows).
  { apply Forall_forall. intros r Hr. now apply Hin. }
  exists rows. eexists. split; [exact Hrows|].
  unfold export_csv. rewrite (proj2 (String.eqb_neq _ _) Hpath).
  rewrite (_filtered_dataframe_projects model rows (proj1 Hrect) Hrange).
  cbn [bind]. split; [reflexivity|]. cbn [columns data].
  split; [reflexivity|]. split; [apply length_map|].
  split; [|exact Hsorted].
  intros i r Hi. pose proof (Hin r (nth_error_In _ _ Hi)) as [Hlt Haccepted].
  split; [exact Haccepted|].
  unfold rowCount, len in Hlt. fold (dataframe model) in Hlt.
  rewrite nth_error_map, Hi. cbn [option_map].
  now rewrite (nth_error_nth' (data (dataframe model)) []) by lia.
Qed.

Lemma export_of_table_rows_witness :
  ("filtered_exploration.csv" <> "" /\
   rectangular (dataframe (new_PandasModel scenario_A_frame))) /\
  exists rows exported,
    table_rows plain_repr scenario_A_tab = Ok rows /\
    export_csv "filtered_exploration.csv"
      (new_PandasModel scenario_A_frame) rows = Ok (Some exported) /\
    List.length (data exported) = List.length rows.
Proof.
  assert (H1 : "filtered_exploration.csv" <> "") by discriminate.
  split; [split; [exact H1 | exact scenario_A_frame_rectangular]|].
  destruct (export_of_table_rows plain_repr "filtered_exploration.csv"
              scenario_A_tab
              (new_PandasModel scenario_A_frame) H1 eq_refl
              scenario_A_frame_rectangular)
    as (rows & exported & Hv & He & _ & Hl & _).
  exists rows, exported. repeat split; assumption.
Defined.

(** The export of the table on the listings of scenario A: the three rows
    kept, in the order of the table. *)
Example export_of_scenario_A :
  export_csv "filtered_exploration.csv" (new_PandasModel scenario_A_frame)
    [1; 0; 4]%nat
  = Ok (Some (mkDataFrame (columns scenario_A_frame) [1; 0; 4]%nat
                [ [CStr "7 Elm Ave"; CStr "Chicago"; CStr "IL";
                   CInt 250000; CInt 4];
                  [CStr "12 Oak St"; CStr "Springfield"; CStr "IL";
                   CInt 100000; CInt 3];
                  [CStr "1 Main St"; CStr "Boulder"; CStr "CO";
                   CInt 250000; CInt 3] ])).
Proof. reflexivity. Qed.

(** ** The markers of [generate_map] *)

Lemma mapM_length (A B : Type) (f : A -> result B) l :
  forall out, mapM f l = Ok out -> List.length out = List.length l.
Proof.
  induction l as [|a l IH]; cbn [mapM]; intros out.
  - now intros [= <-].
  - destruct (f a); cbn [bind]; [|discriminate].
    destruct (mapM f l) as [bs|]; cbn [bind]; [|discriminate].
    intros [= <-]. cbn. now rewrite (IH bs eq_refl).
Qed.

Lemma mapM_Forall (A B : Type) (f : A -> result B) (P : B -> Prop) l :
  (forall a b, f a = Ok b -> P b) ->
  forall out, mapM f l = Ok out -> Forall P out.
Proof.
  intros Hf. induction l as [|a l IH]; cbn [mapM]; intros out.
  - intros [= <-]. constructor.
  - destruct (f a) as [b|] eqn:E; cbn [bind]; [|discriminate].
    destruct (mapM f l) as [bs|]; cbn [bind]; [|discriminate].
    intros [= <-]. constructor; eauto.
Qed.

Lemma iloc_columns df rows out :
  iloc df rows = Ok out ->
  columns out = columns df /\ len out = List.length rows.
Proof.
  unfold iloc. destruct (mapM (row_at df) rows) as [picked|] eqn:E;
    cbn [bind]; [|discriminate].
  intros [= <-]. split; [reflexivity|]. unfold len. cbn [data].
  rewrite length_map. eapply mapM_length; eauto.
Qed.

Lemma _filtered_dataframe_shape model rows df_f :
  _filtered_dataframe model rows = Ok df_f ->
  columns df_f = columns (dataframe model) /\
  len df_f = List.length rows.
Proof.
  unfold _filtered_dataframe.
  pose proof (mapM_mapToSource [] rows) as Hmap. cbn [app List.length] in Hmap.
  rewrite Hmap. cbn [bind]. apply iloc_columns.
Qed.

Lemma folium_Marker_placed lat lon html m :
  folium_Marker lat lon html = Ok m -> placed m.
Proof.
  unfold folium_Marker, validate_coord, placed.
  destruct (py_float lat) as [la|]; cbn [bind]; [|discriminate].
  destruct (is_nan la) eqn:Ela; cbn [bind]; [discriminate|].
  destruct (py_float lon) as [lo|]; cbn [bind]; [|discriminate].
  destruct (is_nan lo) eqn:Elo; cbn [bind]; [discriminate|].
  intros [= <-]. cbn. auto.
Qed.

Lemma row_item_has_column cols row name v :
  row_item cols row name = Ok v -> index_of name cols <> None.
Proof.
  unfold row_item. destruct (index_of name cols); [discriminate|discriminate].
Qed.

Lemma generate_marker_columns float_repr cols row m :
  generate_marker float_repr cols row = Ok m ->
  placed m /\
  Forall (fun name => index_of name cols <> None) popup_columns.
Proof.
  unfold generate_marker, popup_columns.
  repeat match goal with
         | |- bind (row_item cols row ?name) _ = _ -> _ =>
             let v := fresh "v" in
             let E := fresh "E" in
             destruct (row_item cols row name) as [v|] eqn:E; cbn [bind];
             [apply row_item_has_column in E | discriminate]
         | |- bind (format_price ?x) _ = _ -> _ =>
             destruct (format_price x); cbn [bind]; [|discriminate]
         end.
  intros H. split; [eapply folium_Marker_placed; eauto|].
  repeat constructor; assumption.
Qed.

(** X8. When [generate_map] succeeds, the map is centred on the default
    centre with the tiles and zoom chosen, and its cluster holds exactly
    one marker per row drawn, none with a NaN coordinate. With a sample
    size of 0, or one that the number of visible rows does not exceed,
    the rows drawn are all the visible rows and the process-wide generator
    is left as it was. *)
Theorem generate_map_draws_every_row float_repr (rng : Type)
    (RandomState : Z -> rng) (choice : rng -> nat -> nat -> list nat * rng)
    model rows n tiles_text zoom (g : rng) :
  (forall m g',
      generate_map float_repr rng RandomState choice model rows n
        tiles_text zoom g = (Ok m, g') ->
      exists df_f markers,
        rows_to_draw rng RandomState choice model rows n g = (Ok df_f, g') /\
        m = mkMap default_center tiles_text zoom (Some markers) /\
        List.length markers = len df_f /\
        Forall placed markers) /\
  (n = O \/ (List.length rows <= n)%nat ->
   rows_to_draw rng RandomState choice model rows n g
   = (_filtered_dataframe model rows, g)).
Proof.
  split.
  - intros m g'. unfold generate_map.
    destruct (rows_to_draw rng RandomState choice model rows n g)
      as [[df_f|e] g0]; [|discriminate].
    destruct (mapM (generate_marker float_repr (columns df_f)) (data df_f))
      as [markers|] eqn:E; cbn [bind]; [|discriminate].
    intros [= <- <-]. exists df_f, markers.
    split; [reflexivity|]. split; [reflexivity|].
    split; [eapply mapM_length; eauto|].
    eapply mapM_Forall; [|exact E].
    intros row mk Hmk. now apply (generate_marker_columns _ _ _ _ Hmk).
  - intros Hn. unfold rows_to_draw.
    destruct (_filtered_dataframe model rows) as [df_f|e] eqn:E; [|reflexivity].
    destruct (_filtered_dataframe_shape _ _ _ E) as [_ Hlen].
    replace (Nat.ltb 0 n && Nat.ltb n (len df_f))%bool with false;
      [reflexivity|].
    symmetry. rewrite Hlen. apply andb_false_iff.
    destruct Hn as [-> | Hn]; [left; reflexivity | right].
    apply Nat.ltb_ge. exact Hn.
Qed.

Lemma generate_map_draws_every_row_witness :
  (0%nat = O \/ (List.length [0; 1]%nat <= 0)%nat) /\
  rows_to_draw unit (fun _ => tt) first_positions
    (new_PandasModel frame_missing_latitude) [0; 1]%nat 0 tt
  = (_filtered_dataframe (new_PandasModel frame_missing_latitude)
       [0; 1]%nat, tt).
Proof.
  split; [left; reflexivity|].
  exact (proj2 (generate_map_draws_every_row plain_repr unit (fun _ => tt)
                  first_positions (new_PandasModel frame_missing_latitude)
                  [0; 1]%nat 0 "openstreetmap" 4 tt)
           (or_introl eq_refl)).
Defined.

Lemma rows_to_draw_columns (rng : Type) (RandomState : Z -> rng)
    (choice : rng -> nat -> nat -> list nat * rng) model rows n g df_f g' :
  rows_to_draw rng RandomState choice model rows n g = (Ok df_f, g') ->
  columns df_f = columns (dataframe model).
Proof.
  unfold rows_to_draw.
  destruct (_filtered_dataframe model rows) as [d|e] eqn:E; [|discriminate].
  destruct (_filtered_dataframe_shape _ _ _ E) as [Hcols _].
  destruct (Nat.ltb 0 n && Nat.ltb n (len d))%bool.
  - cbn [DataFrame_sample].
    destruct (iloc d (fst (choice (RandomState 42) (len d) n))) as [s|] eqn:Es;
      [|discriminate].
    intros [= <- <-]. destruct (iloc_columns _ _ _ Es) as [-> _]. exact Hcols.
  - intros [= <- <-]. exact Hcols.
Qed.

Lemma index_of_has_column df name :
  index_of name (columns df) <> None <-> has_column df name = true.
Proof.
  unfold has_column. destruct (index_of name (columns df)); split;
    congruence.
Qed.

(** X9. [generate_map] reads ten columns in every row it draws and has no
    fallback for any of them: a map with at least one marker only comes
    out of a frame that has all ten, and with rows to draw and one of the
    ten missing the render raises instead of giving a map. *)
Theorem generate_map_needs_every_column float_repr (rng : Type)
    (RandomState : Z -> rng) (choice : rng -> nat -> nat -> list nat * rng)
    model rows n tiles_text zoom (g : rng) :
  (forall m g' first others,
      generate_map float_repr rng RandomState choice model rows n
        tiles_text zoom g = (Ok m, g') ->
      cluster m = Some (first :: others) ->
      Forall (fun name => has_column (dataframe model) name = true)
        popup_columns) /\
  (forall name,
      In name popup_columns ->
      has_column (dataframe model) name = false ->
      rows <> [] -> n = O ->
      exists e,
        generate_map float_repr rng RandomState choice model rows n
          tiles_text zoom g = (Raise e, g)).
Proof.
  assert (Hmarkers : forall df_f g0 markers,
             rows_to_draw rng RandomState choice model rows n g = (Ok df_f, g0) ->
             mapM (generate_marker float_repr (columns df_f)) (data df_f)
             = Ok markers ->
             markers <> [] ->
             Forall (fun name => has_column (dataframe model) name = true)
               popup_columns).
  { intros df_f g0 markers Hdraw Hmap Hne.
    destruct (data df_f) as [|row rest]; cbn [mapM] in Hmap.
    - injection Hmap as <-. congruence.
    - destruct (generate_marker float_repr (columns df_f) row) as [mk|] eqn:E;
        cbn [bind] in Hmap; [|discriminate].
      destruct (generate_marker_columns _ _ _ _ E) as [_ Hall].
      rewrite (rows_to_draw_columns _ _ _ _ _ _ _ _ _ Hdraw) in Hall.
      eapply Forall_impl; [|exact Hall].
      intros name. apply index_of_has_column. }
  split.
  - intros m g' first others. unfold generate_map.
    destruct (rows_to_draw rng RandomState choice model rows n g)
      as [[df_f|e] g0] eqn:Hdraw; [|discriminate].
    destruct (mapM (generate_marker float_repr (columns df_f)) (data df_f))
      as [markers|] eqn:E; cbn [bind]; [|discriminate].
    intros [= <- <-]. cbn [cluster]. intros [= ->].
    eapply Hmarkers; eauto. discriminate.
  - intros name Hin Hmiss Hrows ->. unfold generate_map.
    destruct (rows_to_draw rng RandomState choice model rows 0 g)
      as [[df_f|e] g0] eqn:Hdraw.
    + assert (Hg : g0 = g /\ _filtered_dataframe model rows = Ok df_f).
      { unfold rows_to_draw in Hdraw.
        destruct (_filtered_dataframe model rows); cbn in Hdraw;
          injection Hdraw as <- <-; auto. }
      destruct Hg as [-> Hf].
      destruct (mapM (generate_marker float_repr (columns df_f)) (data df_f))
        as [markers|] eqn:E; cbn [bind]; [|eauto].
      exfalso.
      assert (Hne : markers <> []).
      { apply mapM_length in E. destruct (_filtered_dataframe_shape _ _ _ Hf)
          as [_ Hlen]. unfold len in Hlen. rewrite Hlen in E.
        destruct markers; [|discriminate]. destruct rows; [congruence|].
        discriminate. }
      pose proof (Hmarkers df_f g markers eq_refl E Hne) as Hall.
      rewrite Forall_forall in Hall. specialize (Hall name Hin). congruence.
    + assert (g0 = g) as ->.
      { unfold rows_to_draw in Hdraw.
        destruct (_filtered_dataframe model rows); cbn in Hdraw;
          injection Hdraw; auto. }
      eauto.
Qed.

Lemma generate_map_needs_every_column_witness :
  (In "Zip Code" popup_columns /\
   has_column (dataframe (new_PandasModel scenario_A_frame)) "Zip Code"
   = false /\
   [0; 1]%nat <> []) /\
  exists e,
    generate_map plain_repr unit (fun _ => tt) first_positions
      (new_PandasModel scenario_A_frame) [0; 1]%nat 0 "openstreetmap" 4 tt
    = (Raise e, tt).
Proof.
  assert (H1 : In "Zip Code" popup_columns) by (cbn; tauto).
  assert (H2 : [0; 1]%nat <> []) by discriminate.
  split; [split; [exact H1 | split; [reflexivity | exact H2]]|].
  exact (proj2 (generate_map_needs_every_column plain_repr unit (fun _ => tt)
                  first_positions (new_PandasModel scenario_A_frame)
                  [0; 1]%nat 0 "openstreetmap" 4 tt)
           "Zip Code" H1 eq_refl H2 eq_refl).
Defined.

(** ** The markers of [update_map] *)

Lemma add_markers_marker_of float_repr cols rows :
  Cartographie.add_markers float_repr cols rows
  = mapM (marker_of float_repr cols) (filter (converts cols) rows).
Proof.
  induction rows as [|row rows IH]; cbn [Cartographie.add_markers filter];
    [reflexivity|].
  unfold converts at 1, coordinates at 1.
  fold (coordinates cols row).
  destruct (coordinates cols row) as [[lat lon]|e] eqn:E.
  - cbn [mapM]. unfold marker_of at 1. rewrite E. now rewrite IH.
  - exact IH.
Qed.

Lemma marker_of_cases float_repr cols row lat lon :
  coordinates cols row = Ok (lat, lon) ->
  marker_of float_repr cols row
  = if (is_nan lat || is_nan lon)%bool
    then Raise (ValueError "Location values cannot contain NaNs")
    else Ok (mkMarker (lat, lon)
               (Cartographie.popup_html float_repr cols row)).
Proof.
  intros E. unfold marker_of. rewrite E.
  unfold folium_Marker, validate_coord. cbn [py_float].
  destruct (is_nan lat); cbn [bind orb]; [reflexivity|].
  destruct (is_nan lon); reflexivity.
Qed.

Lemma marker_of_located float_repr cols row :
  located cols row = true ->
  exists m, marker_of float_repr cols row = Ok m /\ placed m.
Proof.
  unfold located. destruct (coordinates cols row) as [[lat lon]|] eqn:E;
    [|discriminate].
  rewrite andb_true_iff, !negb_true_iff. intros [Hlat Hlon].
  rewrite (marker_of_cases _ _ _ _ _ E), Hlat, Hlon. cbn [orb].
  eexists. split; [reflexivity|]. split; assumption.
Qed.

Lemma marker_of_not_located float_repr cols row :
  converts cols row = true -> located cols row = false ->
  marker_of float_repr cols row
  = Raise (ValueError "Location values cannot contain NaNs").
Proof.
  unfold converts, located.
  destruct (coordinates cols row) as [[lat lon]|] eqn:E; [|discriminate].
  intros _ H. rewrite (marker_of_cases _ _ _ _ _ E).
  destruct (is_nan lat), (is_nan lon); cbn in *; congruence.
Qed.

Lemma marker_of_raises float_repr cols row e :
  converts cols row = true -> marker_of float_repr cols row = Raise e ->
  e = ValueError "Location values cannot contain NaNs".
Proof.
  unfold converts.
  destruct (coordinates cols row) as [[lat lon]|] eqn:E; [|discriminate].
  intros _. rewrite (marker_of_cases _ _ _ _ _ E).
  destruct (is_nan lat || is_nan lon)%bool; [congruence | discriminate].
Qed.

(** X10. The loop of [update_map] gives a marker to the rows whose
    coordinates convert and to no other: a row on which [float] raises can
    be taken out of the frame without changing the outcome. If none of the
    converting rows has a NaN coordinate the loop succeeds with one marker
    per converting row; if one of them has, the loop raises folium's
    ValueError and no marker at all is kept. *)
Theorem update_map_loop float_repr cols rows :
  (forall front row back,
      rows = (front ++ row :: back)%list -> converts cols row = false ->
      Cartographie.add_markers float_repr cols rows
      = Cartographie.add_markers float_repr cols (front ++ back)%list) /\
  (Forall (fun row => converts cols row = true -> located cols row = true)
     rows ->
   exists markers,
     Cartographie.add_markers float_repr cols rows = Ok markers /\
     List.length markers = List.length (filter (converts cols) rows) /\
     Forall placed markers) /\
  (Exists (fun row => converts cols row = true /\ located cols row = false)
     rows ->
   Cartographie.add_markers float_repr cols rows
   = Raise (ValueError "Location values cannot contain NaNs")).
Proof.
  split; [|split].
  - intros front row back -> Hrow. rewrite !add_markers_marker_of.
    rewrite !filter_app. cbn [filter]. now rewrite Hrow.
  - intros Hall. rewrite add_markers_marker_of.
    induction rows as [|row rows IH]; cbn [filter mapM].
    + exists []. repeat split; constructor.
    + inversion Hall as [|? ? Hrow Hrest]; subst.
      destruct (IH Hrest) as (ms & Hms & Hlen & Hpl).
      destruct (converts cols row) eqn:Hc; [|eauto].
      destruct (marker_of_located float_repr cols row (Hrow eq_refl))
        as (m & Hm & Hp).
      cbn [mapM]. rewrite Hm, Hms. cbn [bind].
      exists (m :: ms). split; [reflexivity|]. cbn. split; [now rewrite Hlen|].
      now constructor.
  - intros Hex. rewrite add_markers_marker_of.
    induction rows as [|row rows IH]; [inversion Hex|].
    cbn [filter]. destruct (converts cols row) eqn:Hc.
    + cbn [mapM].
      destruct (marker_of float_repr cols row) as [m|e] eqn:Hm; cbn [bind].
      * assert (Hrest : Exists
                  (fun row => converts cols row = true /\
                              located cols row = false) rows).
        { inversion Hex as [? ? [_ Hnl] | ? ? Hrest]; subst; [|exact Hrest].
          rewrite (marker_of_not_located _ _ _ Hc Hnl) in Hm. discriminate. }
        now rewrite (IH Hrest).
      * now rewrite (marker_of_raises _ _ _ _ Hc Hm).
    + apply IH. inversion Hex as [? ? [Hc' _] | ? ? Hrest]; subst;
        [congruence | exact Hrest].
Qed.

Lemma update_map_loop_witness :
  (frame_text_latitude.(data)
   = ([] ++ listing_with_text_latitude :: [listing_located_as_text])%list /\
   converts listing_columns listing_with_text_latitude = false) /\
  Cartographie.add_markers plain_repr listing_columns
    (data frame_text_latitude)
  = Cartographie.add_markers plain_repr listing_columns
      ([] ++ [listing_located_as_text])%list.
Proof.
  split; [split; reflexivity|].
  exact (proj1 (update_map_loop plain_repr listing_columns
                  (data frame_text_latitude))
           [] listing_with_text_latitude [listing_located_as_text]
           eq_refl eq_refl).
Defined.

(** X11. Every map [update_map] shows is centred on the default centre
    with the "CartoDB positron" tiles and zoom 4, and either has no
    cluster (the empty map) or a cluster of at most 3000 markers, none
    more than the filtered frame has rows and none with a NaN
    coordinate. *)
Theorem update_map_shows float_repr re_compile_ignorecase self m :
  Cartographie.update_map float_repr re_compile_ignorecase self
  = Cartographie.Shown m ->
  center m = default_center /\
  tiles m = "CartoDB positron" /\
  zoom_start m = 4 /\
  (cluster m = None \/
   exists df_f markers,
     Cartographie.filtered_df float_repr re_compile_ignorecase self = Ok df_f /\
     cluster m = Some markers /\
     (List.length markers <= 3000)%nat /\
     (List.length markers <= len df_f)%nat /\
     Forall placed markers).
Proof.
  unfold Cartographie.update_map, Cartographie.render.
  destruct (Cartographie.filtered_df float_repr re_compile_ignorecase self)
    as [df_f|e]; cbn [bind]; [|discriminate].
  destruct (Cartographie.empty df_f
            || negb (has_column df_f "Latitude"
                     && has_column df_f "Longitude"))%bool.
  - intros [= <-]. repeat split. now left.
  - destruct (Cartographie.add_markers float_repr (columns df_f)
                (firstn 3000 (data df_f))) as [markers|] eqn:E;
      cbn [bind]; [|discriminate].
    intros [= <-]. repeat split. right. exists df_f, markers.
    split; [reflexivity|]. split; [reflexivity|].
    rewrite add_markers_marker_of in E.
    assert (Hlen : (List.length markers
                    <= List.length (firstn 3000 (data df_f)))%nat).
    { rewrite (mapM_length _ _ _ _ _ E). apply filter_length_le. }
    rewrite length_firstn in Hlen. unfold len.
    split; [lia|]. split; [lia|].
    eapply mapM_Forall; [|exact E].
    intros row mk Hmk. unfold marker_of in Hmk.
    destruct (coordinates (columns df_f) row) as [[lat lon]|]; [|discriminate].
    eapply folium_Marker_placed; eauto.
Qed.

Lemma update_map_shows_witness :
  Cartographie.update_map plain_repr (fun _ => Raise ReError)
    (dynamic_on frame_text_latitude)
  = Cartographie.Shown
      (mkMap default_center "CartoDB positron" 4 (Some [marker_located])) /\
  zoom_start
    (mkMap default_center "CartoDB positron" 4 (Some [marker_located])) = 4.
Proof.
  split; [reflexivity|].
  exact (proj1 (proj2 (proj2
           (update_map_shows plain_repr (fun _ => Raise ReError)
              (dynamic_on frame_text_latitude) _ eq_refl)))).
Defined.

(** ** What [filtered_df] keeps *)

Lemma keep_mask_then (A : Type) first second (l : list A) :
  Cartographie.keep (mask_then first second) l
  = Cartographie.keep second (Cartographie.keep first l).
Proof.
  revert second l. induction first as [|[] first IH]; intros second l.
  - cbn. now destruct second.
  - destruct second as [|b second], l as [|a l]; cbn; try reflexivity.
    destruct b; now rewrite IH.
  - destruct l as [|a l]; cbn; [now destruct second | apply IH].
Qed.

Lemma keep_all (A : Type) (l : list A) :
  Cartographie.keep (repeat true (List.length l)) l = l.
Proof. induction l as [|a l IH]; cbn; [reflexivity | now rewrite IH]. Qed.

Lemma keep_all_longer (A : Type) (l : list A) n :
  (List.length l <= n)%nat -> Cartographie.keep (repeat true n) l = l.
Proof.
  revert n. induction l as [|a l IH]; intros n Hn.
  - now destruct n.
  - destruct n as [|n]; cbn in *; [lia|]. rewrite IH by lia. reflexivity.
Qed.

Lemma keep_Forall (A : Type) (P : A -> Prop) mask (l : list A) :
  Forall P l -> Forall P (Cartographie.keep mask l).
Proof.
  revert l. induction mask as [|b mask IH]; intros l Hl; [constructor|].
  destruct l as [|a l]; [constructor|]. inversion Hl; subst.
  cbn. destruct b; [constructor|]; auto.
Qed.

Lemma keep_length (A : Type) mask (l : list A) :
  (List.length (Cartographie.keep mask l) <= List.length l)%nat.
Proof.
  revert l. induction mask as [|b mask IH]; intros l; cbn; [lia|].
  destruct l as [|a l]; cbn; [lia|]. specialize (IH l).
  destruct b; cbn; lia.
Qed.

Lemma selection_of_refl d : selection_of d d.
Proof.
  exists (repeat true (Nat.max (List.length (index d)) (List.length (data d)))).
  unfold Cartographie.select.
  rewrite !keep_all_longer by lia. now destruct d.
Qed.

Lemma selection_of_trans d1 d2 d3 :
  selection_of d1 d2 -> selection_of d2 d3 -> selection_of d1 d3.
Proof.
  intros [m1 ->] [m2 ->]. exists (mask_then m1 m2).
  unfold Cartographie.select. cbn [columns index data].
  now rewrite !keep_mask_then.
Qed.

Lemma where_cells_selection d name test d' :
  Cartographie.where_cells d name test = Ok d' -> selection_of d d'.
Proof.
  unfold Cartographie.where_cells.
  destruct (Cartographie.column d name); cbn [bind]; [|discriminate].
  destruct (mapM test a) as [mask|]; cbn [bind]; [|discriminate].
  intros [= <-]. now exists mask.
Qed.

Lemma kept_rows_pass (test : cell -> result bool) i rows :
  forall cells mask,
    mapM (fun row => match nth_error row i with
                     | Some v => Ok v
                     | None => Raise IndexError
                     end) rows = Ok cells ->
    mapM test cells = Ok mask ->
    Forall (fun row => exists v, nth_error row i = Some v /\ test v = Ok true)
      (Cartographie.keep mask rows).
Proof.
  induction rows as [|row rows IH]; cbn [mapM]; intros cells mask.
  - intros _ _. destruct mask; constructor.
  - destruct (nth_error row i) as [v|] eqn:Hv; cbn [bind]; [|discriminate].
    destruct (mapM _ rows) as [vs|] eqn:Hvs; cbn [bind]; [|discriminate].
    intros [= <-]. cbn [mapM].
    destruct (test v) as [b|] eqn:Hb; cbn [bind]; [|discriminate].
    destruct (mapM test vs) as [bs|] eqn:Hbs; cbn [bind]; [|discriminate].
    intros [= <-]. cbn [Cartographie.keep].
    specialize (IH vs bs eq_refl Hbs).
    destruct b; [constructor; eauto | exact IH].
Qed.

Lemma where_cells_kept d name test d' :
  Cartographie.where_cells d name test = Ok d' ->
  has_column d name = true /\
  Forall (cell_passes (columns d) name (fun v => test v = Ok true)) (data d').
Proof.
  unfold Cartographie.where_cells, Cartographie.column, has_column,
    cell_passes, row_item.
  destruct (index_of name (columns d)) as [i|]; cbn [bind]; [|discriminate].
  destruct (mapM _ (data d)) as [cells|] eqn:Hc; cbn [bind]; [|discriminate].
  destruct (mapM test cells) as [mask|] eqn:Hm; cbn [bind]; [|discriminate].
  intros [= <-]. split; [reflexivity|]. cbn [data Cartographie.select].
  eapply Forall_impl; [|exact (kept_rows_pass test i _ _ _ Hc Hm)].
  intros row (v & Hv & Ht). exists v. now rewrite Hv.
Qed.

Lemma selection_of_columns d d' : selection_of d d' -> columns d' = columns d.
Proof. now intros [mask ->]. Qed.

Lemma selection_of_Forall (P : list cell -> Prop) d d' :
  selection_of d d' -> Forall P (data d) -> Forall P (data d').
Proof. intros [mask ->]. apply keep_Forall. Qed.

Lemma filtered_df_chain float_repr re_compile_ignorecase self df_f :
  Cartographie.filtered_df float_repr re_compile_ignorecase self = Ok df_f ->
  exists d1 d2 d3 d4 d5,
    bound_filter (value_or_None (Cartographie.spin_min_price self)) "Price"
      Cartographie.cell_ge (Cartographie.df self) = Ok d1 /\
    bound_filter (value_or_None (Cartographie.spin_max_price self)) "Price"
      Cartographie.cell_le d1 = Ok d2 /\
    bound_filter (value_or_None (Cartographie.spin_min_beds self)) "Beds"
      Cartographie.cell_ge d2 = Ok d3 /\
    bound_filter (value_or_None (Cartographie.spin_max_beds self)) "Beds"
      Cartographie.cell_le d3 = Ok d4 /\
    city_filter float_repr re_compile_ignorecase
      (strip (Cartographie.edit_city self)) d4 = Ok d5 /\
    state_filter (strip (Cartographie.combo_state self)) d5 = Ok df_f.
Proof.
  change (Cartographie.filtered_df float_repr re_compile_ignorecase self)
    with
    (d1 <- bound_filter (value_or_None (Cartographie.spin_min_price self))
             "Price" Cartographie.cell_ge (Cartographie.df self) ;;
     d2 <- bound_filter (value_or_None (Cartographie.spin_max_price self))
             "Price" Cartographie.cell_le d1 ;;
     d3 <- bound_filter (value_or_None (Cartographie.spin_min_beds self))
             "Beds" Cartographie.cell_ge d2 ;;
     d4 <- bound_filter (value_or_None (Cartographie.spin_max_beds self))
             "Beds" Cartographie.cell_le d3 ;;
     d5 <- city_filter float_repr re_compile_ignorecase
             (strip (Cartographie.edit_city self)) d4 ;;
     d6 <- state_filter (strip (Cartographie.combo_state self)) d5 ;;
     Ok d6).
  repeat match goal with
         | |- bind ?m _ = Ok _ -> _ =>
             let d := fresh "d" in
             destruct m as [d|] eqn:?; cbn [bind]; [|discriminate]
         end.
  intros [= <-]. exists d, d0, d1, d2, d3. repeat split; assumption.
Qed.

Lemma bound_filter_selection bound name test d d' :
  bound_filter bound name test d = Ok d' -> selection_of d d'.
Proof.
  destruct bound; cbn.
  - apply where_cells_selection.
  - intros [= <-]. apply selection_of_refl.
Qed.

Lemma city_filter_selection float_repr re city d d' :
  city_filter float_repr re city d = Ok d' -> selection_of d d'.
Proof.
  unfold city_filter. destruct (nonempty city).
  - destruct (Cartographie.column d "City"); cbn [bind]; [|discriminate].
    destruct (re city); cbn [bind]; [|discriminate].
    intros [= <-]. eexists. reflexivity.
  - intros [= <-]. apply selection_of_refl.
Qed.

Lemma state_filter_selection state d d' :
  state_filter state d = Ok d' -> selection_of d d'.
Proof.
  unfold state_filter. destruct (nonempty state).
  - destruct (Cartographie.column d "State"); cbn [bind]; [|discriminate].
    intros [= <-]. eexists. reflexivity.
  - intros [= <-]. apply selection_of_refl.
Qed.

(** X12. What [filtered_df] returns is made of rows of the frame, each
    with its own label, in the order of the frame and under the same
    columns: filtering drops rows and does nothing else. *)
Theorem filtered_df_is_a_selection float_repr re_compile_ignorecase
    self df_f :
  Cartographie.filtered_df float_repr re_compile_ignorecase self = Ok df_f ->
  (exists mask,
      index df_f = Cartographie.keep mask (index (Cartographie.df self)) /\
      data df_f = Cartographie.keep mask (data (Cartographie.df self))) /\
  columns df_f = columns (Cartographie.df self) /\
  (len df_f <= len (Cartographie.df self))%nat.
Proof.
  intros H.
  destruct (filtered_df_chain _ _ _ _ H)
    as (d1 & d2 & d3 & d4 & d5 & H1 & H2 & H3 & H4 & H5 & H6).
  assert (Hsel : selection_of (Cartographie.df self) df_f).
  { eapply selection_of_trans; [eapply bound_filter_selection; eauto|].
    eapply selection_of_trans; [eapply bound_filter_selection; eauto|].
    eapply selection_of_trans; [eapply bound_filter_selection; eauto|].
    eapply selection_of_trans; [eapply bound_filter_selection; eauto|].
    eapply selection_of_trans; [eapply city_filter_selection; eauto|].
    eapply state_filter_selection; eauto. }
  destruct Hsel as [mask ->]. split; [exists mask; split; reflexivity|].
  split; [reflexivity|]. unfold len. cbn. apply keep_length.
Qed.

Lemma filtered_df_is_a_selection_witness :
  Cartographie.filtered_df plain_repr (fun _ => Raise ReError)
    scenario_A_dynamic
  = Ok (Cartographie.select scenario_A_frame [true; true; false; false; true])
  /\
  (len (Cartographie.select scenario_A_frame
          [true; true; false; false; true])
   <= len (Cartographie.df scenario_A_dynamic))%nat.
Proof.
  split; [reflexivity|].
  exact (proj2 (proj2
           (filtered_df_is_a_selection plain_repr (fun _ => Raise ReError)
              scenario_A_dynamic _ eq_refl))).
Defined.

Lemma mapM_pure (A B : Type) (f : A -> B) l :
  mapM (fun a => Ok (f a)) l = Ok (map f l).
Proof.
  induction l as [|a l IH]; cbn [mapM map]; [reflexivity|].
  cbn [bind]. now rewrite IH.
Qed.

Lemma column_kept d name (f : cell -> bool) cells :
  Cartographie.column d name = Ok cells ->
  has_column d name = true /\
  Forall (cell_passes (columns d) name (fun v => f v = true))
    (data (Cartographie.select d (map f cells))).
Proof.
  intros Hc.
  assert (H : Cartographie.where_cells d name (fun v => Ok (f v))
              = Ok (Cartographie.select d (map f cells))).
  { unfold Cartographie.where_cells. rewrite Hc. cbn [bind].
    now rewrite mapM_pure. }
  destruct (where_cells_kept _ _ _ _ H) as [Hhas Hall].
  split; [exact Hhas|]. eapply Forall_impl; [|exact Hall].
  intros row (v & Hv & Ht). exists v. split; [exact Hv|]. now injection Ht.
Qed.

Lemma cell_ge_true b v : Cartographie.cell_ge b v = Ok true -> at_least b v.
Proof.
  destruct v as [| z | f | s]; cbn; try discriminate;
    intros [= H]; split; auto.
Qed.

Lemma cell_le_true b v : Cartographie.cell_le b v = Ok true -> at_most b v.
Proof.
  destruct v as [| z | f | s]; cbn; try discriminate;
    intros [= H]; split; auto.
Qed.

Lemma bound_filter_kept b name test d d' :
  bound_filter (Some b) name test d = Ok d' ->
  has_column d name = true /\
  Forall (cell_passes (columns d) name (fun v => test b v = Ok true)) (data d').
Proof. apply where_cells_kept. Qed.

Lemma cell_passes_impl cols name (P Q : cell -> Prop) row :
  (forall v, P v -> Q v) -> cell_passes cols name P row ->
  cell_passes cols name Q row.
Proof. intros H (v & Hv & Hp). exists v. auto. Qed.

(** X13. Every row that [filtered_df] returns passes every filter that is
    set: its Price is a number within the price bounds set, its Beds a
    number within the bed bounds set, both ends included; its State is the
    chosen text; its City text is one the compiled pattern finds a match
    in. A row whose Price or Beds is missing (NaN) is therefore dropped as
    soon as a bound on that column is set. *)
Theorem filtered_df_rows_pass float_repr re_compile_ignorecase self df_f :
  Cartographie.filtered_df float_repr re_compile_ignorecase self = Ok df_f ->
  let cols := columns (Cartographie.df self) in
  (forall b, value_or_None (Cartographie.spin_min_price self) = Some b ->
             Forall (cell_passes cols "Price" (at_least b)) (data df_f)) /\
  (forall b, value_or_None (Cartographie.spin_max_price self) = Some b ->
             Forall (cell_passes cols "Price" (at_most b)) (data df_f)) /\
  (forall b, value_or_None (Cartographie.spin_min_beds self) = Some b ->
             Forall (cell_passes cols "Beds" (at_least b)) (data df_f)) /\
  (forall b, value_or_None (Cartographie.spin_max_beds self) = Some b ->
             Forall (cell_passes cols "Beds" (at_most b)) (data df_f)) /\
  (strip (Cartographie.edit_city self) <> "" ->
   exists search,
     re_compile_ignorecase (strip (Cartographie.edit_city self)) = Ok search /\
     Forall (cell_passes cols "City"
               (fun v => search (py_str float_repr v) = true)) (data df_f)) /\
  (strip (Cartographie.combo_state self) <> "" ->
   Forall (cell_passes cols "State"
             (fun v => v = CStr (strip (Cartographie.combo_state self))))
     (data df_f)) /\
  (forall b, ~ at_least b (CFloat FNaN) /\ ~ at_most b (CFloat FNaN)).
Proof.
  intros H cols.
  destruct (filtered_df_chain _ _ _ _ H)
    as (d1 & d2 & d3 & d4 & d5 & H1 & H2 & H3 & H4 & H5 & H6).
  pose proof (bound_filter_selection _ _ _ _ _ H1) as S1.
  pose proof (bound_filter_selection _ _ _ _ _ H2) as S2.
  pose proof (bound_filter_selection _ _ _ _ _ H3) as S3.
  pose proof (bound_filter_selection _ _ _ _ _ H4) as S4.
  pose proof (city_filter_selection _ _ _ _ _ H5) as S5.
  pose proof (state_filter_selection _ _ _ H6) as S6.
  pose proof (selection_of_columns _ _ S1) as C1.
  pose proof (selection_of_columns _ _ S2) as C2.
  pose proof (selection_of_columns _ _ S3) as C3.
  pose proof (selection_of_columns _ _ S4) as C4.
  pose proof (selection_of_columns _ _ S5) as C5.
  fold cols in C1. rewrite C1 in C2. rewrite C2 in C3. rewrite C3 in C4.
  rewrite C4 in C5.
  repeat split.
  - intros b Hb. rewrite Hb in H1.
    destruct (bound_filter_kept _ _ _ _ _ H1) as [_ Hall]. fold cols in Hall.
    apply (selection_of_Forall _ _ _ S6), (selection_of_Forall _ _ _ S5),
      (selection_of_Forall _ _ _ S4), (selection_of_Forall _ _ _ S3),
      (selection_of_Forall _ _ _ S2).
    eapply Forall_impl; [|exact Hall].
    intros row. apply cell_passes_impl, cell_ge_true.
  - intros b Hb. rewrite Hb in H2.
    destruct (bound_filter_kept _ _ _ _ _ H2) as [_ Hall]. rewrite C1 in Hall.
    apply (selection_of_Forall _ _ _ S6), (selection_of_Forall _ _ _ S5),
      (selection_of_Forall _ _ _ S4), (selection_of_Forall _ _ _ S3).
    eapply Forall_impl; [|exact Hall].
    intros row. apply cell_passes_impl, cell_le_true.
  - intros b Hb. rewrite Hb in H3.
    destruct (bound_filter_kept _ _ _ _ _ H3) as [_ Hall]. rewrite C2 in Hall.
    apply (selection_of_Forall _ _ _ S6), (selection_of_Forall _ _ _ S5),
      (selection_of_Forall _ _ _ S4).
    eapply Forall_impl; [|exact Hall].
    intros row. apply cell_passes_impl, cell_ge_true.
  - intros b Hb. rewrite Hb in H4.
    destruct (bound_filter_kept _ _ _ _ _ H4) as [_ Hall]. rewrite C3 in Hall.
    apply (selection_of_Forall _ _ _ S6), (selection_of_Forall _ _ _ S5).
    eapply Forall_impl; [|exact Hall].
    intros row. apply cell_passes_impl, cell_le_true.
  - intros Hcity. unfold city_filter in H5.
    rewrite (nonempty_true _ Hcity) in H5.
    destruct (Cartographie.column d4 "City") as [cells|] eqn:Hc;
      cbn [bind] in H5; [|discriminate].
    destruct (re_compile_ignorecase _) as [search|]; cbn [bind] in H5;
      [|discriminate].
    injection H5 as <-. exists search. split; [reflexivity|].
    apply (selection_of_Forall _ _ _ S6).
    destruct (column_kept d4 "City"
                (fun v => search (py_str float_repr v)) cells Hc)
      as [_ Hall].
    now rewrite C4 in Hall.
  - intros Hstate. unfold state_filter in H6.
    rewrite (nonempty_true _ Hstate) in H6.
    destruct (Cartographie.column d5 "State") as [cells|] eqn:Hc;
      cbn [bind] in H6; [|discriminate].
    injection H6 as <-.
    destruct (column_kept d5 "State"
                (Cartographie.cell_eq_text
                   (strip (Cartographie.combo_state self))) cells Hc)
      as [_ Hall].
    rewrite C5 in Hall. eapply Forall_impl; [|exact Hall].
    intros row. apply cell_passes_impl. intros v.
    destruct v as [| z | f | s]; cbn; try discriminate.
    intros Hs. apply String.eqb_eq in Hs. now subst.
  - intros [_ Hn]. discriminate.
  - intros [_ Hn]. discriminate.
Qed.

Lemma filtered_df_rows_pass_witness :
  Cartographie.filtered_df plain_repr (fun _ => Raise ReError)
    dynamic_min_price
  = Ok (Cartographie.select frame_missing_price [true; false; true]) /\
  Forall (cell_passes (columns frame_missing_price) "Price"
            (at_least (50000 # 1)))
    (data (Cartographie.select frame_missing_price [true; false; true])).
Proof.
  split; [reflexivity|].
  exact (proj1 (filtered_df_rows_pass plain_repr (fun _ => Raise ReError)
                  dynamic_min_price _ eq_refl)
           (50000 # 1)%Q eq_refl).
Defined.

(** ** Filters on columns the frame lacks *)

Lemma value_or_None_nonzero v :
  ~ (v == 0)%Q -> value_or_None v = Some v.
Proof.
  intros H. unfold value_or_None.
  destruct (Qeq_bool v 0) eqn:E; [|reflexivity].
  apply Qeq_bool_eq in E. contradiction.
Qed.

Lemma city_filter_has_column float_repr re city d d' :
  city <> "" -> city_filter float_repr re city d = Ok d' ->
  has_column d "City" = true.
Proof.
  intros Hc. unfold city_filter. rewrite (nonempty_true _ Hc).
  destruct (Cartographie.column d "City") as [cells|] eqn:E; cbn [bind];
    [|discriminate].
  intros _. now apply (column_kept d "City" (fun _ => true) cells E).
Qed.

Lemma state_filter_has_column state d d' :
  state <> "" -> state_filter state d = Ok d' ->
  has_column d "State" = true.
Proof.
  intros Hs. unfold state_filter. rewrite (nonempty_true _ Hs).
  destruct (Cartographie.column d "State") as [cells|] eqn:E; cbn [bind];
    [|discriminate].
  intros _. now apply (column_kept d "State" (fun _ => true) cells E).
Qed.

Lemma has_column_selection d d' name :
  selection_of d d' -> has_column d' name = has_column d name.
Proof. intros [mask ->]. reflexivity. Qed.

(** X14. A filter of the dynamic map on a column the frame does not have
    is not ignored: [filtered_df] raises, and [update_map] prints the
    exception and shows no map. For a bound on Price the exception is
    [KeyError('Price')]. *)
Theorem filter_on_missing_column_raises float_repr re_compile_ignorecase
    self name :
  filters_on self name ->
  has_column (Cartographie.df self) name = false ->
  (exists e,
      Cartographie.filtered_df float_repr re_compile_ignorecase self
      = Raise e /\
      Cartographie.update_map float_repr re_compile_ignorecase self
      = Cartographie.Printed e) /\
  (name = "Price" ->
   Cartographie.update_map float_repr re_compile_ignorecase self
   = Cartographie.Printed (KeyError "Price")).
Proof.
  intros Hon Hmiss.
  assert (Hraise : exists e,
             Cartographie.filtered_df float_repr re_compile_ignorecase self
             = Raise e).
  { destruct (Cartographie.filtered_df float_repr re_compile_ignorecase self)
      as [df_f|e] eqn:H; [exfalso | eauto].
    destruct (filtered_df_chain _ _ _ _ H)
      as (d1 & d2 & d3 & d4 & d5 & H1 & H2 & H3 & H4 & H5 & H6).
    pose proof (bound_filter_selection _ _ _ _ _ H1) as S1.
    pose proof (bound_filter_selection _ _ _ _ _ H2) as S2.
    pose proof (bound_filter_selection _ _ _ _ _ H3) as S3.
    pose proof (bound_filter_selection _ _ _ _ _ H4) as S4.
    pose proof (city_filter_selection _ _ _ _ _ H5) as S5.
    assert (E1 : forall n, has_column d1 n = has_column (Cartographie.df self) n)
      by (intros; now apply has_column_selection).
    assert (E2 : forall n, has_column d2 n = has_column (Cartographie.df self) n)
      by (intros; rewrite <- E1; now apply has_column_selection).
    assert (E3 : forall n, has_column d3 n = has_column (Cartographie.df self) n)
      by (intros; rewrite <- E2; now apply has_column_selection).
    assert (E4 : forall n, has_column d4 n = has_column (Cartographie.df self) n)
      by (intros; rewrite <- E3; now apply has_column_selection).
    assert (E5 : forall n, has_column d5 n = has_column (Cartographie.df self) n)
      by (intros; rewrite <- E4; now apply has_column_selection).
    destruct Hon as [Hv | Hv | Hv | Hv | Hv | Hv].
    - rewrite (value_or_None_nonzero _ Hv) in H1.
      apply bound_filter_kept in H1 as [Hc _]. congruence.
    - rewrite (value_or_None_nonzero _ Hv) in H2.
      apply bound_filter_kept in H2 as [Hc _]. rewrite E1 in Hc. congruence.
    - rewrite (value_or_None_nonzero _ Hv) in H3.
      apply bound_filter_kept in H3 as [Hc _]. rewrite E2 in Hc. congruence.
    - rewrite (value_or_None_nonzero _ Hv) in H4.
      apply bound_filter_kept in H4 as [Hc _]. rewrite E3 in Hc. congruence.
    - apply (city_filter_has_column _ _ _ _ _ Hv) in H5.
      rewrite E4 in H5. congruence.
    - apply (state_filter_has_column _ _ _ Hv) in H6.
      rewrite E5 in H6. congruence. }
  split.
  - destruct Hraise as [e He]. exists e. split; [exact He|].
    unfold Cartographie.update_map, Cartographie.render. now rewrite He.
  - intros ->. unfold Cartographie.update_map, Cartographie.render,
      Cartographie.filtered_df.
    assert (Hcol : forall test,
               Cartographie.where_cells (Cartographie.df self) "Price" test
               = Raise (KeyError "Price")).
    { intros test. unfold Cartographie.where_cells, Cartographie.column.
      unfold has_column in Hmiss.
      destruct (index_of "Price" (columns (Cartographie.df self)));
        [discriminate | reflexivity]. }
    inversion Hon as [Hv | Hv | | | |].
    + rewrite (value_or_None_nonzero _ Hv). cbn beta iota.
      rewrite Hcol. reflexivity.
    + rewrite (value_or_None_nonzero _ Hv).
      destruct (value_or_None (Cartographie.spin_min_price self));
        cbn beta iota; rewrite ?Hcol; cbn [bind]; rewrite ?Hcol; reflexivity.
Qed.

Lemma filter_on_missing_column_raises_witness :
  (filters_on dynamic_min_beds_no_column "Beds" /\
   has_column (Cartographie.df dynamic_min_beds_no_column) "Beds" = false) /\
  exists e,
    Cartographie.filtered_df plain_repr (fun _ => Raise ReError)
      dynamic_min_beds_no_column = Raise e /\
    Cartographie.update_map plain_repr (fun _ => Raise ReError)
      dynamic_min_beds_no_column = Cartographie.Printed e.
Proof.
  assert (H : filters_on dynamic_min_beds_no_column "Beds").
  { apply on_min_beds. cbn. unfold Qeq. cbn. lia. }
  split; [split; [exact H | reflexivity]|].
  exact (proj1 (filter_on_missing_column_raises plain_repr
                  (fun _ => Raise ReError) dynamic_min_beds_no_column
                  "Beds" H eq_refl)).
Defined.

(** ** A text in a compared column *)

Lemma mapM_raises (A B : Type) (f : A -> result B) (e : exn) l :
  (forall a e', f a = Raise e' -> e' = e) ->
  Exists (fun a => f a = Raise e) l -> mapM f l = Raise e.
Proof.
  intros Honly. induction l as [|a l IH]; intros Hex; [inversion Hex|].
  cbn [mapM]. destruct (f a) as [b|e'] eqn:E; cbn [bind].
  - inversion Hex as [? ? Ha | ? ? Hl]; subst; [congruence|].
    now rewrite (IH Hl).
  - now rewrite (Honly a e' E).
Qed.

(** X15. One text in the Price column is enough to lose the dynamic map:
    on a frame whose Price column holds a text in some row, as soon as a
    minimum price is set the comparison raises TypeError, [filtered_df]
    returns nothing and [update_map] prints the exception. *)
Theorem text_price_breaks_dynamic_map float_repr re_compile_ignorecase self :
  rectangular (Cartographie.df self) ->
  ~ (Cartographie.spin_min_price self == 0)%Q ->
  Exists (text_under (columns (Cartographie.df self)) "Price")
    (data (Cartographie.df self)) ->
  Cartographie.filtered_df float_repr re_compile_ignorecase self
  = Raise TypeError /\
  Cartographie.update_map float_repr re_compile_ignorecase self
  = Cartographie.Printed TypeError.
Proof.
  intros Hrect Hmin Hex.
  assert (Hf : Cartographie.filtered_df float_repr re_compile_ignorecase self
               = Raise TypeError).
  { unfold Cartographie.filtered_df.
    rewrite (value_or_None_nonzero _ Hmin). cbn beta iota.
    assert (Hw : Cartographie.where_cells (Cartographie.df self) "Price"
                   (Cartographie.cell_ge (Cartographie.spin_min_price self))
                 = Raise TypeError).
    { unfold Cartographie.where_cells.
      destruct (index_of "Price" (columns (Cartographie.df self))) as [i|] eqn:Hi.
      - rewrite (column_cells _ _ i Hrect Hi). cbn [bind].
        rewrite (mapM_raises _ _ _ TypeError); [reflexivity | |].
        + intros v e'. destruct v; cbn; congruence.
        + apply Exists_exists in Hex as (row & Hin & s & Hs).
          apply Exists_exists. exists (nth i row CNone).
          split; [exact (in_map (fun r => nth i r CNone) _ _ Hin)|].
          unfold row_item in Hs. rewrite Hi in Hs.
          destruct (nth_error row i) as [v|] eqn:Hv; [|discriminate].
          injection Hs as ->. now rewrite (nth_error_nth _ _ _ Hv).
      - apply Exists_exists in Hex as (row & _ & s & Hs).
        unfold row_item in Hs. rewrite Hi in Hs. discriminate. }
    now rewrite Hw. }
  split; [exact Hf|].
  unfold Cartographie.update_map, Cartographie.render. now rewrite Hf.
Qed.

Lemma text_price_breaks_dynamic_map_witness :
  (rectangular (Cartographie.df dynamic_text_price) /\
   ~ (Cartographie.spin_min_price dynamic_text_price == 0)%Q /\
   Exists (text_under (columns (Cartographie.df dynamic_text_price)) "Price")
     (data (Cartographie.df dynamic_text_price))) /\
  Cartographie.update_map plain_repr (fun _ => Raise ReError)
    dynamic_text_price
  = Cartographie.Printed TypeError.
Proof.
  assert (H1 : ~ (Cartographie.spin_min_price dynamic_text_price == 0)%Q)
    by (cbn; unfold Qeq; cbn; lia).
  assert (H2 : Exists
                 (text_under (columns (Cartographie.df dynamic_text_price))
                    "Price")
                 (data (Cartographie.df dynamic_text_price))).
  { apply Exists_cons_tl, Exists_cons_hd. now exists "on request". }
  split; [split; [exact frame_with_holes_rectangular | split; assumption]|].
  exact (proj2 (text_price_breaks_dynamic_map plain_repr
                  (fun _ => Raise ReError) dynamic_text_price
                  frame_with_holes_rectangular H1 H2)).
Defined.

(** ** Headers and column lookup *)

Lemma index_of_nth name cols i :
  index_of name cols = Some i -> nth_error cols i = Some name.
Proof.
  revert i. induction cols as [|c cols IH]; cbn; [discriminate|].
  intros i. destruct (String.eqb_spec c name) as [->|Hne].
  - now intros [= <-].
  - destruct (index_of name cols) as [j|]; cbn; [|discriminate].
    intros [= <-]. now apply IH.
Qed.

Lemma index_of_first name cols i :
  nth_error cols i = Some name ->
  exists j, index_of name cols = Some j /\ (j <= i)%nat.
Proof.
  revert i. induction cols as [|c cols IH]; intros i; [now destruct i|].
  cbn [index_of]. destruct (String.eqb_spec c name) as [->|Hne].
  - intros _. exists O. split; [reflexivity | lia].
  - destruct i as [|i]; cbn; [congruence|]. intros H.
    destruct (IH i H) as (j & -> & Hj). exists (S j). split; [reflexivity | lia].
Qed.

Lemma index_of_None name cols : index_of name cols = None <-> ~ In name cols.
Proof.
  induction cols as [|c cols IH]; cbn; [tauto|].
  destruct (String.eqb_spec c name) as [->|Hne].
  - split; [discriminate | tauto].
  - destruct (index_of name cols); cbn.
    + split; [discriminate|]. intros H. exfalso. apply H. right.
      apply Decidable.not_not; [|now rewrite <- IH].
      unfold Decidable.decidable. destruct (in_dec string_dec name cols); auto.
    + split; [|reflexivity]. intros _ [H | H]; [congruence|].
      now apply (proj1 IH).
Qed.

(** X16. [_col] and the horizontal header agree: a column [_col] finds has
    the looked-up name as its header; the header of a section sends [_col]
    back to that section, or to an earlier one carrying the same label,
    and to the section itself when the labels are distinct; and [_col] is
    -1 exactly for the names that are no label of the frame. *)
Theorem col_finds_header p model name i :
  sourceModel p = Some model ->
  (_col p name = Z.of_nat i ->
   headerData model i Horizontal DisplayRole = Ok (Some name)) /\
  (headerData model i Horizontal DisplayRole = Ok (Some name) ->
   0 <= _col p name <= Z.of_nat i /\
   (NoDup (columns (dataframe model)) -> _col p name = Z.of_nat i)) /\
  (_col p name = -1 <-> ~ In name (columns (dataframe model))) /\
  (headerData model i Horizontal DisplayRole = Raise IndexError <->
   (columnCount model <= i)%nat).
Proof.
  intros Hm. unfold _col, headerData, columnCount, dataframe. rewrite Hm.
  split; [|split; [|split]].
  - destruct (index_of name (columns (_df model))) as [j|] eqn:Hj; [|lia].
    intros Hji. apply Nat2Z.inj in Hji. subst j.
    now rewrite (index_of_nth _ _ _ Hj).
  - destruct (nth_error (columns (_df model)) i) as [label|] eqn:Hi;
      [|discriminate].
    intros [= ->]. destruct (index_of_first _ _ _ Hi) as (j & Hj & Hle).
    rewrite Hj. split; [lia|]. intros Hnd. f_equal.
    pose proof (index_of_nth _ _ _ Hj) as Hj'.
    eapply (proj1 (NoDup_nth_error (columns (_df model)))); eauto.
    + apply nth_error_Some. congruence.
    + congruence.
  - rewrite <- index_of_None.
    destruct (index_of name (columns (_df model))); split;
      try discriminate; try reflexivity; lia.
  - destruct (nth_error (columns (_df model)) i) eqn:Hi.
    + split; [discriminate|]. intros H.
      apply nth_error_None in H. congruence.
    + split; [|reflexivity]. intros _. now apply nth_error_None.
Qed.

Lemma col_finds_header_witness :
  (sourceModel (new_proxy (Some (new_PandasModel scenario_A_frame)))
   = Some (new_PandasModel scenario_A_frame) /\
   _col (new_proxy (Some (new_PandasModel scenario_A_frame))) "Price"
   = Z.of_nat 3) /\
  headerData (new_PandasModel scenario_A_frame) 3 Horizontal DisplayRole
  = Ok (Some "Price").
Proof.
  split; [split; reflexivity|].
  exact (proj1 (col_finds_header
                  (new_proxy (Some (new_PandasModel scenario_A_frame)))
                  (new_PandasModel scenario_A_frame) "Price" 3 eq_refl)
           eq_refl).
Defined.

(** ** The State combo box *)

Lemma mapM_Forall2 (A B : Type) (f : A -> result B) l :
  forall out, mapM f l = Ok out -> Forall2 (fun a b => f a = Ok b) l out.
Proof.
  induction l as [|a l IH]; cbn [mapM]; intros out.
  - intros [= <-]. constructor.
  - destruct (f a) as [b|] eqn:E; cbn [bind]; [|discriminate].
    destruct (mapM f l) as [bs|]; cbn [bind]; [|discriminate].
    intros [= <-]. constructor; auto.
Qed.

Lemma Forall2_In_l (A B : Type) (R : A -> B -> Prop) l l' a :
  Forall2 R l l' -> In a l -> exists b, In b l' /\ R a b.
Proof.
  induction 1 as [|x y l l' Hxy _ IH]; intros Hin; [inversion Hin|].
  destruct Hin as [-> | Hin].
  - exists y. split; [now left | exact Hxy].
  - destruct (IH Hin) as (b & Hb & Hr). exists b. split; [now right | exact Hr].
Qed.

Lemma Forall2_In_r (A B : Type) (R : A -> B -> Prop) l l' b :
  Forall2 R l l' -> In b l' -> exists a, In a l /\ R a b.
Proof.
  induction 1 as [|x y l l' Hxy _ IH]; intros Hin; [inversion Hin|].
  destruct Hin as [-> | Hin].
  - exists x. split; [now left | exact Hxy].
  - destruct (IH Hin) as (a & Ha & Hr). exists a. split; [now right | exact Hr].
Qed.

(** The cells of a column are the cells of the rows under it. *)
Lemma column_rows d name cells :
  Cartographie.column d name = Ok cells ->
  Forall2 (fun row v => row_item (columns d) row name = Ok v) (data d) cells.
Proof.
  unfold Cartographie.column, row_item.
  destruct (index_of name (columns d)) as [i|]; [|discriminate].
  intros H. apply mapM_Forall2 in H.
  eapply Forall2_impl; [|exact H]. intros row v Hv. cbn in Hv.
  destruct (nth_error row i); [exact Hv | discriminate].
Qed.

Lemma unique_from_In seen cells u :
  In u (unique_from seen cells) -> In u cells.
Proof.
  revert seen. induction cells as [|v cells IH]; intros seen; cbn; [tauto|].
  destruct (existsb (py_eqb v) seen); cbn.
  - intros H. right. eauto.
  - intros [-> | H]; [now left | right; eauto].
Qed.

Lemma unique_from_covers seen cells v :
  In v cells -> py_eqb v v = true ->
  (exists u, In u seen /\ py_eqb v u = true) \/
  (exists u, In u (unique_from seen cells) /\ py_eqb v u = true).
Proof.
  intros Hin Hrefl. revert seen.
  induction cells as [|x cells IH]; intros seen; [inversion Hin|].
  cbn [unique_from]. destruct Hin as [-> | Hin].
  - destruct (existsb (py_eqb v) seen) eqn:E.
    + left. apply existsb_exists in E. exact E.
    + right. exists v. split; [now left | exact Hrefl].
  - destruct (existsb (py_eqb x) seen) eqn:E.
    + apply (IH Hin).
    + destruct (IH Hin (x :: seen)) as [(u & [<- | Hu] & Hvu) | (u & Hu & Hvu)].
      * right. exists x. split; [now left | exact Hvu].
      * left. eauto.
      * right. exists u. split; [now right | exact Hvu].
Qed.

Lemma py_eqb_text s u : py_eqb (CStr s) u = true -> u = CStr s.
Proof.
  destruct u as [| z | f | t]; cbn; try discriminate.
  intros H. apply String.eqb_eq in H. now subst.
Qed.

Lemma sorted_texts_sorted texts :
  StronglySorted (fun a b => String.ltb b a = false) (sorted_texts texts).
Proof.
  apply Sorted_StronglySorted.
  - intros a b c. apply not_ltb_trans.
  - apply stable_sort_sorted. apply ltb_asym.
Qed.

(** X17. The State combo box cannot be filled from a frame without a State
    column: the constructor raises [KeyError('State')]. Otherwise its
    items are the empty entry followed by the texts of the State values in
    ascending order: every text found in the State column is among them,
    and each of them is the text of a State cell that is not missing. *)
Theorem state_choices_offer_every_state float_repr d :
  (has_column d "State" = false ->
   state_choices float_repr d = Raise (KeyError "State")) /\
  (forall choices,
      state_choices float_repr d = Ok choices ->
      exists states,
        choices = "" :: states /\
        StronglySorted (fun a b => String.ltb b a = false) states /\
        (forall row s,
            In row (data d) ->
            row_item (columns d) row "State" = Ok (CStr s) ->
            In s states) /\
        (forall t,
            In t states ->
            exists row v,
              In row (data d) /\
              row_item (columns d) row "State" = Ok v /\
              is_null v = false /\
              py_str float_repr v = t)).
Proof.
  split.
  - unfold has_column, state_choices, Cartographie.column.
    destruct (index_of "State" (columns d)); [discriminate | reflexivity].
  - intros choices. unfold state_choices.
    destruct (Cartographie.column d "State") as [cells|] eqn:Hc; cbn [bind];
      [|discriminate].
    intros [= <-]. eexists. split; [reflexivity|].
    split; [apply sorted_texts_sorted|].
    pose proof (column_rows _ _ _ Hc) as Hrows.
    split.
    + intros row s Hrow Hs.
      destruct (Forall2_In_l _ _ _ _ _ _ Hrows Hrow) as (v & Hv & Hitem).
      rewrite Hs in Hitem. injection Hitem as <-.
      assert (Hd : In (CStr s) (dropna cells))
        by (apply filter_In; split; [exact Hv | reflexivity]).
      destruct (unique_from_covers [] _ _ Hd (String.eqb_refl s))
        as [(u & [] & _) | (u & Hu & Heq)].
      apply py_eqb_text in Heq. subst u.
      eapply Permutation_in; [apply stable_sort_perm|].
      apply (in_map (py_str float_repr) _ _ Hu).
    + intros t Ht.
      apply (Permutation_in _ (Permutation_sym (stable_sort_perm _ _ _))) in Ht.
      apply in_map_iff in Ht as (v & Hv & Hin).
      apply unique_from_In in Hin. apply filter_In in Hin as [Hin Hnull].
      destruct (Forall2_In_r _ _ _ _ _ _ Hrows Hin) as (row & Hrow & Hitem).
      exists row, v. repeat split; try assumption.
      now apply negb_true_iff.
Qed.

Lemma state_choices_offer_every_state_witness :
  has_column frame_without_state "State" = false /\
  state_choices plain_repr frame_without_state = Raise (KeyError "State").
Proof.
  split; [reflexivity|].
  exact (proj1 (state_choices_offer_every_state plain_repr
                  frame_without_state) eq_refl).
Defined.

(** The choices on the listings of scenario A. *)
Example state_choices_of_scenario_A float_repr :
  state_choices float_repr scenario_A_frame = Ok [""; "CO"; "IL"; "NY"].
Proof. reflexivity. Qed.

(** ** Expected columns *)

(** X18. [load_dataframe] hands the frame on as it was read. It prints no
    warning exactly when all fourteen expected columns are there, and then
    every column a predicate of the proxy reads and every column a popup
    of [generate_map] reads is a column of the frame; when it warns, the
    list printed holds exactly the expected columns that the frame
    lacks. *)
Theorem load_dataframe_warns_of_missing_columns read df warning :
  load_dataframe read = Ok (df, warning) ->
  read = Ok df /\
  (warning = None <->
   Forall (fun c => has_column df c = true) EXPECTED_COLUMNS) /\
  (warning = None ->
   Forall (fun c => has_column df c = true) (filter_columns ++ popup_columns)) /\
  (forall missing,
      warning = Some missing ->
      missing <> [] /\
      forall c, In c missing <->
                In c EXPECTED_COLUMNS /\ has_column df c = false).
Proof.
  unfold load_dataframe. destruct read as [d|e]; cbn [bind]; [|discriminate].
  remember (filter (fun c => negb (has_column d c)) EXPECTED_COLUMNS)
    as missing eqn:Hmissing.
  intros H. injection H as -> Hw. split; [reflexivity|].
  assert (Hmem : forall c, In c missing <->
                           In c EXPECTED_COLUMNS /\ has_column df c = false).
  { intros c. rewrite Hmissing, filter_In, negb_true_iff. tauto. }
  clear Hmissing.
  assert (Hall : missing = [] <->
                 Forall (fun c => has_column df c = true) EXPECTED_COLUMNS).
  { split.
    - intros He. apply Forall_forall. intros c Hc.
      destruct (has_column df c) eqn:E; [reflexivity|].
      assert (Hin : In c missing) by (apply Hmem; auto).
      rewrite He in Hin. inversion Hin.
    - intros Hf. destruct missing as [|c rest] eqn:E; [reflexivity|].
      assert (Hin : In c (c :: rest)) by now left.
      apply Hmem in Hin as [Hc Hfalse]. rewrite Forall_forall in Hf.
      rewrite (Hf c Hc) in Hfalse. discriminate. }
  assert (Hnone : warning = None <-> missing = []).
  { rewrite <- Hw. destruct missing; split; congruence. }
  split; [etransitivity; [exact Hnone | exact Hall]|]. split.
  - intros Hn. apply Hnone, Hall in Hn. rewrite Forall_forall in *.
    intros c Hc. apply Hn.
    assert (Hincl : incl (filter_columns ++ popup_columns) EXPECTED_COLUMNS).
    { intros x Hx. cbn in Hx. cbn.
      repeat (destruct Hx as [<- | Hx]; [tauto|]). contradiction. }
    now apply Hincl.
  - intros m Hm. rewrite Hm in Hw.
    destruct missing as [|c rest] eqn:E; [discriminate|].
    injection Hw as <-. split; [discriminate | exact Hmem].
Qed.

Lemma load_dataframe_warns_of_missing_columns_witness :
  load_dataframe (Ok frame_missing_latitude)
  = Ok (frame_missing_latitude,
        Some ["Zip Code Population"; "Zip Code Density"; "County";
              "Median Household Income"]) /\
  ["Zip Code Population"; "Zip Code Density"; "County";
   "Median Household Income"] <> [].
Proof.
  split; [reflexivity|].
  exact (proj1 (proj2 (proj2 (proj2
           (load_dataframe_warns_of_missing_columns
              (Ok frame_missing_latitude) frame_missing_latitude _ eq_refl)))
           _ eq_refl)).
Defined.

(** ** The Open button *)

(** X19. Through any sequence of clicks on Generate, the Open button is
    enabled exactly when a map has been generated: [open_map] has a path
    to hand to the browser if and only if the button is enabled, and a
    render that raises leaves both the button and the remembered map as
    they were. *)
Theorem open_button_follows_the_map self :
  tab_reachable self ->
  (btn_open_enabled self = true <-> open_map self <> None) /\
  (btn_open_enabled self = false <-> _last_map_path self = None) /\
  (forall e tmp_name, after_generate (Raise e) tmp_name self = self).
Proof.
  intros H. split; [|split; [|reflexivity]].
  - induction H as [|self outcome tmp_name _ IH Hname].
    + cbn. split; [discriminate | congruence].
    + destruct outcome; [|exact IH]. cbn. unfold open_map. cbn.
      rewrite (nonempty_true _ Hname). split; [discriminate | reflexivity].
  - induction H as [|self outcome tmp_name _ IH Hname].
    + cbn. tauto.
    + destruct outcome; [|exact IH]. cbn. split; discriminate.
Qed.

Lemma open_button_follows_the_map_witness :
  tab_reachable
    (after_generate (Raise TypeError) "/tmp/b_map_markers_cluster.html"
       (after_generate (Ok Cartographie.empty_map)
          "/tmp/a_map_markers_cluster.html" new_CartographyTab)) /\
  (btn_open_enabled
     (after_generate (Raise TypeError) "/tmp/b_map_markers_cluster.html"
        (after_generate (Ok Cartographie.empty_map)
           "/tmp/a_map_markers_cluster.html" new_CartographyTab)) = true <->
   open_map
     (after_generate (Raise TypeError) "/tmp/b_map_markers_cluster.html"
        (after_generate (Ok Cartographie.empty_map)
           "/tmp/a_map_markers_cluster.html" new_CartographyTab)) <> None).
Proof.
  assert (H : tab_reachable
                (after_generate (Raise TypeError)
                   "/tmp/b_map_markers_cluster.html"
                   (after_generate (Ok Cartographie.empty_map)
                      "/tmp/a_map_markers_cluster.html" new_CartographyTab))).
  { apply reach_generate; [|discriminate].
    apply reach_generate; [apply reach_new | discriminate]. }
  split; [exact H|].
  exact (proj1 (open_button_follows_the_map _ H)).
Defined.

(** ** Whole floats *)

Lemma prefix_empty s : prefix "" s = true.
Proof. now destruct s. Qed.

Lemma append_assoc (a b c : string) : ((a ++ b) ++ c = a ++ (b ++ c))%string.
Proof. induction a as [|x a IH]; cbn; [reflexivity | now rewrite IH]. Qed.

Lemma replace_comma_app a b :
  replace "," " " (a ++ b) = replace "," " " a ++ replace "," " " b.
Proof.
  unfold replace. induction a as [|c a IH]; [reflexivity|].
  cbn [append replace_from prefix String.length Nat.sub].
  destruct (ascii_dec "," c).
  - rewrite !prefix_empty. cbn [append]. now rewrite IH.
  - cbn [append]. now rewrite IH.
Qed.

Lemma replace_dot00_end y :
  no_dot y -> replace ".00" "" (y ++ ".00") = y.
Proof.
  unfold replace. induction y as [|c y IH]; [reflexivity|].
  intros [Hc Hy]. cbn [append replace_from prefix].
  destruct (ascii_dec "." c) as [E|_]; [congruence|].
  now rewrite IH.
Qed.

Lemma no_dot_app a b : no_dot a -> no_dot b -> no_dot (a ++ b).
Proof. induction a as [|c a IH]; cbn; [auto|]. intros [Hc Ha] Hb. auto. Qed.

Lemma no_dot_replace_comma s : no_dot s -> no_dot (replace "," " " s).
Proof.
  unfold replace. induction s as [|c s IH]; [auto|].
  intros [Hc Hs]. cbn [replace_from prefix String.length Nat.sub].
  destruct (ascii_dec "," c).
  - rewrite prefix_empty. cbn. split; [discriminate | auto].
  - cbn. auto.
Qed.

Lemma no_dot_group3 s : no_dot s -> no_dot (group3 s).
Proof.
  induction s as [|c s IH]; [auto|]. intros [Hc Hs]. cbn [group3].
  destruct (Nat.ltb 0 (String.length s) && Nat.eqb (String.length s mod 3) 0)%bool;
    cbn; repeat split; auto; discriminate.
Qed.

Lemma digit_char_no_dot d : 0 <= d < 10 -> digit_char d <> "."%char.
Proof.
  intros H.
  assert (d = 0 \/ d = 1 \/ d = 2 \/ d = 3 \/ d = 4 \/ d = 5 \/ d = 6 \/
          d = 7 \/ d = 8 \/ d = 9) as Hd by lia.
  repeat (destruct Hd as [-> | Hd]; [discriminate|]). subst. discriminate.
Qed.

Lemma no_dot_digits_fuel fuel :
  forall n acc, no_dot acc -> no_dot (digits_fuel fuel n acc).
Proof.
  induction fuel as [|fuel IH]; intros n acc Hacc; [exact Hacc|].
  cbn [digits_fuel].
  assert (Hacc' : no_dot (String (digit_char (n mod 10)) acc)).
  { split; [|exact Hacc]. apply digit_char_no_dot, Z.mod_pos_bound. lia. }
  destruct (n / 10 =? 0); [exact Hacc' | now apply IH].
Qed.

Lemma no_dot_sign negative : no_dot (sign_text negative).
Proof. destruct negative; cbn; [split; [discriminate | exact I] | exact I]. Qed.

Lemma round_half_even_hundreds m :
  round_half_even (inject_Z m * inject_Z 100) = m * 100.
Proof.
  unfold round_half_even.
  assert (Hf : Qfloor (inject_Z m * inject_Z 100) = m * 100).
  { unfold Qfloor, inject_Z, Qmult. cbn. apply Z.div_1_r. }
  rewrite Hf.
  assert (Hlt : (inject_Z m * inject_Z 100 - inject_Z (m * 100) < 1 # 2)%Q).
  { unfold Qlt, Qminus, Qplus, Qopp, Qmult, inject_Z. cbn. lia. }
  cbv zeta. now rewrite (proj1 (Qlt_alt _ _) Hlt).
Qed.

Lemma Qltb_inject_Z_0 z : Qltb (inject_Z z) 0 = (z <? 0).
Proof.
  unfold Qltb, Qle_bool, inject_Z. cbn. rewrite Z.mul_1_r.
  now rewrite Z.ltb_antisym.
Qed.

(** X20. A float that holds a whole number other than zero is shown as
    the integer is: [PandasModel.data] formats it with two decimals and
    then takes the ".00" away, so that 250000.0 reads "250 000" like 250000
    does. (A float zero has a sign, which the integer 0 has not.) *)
Theorem whole_float_is_shown_as_integer z :
  z <> 0 ->
  display_text (CFloat (FFinite (inject_Z z))) = display_text (CInt z).
Proof.
  intros _.
  cbn [display_text format_float_comma].
  change (10 ^ Z.of_nat 2) with 100.
  change (Qabs (inject_Z z)) with (inject_Z (Z.abs z)).
  rewrite round_half_even_hundreds, Z.div_mul, Z.mod_mul by lia.
  change (zero_pad 2 (digits 0)) with "00".
  rewrite Qltb_inject_Z_0. unfold format_int_comma.
  change ("." ++ "00") with ".00".
  rewrite <- append_assoc, replace_comma_app.
  change (replace "," " " ".00") with ".00".
  apply replace_dot00_end, no_dot_replace_comma, no_dot_app.
  - apply no_dot_sign.
  - apply no_dot_group3. unfold digits. apply no_dot_digits_fuel. exact I.
Qed.

Lemma whole_float_is_shown_as_integer_witness :
  250000 <> 0 /\
  display_text (CFloat (FFinite (inject_Z 250000))) = "250 000" /\
  display_text (CFloat (FFinite (inject_Z 250000)))
  = display_text (CInt 250000).
Proof.
  assert (H : 250000 <> 0) by lia.
  split; [exact H|]. split; [reflexivity|].
  exact (whole_float_is_shown_as_integer 250000 H).
Defined.
